(** * Rational Fish: the rational-function analysis and quiz engine

    A shallow embedding of the engine part of [streamlit_app.py]: the class
    [RationalFunction] (property analysis, evaluation, polynomial formatting),
    the class [Question] and the function [create_questions].

    Python values are modelled as they are at run time: an [int] is an
    unbounded integer ([Z]), a [float] is an IEEE 754 binary64 number (Rocq's
    primitive [float]), a list is a [list], a [str] is a [string], [None] is
    [None] of an [option], and a raised exception is the [Raise] outcome of a
    [result].  *)

From Stdlib Require Import ZArith List String Ascii Bool Lia Floats DecimalString.
Import ListNotations.
Local Open Scope string_scope.
Local Open Scope Z_scope.
Set Warnings "-inexact-float,-register-all".

(* ================================================================= *)
(** ** Outcomes of a Python computation *)

(** The exceptions the engine's arithmetic and indexing can raise.
    [ComplexResult] is not a Python exception: it marks the one place where
    Python would leave the model's value space (a negative float raised to the
    power [0.5] is a [complex]); the engine guards that place with
    [discriminant >= 0]. *)
Inductive exn : Set :=
| ZeroDivisionError
| OverflowError
| IndexError
| ValueError
| ComplexResult.

Inductive result (A : Type) : Type :=
| Ok (a : A)
| Raise (e : exn).
Arguments Ok {A} a.
Arguments Raise {A} e.

Definition bind {A B : Type} (c : result A) (k : A -> result B) : result B :=
  match c with
  | Ok a => k a
  | Raise e => Raise e
  end.

Notation "x <- c ;; k" := (bind c (fun x => k))
  (at level 61, c at next level, right associativity).

(** [mapM f xs]: the list comprehension [[f(x) for x in xs]]; the first
    exception ends it. *)
Section MapM.

Context {A B : Type} (f : A -> result B).

Fixpoint mapM (xs : list A) : result (list B) :=
  match xs with
  | [] => Ok []
  | x :: xs' => y <- f x ;; ys <- mapM xs' ;; Ok (y :: ys)
  end.

End MapM.

(* ================================================================= *)
(** ** Python numbers *)

Inductive pyval : Set :=
| PInt (z : Z)
| PFloat (f : float).

(** [float(z)] for an int: round to nearest, ties to even; [OverflowError]
    when the int is too large for a float. *)
Definition float_of_Z (z : Z) : result float :=
  match binary_normalize prec emax z 0 false with
  | S754_infinity _ => Raise OverflowError
  | sf => Ok (SF2Prim sf)
  end.

(** The conversion Python applies to an operand of mixed arithmetic. *)
Definition as_float (v : pyval) : result float :=
  match v with
  | PInt z => float_of_Z z
  | PFloat f => Ok f
  end.

(** Unary minus and [abs]. *)
Definition py_neg (v : pyval) : pyval :=
  match v with
  | PInt z => PInt (- z)
  | PFloat f => PFloat (- f)%float
  end.

Definition py_abs (v : pyval) : pyval :=
  match v with
  | PInt z => PInt (Z.abs z)
  | PFloat f => PFloat (PrimFloat.abs f)
  end.

(** [+], [-], [*]: exact on two ints, IEEE on floats after converting an int
    operand. *)
Definition py_arith (zop : Z -> Z -> Z) (fop : float -> float -> float)
    (a b : pyval) : result pyval :=
  match a, b with
  | PInt x, PInt y => Ok (PInt (zop x y))
  | _, _ => x <- as_float a ;; y <- as_float b ;; Ok (PFloat (fop x y))
  end.

Definition py_add : pyval -> pyval -> result pyval := py_arith Z.add PrimFloat.add.
Definition py_sub : pyval -> pyval -> result pyval := py_arith Z.sub PrimFloat.sub.
Definition py_mul : pyval -> pyval -> result pyval := py_arith Z.mul PrimFloat.mul.

(** [a / b] on two ints: the correctly rounded quotient of the exact
    integers. *)
Definition int_truediv (a b : Z) : result float :=
  if b =? 0 then Raise ZeroDivisionError
  else if a =? 0 then Ok (if b <? 0 then neg_zero else zero)
  else
    let '(q, e, l) := SFdiv_core_binary prec emax (Z.abs a) 0 (Z.abs b) 0 in
    match binary_round_aux prec emax (xorb (a <? 0) (b <? 0)) q e l with
    | S754_infinity _ => Raise OverflowError
    | sf => Ok (SF2Prim sf)
    end.

(** [a / b]: true division always yields a float; a zero divisor raises. *)
Definition py_truediv (a b : pyval) : result pyval :=
  match a, b with
  | PInt x, PInt y => f <- int_truediv x y ;; Ok (PFloat f)
  | _, _ =>
      x <- as_float a ;;
      y <- as_float b ;;
      if is_zero y then Raise ZeroDivisionError else Ok (PFloat (x / y)%float)
  end.

(** [f ** n] for a float [f] and an int [n >= 0], after CPython's
    [float_pow]: the special cases first, then the C library's [pow], taken
    here as the correctly rounded power; an overflow raises.  (The C
    library's [pow] is not always correctly rounded: its value can differ
    from this one in the last place, as for [2.31 ** 4].  The special cases,
    the sign and the overflow are as here.) *)
Definition float_pow_nat (f : float) (n : nat) : result float :=
  match n with
  | O => Ok one
  | _ =>
      match Prim2SF f with
      | S754_nan => Ok f
      | S754_infinity _ => Ok (if Nat.odd n then f else PrimFloat.abs f)
      | S754_zero _ => Ok (if Nat.odd n then f else zero)
      | S754_finite s m e =>
          match binary_normalize prec emax (Z.pos m ^ Z.of_nat n) (e * Z.of_nat n) false with
          | S754_infinity _ => Raise OverflowError
          | sf => Ok (if s && Nat.odd n then (- SF2Prim sf)%float else SF2Prim sf)
          end
      end
  end.

(** [f ** 0.5], after the same function: [pow(f, 0.5)] is taken as the IEEE
    square root, from which the C library's value can differ in the last
    place, as for [2921.0 ** 0.5]. *)
Definition float_pow_half (f : float) : result float :=
  match Prim2SF f with
  | S754_nan => Ok f
  | S754_infinity _ => Ok infinity
  | S754_zero _ => Ok zero
  | S754_finite true _ _ => Raise ComplexResult
  | S754_finite false _ _ => Ok (sqrt f)
  end.

(** [v ** n] with an int exponent [n >= 0]. *)
Definition py_pow_nat (v : pyval) (n : nat) : result pyval :=
  match v with
  | PInt z => Ok (PInt (z ^ Z.of_nat n))
  | PFloat f => r <- float_pow_nat f n ;; Ok (PFloat r)
  end.

(** [v ** 0.5]. *)
Definition py_pow_half (v : pyval) : result pyval :=
  f <- as_float v ;; r <- float_pow_half f ;; Ok (PFloat r).

(** *** Comparisons

    Python compares an int with a float exactly, without rounding the int. *)
Definition Z_compare_SF (z : Z) (f : spec_float) : option comparison :=
  match f with
  | S754_nan => None
  | S754_infinity s => Some (if s then Gt else Lt)
  | S754_zero _ => Some (z ?= 0)
  | S754_finite s m e =>
      let v := if s then Z.neg m else Z.pos m in
      Some (match e with
            | Z.neg p => (z * 2 ^ Z.pos p) ?= v
            | _ => z ?= v * 2 ^ e
            end)
  end.

Definition py_compare (a b : pyval) : option comparison :=
  match a, b with
  | PInt x, PInt y => Some (x ?= y)
  | PInt x, PFloat g => Z_compare_SF x (Prim2SF g)
  | PFloat f, PInt y => option_map CompOpp (Z_compare_SF y (Prim2SF f))
  | PFloat f, PFloat g => SFcompare (Prim2SF f) (Prim2SF g)
  end.

Definition py_eq (a b : pyval) : bool :=
  match py_compare a b with Some Eq => true | _ => false end.
Definition py_ne (a b : pyval) : bool := negb (py_eq a b).
Definition py_lt (a b : pyval) : bool :=
  match py_compare a b with Some Lt => true | _ => false end.
Definition py_le (a b : pyval) : bool :=
  match py_compare a b with Some (Lt | Eq) => true | _ => false end.
Definition py_gt (a b : pyval) : bool := py_lt b a.
Definition py_ge (a b : pyval) : bool := py_le b a.

Definition py_is_nan (v : pyval) : bool :=
  match v with
  | PInt _ => false
  | PFloat f => PrimFloat.is_nan f
  end.

(** [int(v)]: truncation toward zero; an infinity or a nan raises. *)
Definition py_int (v : pyval) : result Z :=
  match v with
  | PInt z => Ok z
  | PFloat f =>
      match Prim2SF f with
      | S754_nan => Raise ValueError
      | S754_infinity _ => Raise OverflowError
      | S754_zero _ => Ok 0
      | S754_finite s m e =>
          let t := match e with
                   | Z.neg p => Z.shiftr (Z.pos m) (Z.pos p)
                   | _ => Z.pos m * 2 ^ e
                   end in
          Ok (if s then - t else t)
      end
  end.


(* ================================================================= *)
(** ** Python strings of numbers *)

(** The decimal digits of an int, with a minus sign in front of a negative
    one. *)
Definition int_str (z : Z) : string := NilZero.string_of_int (Z.to_int z).

(** [str(z)] for an int, as CPython computes it: an int of more than
    [sys.get_int_max_str_digits()] decimal digits is refused with
    [ValueError].  The limit is 4300 unless the program changes it, and this
    one does not. *)
Definition int_max_str_digits : Z := 4300.

Definition py_int_str (z : Z) : result string :=
  if 10 ^ int_max_str_digits <=? Z.abs z then Raise ValueError
  else Ok (int_str z).

(** *** [repr] of a float

    CPython prints the shortest decimal digit string that reads back as the
    same float, the one nearest the float's value among those of that length,
    and lays it out in fixed notation when the decimal point position is in
    [-3 .. 16], in exponent notation otherwise. *)

(** The fraction [n/d] times [10^(-q)], as a fraction. *)
Definition scale10 (q n d : Z) : Z * Z :=
  if q <? 0 then (n * 10 ^ (- q), d) else (n, d * 10 ^ q).

(** The [p] with [10^(p-1) <= n/d < 10^p], from an estimate. *)
Fixpoint decimal_exponent (fuel : nat) (n d p : Z) : Z :=
  match fuel with
  | O => p
  | S fuel' =>
      let '(n1, d1) := scale10 p n d in
      if d1 <=? n1 then decimal_exponent fuel' n d (p + 1)
      else
        let '(n0, d0) := scale10 (p - 1) n d in
        if n0 <? d0 then decimal_exponent fuel' n d (p - 1) else p
  end.

Definition within (incl : bool) (lo x hi : Z) : bool :=
  if incl then (lo <=? x) && (x <=? hi) else (lo <? x) && (x <? hi).

(** For each digit count [k] in turn: the two [k]-digit decimals around
    [v/d]; the first that lies in the rounding interval [lo/d .. hi/d] of the
    float wins, the nearer one when both do and, when both are as near, the
    one whose last digit is even.  Seventeen digits always suffice. *)
Fixpoint shortest_search (ks : list Z) (incl : bool) (lo v hi d p : Z) : Z * Z :=
  match ks with
  | [] => (0, 0)
  | k :: ks' =>
      let q := p - k in
      let '(v', d') := scale10 q v d in
      let lo' := fst (scale10 q lo d) in
      let hi' := fst (scale10 q hi d) in
      let c := v' / d' in
      let down := within incl lo' (c * d') hi' in
      let up := within incl lo' ((c + 1) * d') hi' in
      let twice := 2 * (v' - c * d') in
      let round_up := (d' <? twice) || ((twice =? d') && Z.odd c) in
      match ks' with
      | [] => (if round_up then c + 1 else c, q)
      | _ =>
          if down && up then (if round_up then c + 1 else c, q)
          else if down then (c, q)
          else if up then (c + 1, q)
          else shortest_search ks' incl lo v hi d p
      end
  end.

Fixpoint strip_zeros (fuel : nat) (c q : Z) : Z * Z :=
  match fuel with
  | O => (c, q)
  | S fuel' =>
      if (0 <? c) && (c mod 10 =? 0) then strip_zeros fuel' (c / 10) (q + 1)
      else (c, q)
  end.

(** The digits and the decimal point position of the finite positive float
    [m * 2^e]: its value is [0.d1d2...dk * 10^decpt].  Everything is counted
    in quarters of the float's unit in the last place, so that the interval
    ends are integers. *)
Definition shortest_digits (m : positive) (e : Z) : string * Z :=
  let m4 := 4 * Z.pos m in
  let narrow := (Z.pos m =? 2 ^ 52) && (-1074 <? e) in
  let lo4 := if narrow then m4 - 1 else m4 - 2 in
  let hi4 := m4 + 2 in
  let s := if e - 2 <? 0 then 1 else 2 ^ (e - 2) in
  let d := if e - 2 <? 0 then 2 ^ (2 - e) else 1 in
  let v := m4 * s in
  let p0 := (Z.log2 v - Z.log2 d) * 30103 / 100000 in
  let p := decimal_exponent 8 v d p0 in
  let '(c, q) := shortest_search (map Z.of_nat (seq 1 17)) (Z.even (Z.pos m))
                   (lo4 * s) v (hi4 * s) d p in
  let '(c', q') := strip_zeros 400 c q in
  let ds := int_str c' in
  (ds, Z.of_nat (String.length ds) + q').

Fixpoint zeros (n : nat) : string :=
  match n with
  | O => ""
  | S n' => "0" ++ zeros n'
  end.

Definition exp_str (x : Z) : string :=
  (if x <? 0 then "-" else "+") ++ (if Z.abs x <? 10 then "0" else "") ++ int_str (Z.abs x).

Definition format_repr (ds : string) (decpt : Z) : string :=
  let n := String.length ds in
  if (decpt <=? -4) || (16 <? decpt) then
    substring 0 1 ds ++ (if (1 <? n)%nat then "." ++ substring 1 (n - 1) ds else "")
      ++ "e" ++ exp_str (decpt - 1)
  else if decpt <=? 0 then "0." ++ zeros (Z.to_nat (- decpt)) ++ ds
  else if decpt <? Z.of_nat n then
    substring 0 (Z.to_nat decpt) ds ++ "."
      ++ substring (Z.to_nat decpt) (n - Z.to_nat decpt) ds
  else ds ++ zeros (Z.to_nat decpt - n) ++ ".0".

Definition float_repr (f : float) : string :=
  match Prim2SF f with
  | S754_nan => "nan"
  | S754_infinity s => if s then "-inf" else "inf"
  | S754_zero s => if s then "-0.0" else "0.0"
  | S754_finite s m e =>
      let '(ds, decpt) := shortest_digits m e in
      (if s then "-" else "") ++ format_repr ds decpt
  end.

(** [str(v)], which is also what an f-string field [{v}] prints, for a
    float and for an int within the digit limit of [py_int_str]; the ints
    the game puts in an f-string are the asymptote [0], the option [1], the
    points of a question and the level. *)
Definition py_str (v : pyval) : string :=
  match v with
  | PInt z => int_str z
  | PFloat f => float_repr f
  end.

(** [s.startswith('-')] and [s[1:]]. *)
Definition startswith_minus (s : string) : bool :=
  match s with
  | String c _ => Ascii.eqb c "-"%char
  | EmptyString => false
  end.

Definition tail (s : string) : string :=
  match s with
  | String _ s' => s'
  | EmptyString => EmptyString
  end.

(** [l[0]] and [l[-1]]. *)
Definition first_item (l : list pyval) : result pyval :=
  match l with
  | x :: _ => Ok x
  | [] => Raise IndexError
  end.

Definition last_item (l : list pyval) : result pyval :=
  match rev l with
  | x :: _ => Ok x
  | [] => Raise IndexError
  end.

(* ================================================================= *)
(** ** class RationalFunction *)

Record RationalFunction : Type := {
  numerator : list pyval;
  denominator : list pyval;
  level : Z;
  name : string;
  vertical_asymptotes : list pyval;
  horizontal_asymptote : option pyval;
  x_intercepts : list pyval;
  y_intercept : option pyval
}.

(** The methods that [__init__] calls read only the two coefficient lists of
    [self]; they take them as arguments. *)
Definition find_vertical_asymptotes (denominator : list pyval) : result (list pyval) :=
  match denominator with
  | [d0; d1] =>
      if py_ne d0 (PInt 0) then
        r <- py_truediv (py_neg d1) d0 ;; Ok [r]
      else Ok []
  | [a; b; c] =>
      if py_ne a (PInt 0) then
        b2 <- py_pow_nat b 2 ;;
        a4 <- py_mul (PInt 4) a ;;
        ac4 <- py_mul a4 c ;;
        discriminant <- py_sub b2 ac4 ;;
        if py_ge discriminant (PInt 0) then
          sqrt_disc <- py_pow_half discriminant ;;
          p <- py_add (py_neg b) sqrt_disc ;;
          a2 <- py_mul (PInt 2) a ;;
          r1 <- py_truediv p a2 ;;
          m <- py_sub (py_neg b) sqrt_disc ;;
          a2' <- py_mul (PInt 2) a ;;
          r2 <- py_truediv m a2' ;;
          Ok [r1; r2]
        else Ok []
      else Ok []
  | _ => Ok []
  end.

Definition find_horizontal_asymptote (numerator denominator : list pyval)
    : result (option pyval) :=
  let num_degree := Z.of_nat (List.length numerator) - 1 in
  let den_degree := Z.of_nat (List.length denominator) - 1 in
  if num_degree <? den_degree then Ok (Some (PInt 0))
  else if num_degree =? den_degree then
    n0 <- first_item numerator ;;
    d0 <- first_item denominator ;;
    q <- py_truediv n0 d0 ;;
    Ok (Some q)
  else Ok None.

Definition find_x_intercepts (numerator : list pyval) : result (list pyval) :=
  match numerator with
  | [n0; n1] =>
      if py_ne n0 (PInt 0) then
        r <- py_truediv (py_neg n1) n0 ;; Ok [r]
      else Ok []
  | _ => Ok []
  end.

Definition find_y_intercept (numerator denominator : list pyval)
    : result (option pyval) :=
  d <- last_item denominator ;;
  if py_ne d (PInt 0) then
    n <- last_item numerator ;;
    q <- py_truediv n d ;;
    Ok (Some q)
  else Ok None.

(** [RationalFunction(numerator, denominator, level, name)], that is
    [__init__]: the four derived fields are computed once, in this order. *)
Definition RationalFunction_init (numerator denominator : list pyval)
    (level : Z) (name : string) : result RationalFunction :=
  va <- find_vertical_asymptotes denominator ;;
  ha <- find_horizontal_asymptote numerator denominator ;;
  xi <- find_x_intercepts numerator ;;
  yi <- find_y_intercept numerator denominator ;;
  Ok {| numerator := numerator; denominator := denominator;
        level := level; name := name;
        vertical_asymptotes := va; horizontal_asymptote := ha;
        x_intercepts := xi; y_intercept := yi |}.

(** *** evaluate *)

(** [sum(coef * (x ** (len(coeffs) - 1 - i)) for i, coef in enumerate(coeffs))]:
    the exponent of a coefficient is the number of coefficients after it; the
    sum starts from the int [0] and adds the terms from left to right.
    (CPython 3.12 and later compensate the rounding error of a float sum;
    the sums of ints, and every sum evaluated below, are exact.) *)
Fixpoint poly_sum (coeffs : list pyval) (x acc : pyval) : result pyval :=
  match coeffs with
  | [] => Ok acc
  | coef :: rest =>
      p <- py_pow_nat x (List.length rest) ;;
      t <- py_mul coef p ;;
      acc' <- py_add acc t ;;
      poly_sum rest x acc'
  end.

Definition poly_value (coeffs : list pyval) (x : pyval) : result pyval :=
  poly_sum coeffs x (PInt 0).

(** The argument of [evaluate]: a number, or a list (or array) of
    arguments. *)
Inductive pyarg : Type :=
| Scalar (v : pyval)
| Seq (xs : list pyarg).

Definition evaluate_scalar (self : RationalFunction) (x : pyval) : result pyval :=
  num_val <- poly_value (numerator self) x ;;
  den_val <- poly_value (denominator self) x ;;
  if py_lt (py_abs den_val) (PFloat 1e-10) then
    Ok (if py_gt den_val (PInt 0) then PFloat infinity else PFloat neg_infinity)
  else py_truediv num_val den_val.

Fixpoint evaluate (self : RationalFunction) (x : pyarg) : result pyarg :=
  match x with
  | Seq xs => ys <- mapM (evaluate self) xs ;; Ok (Seq ys)
  | Scalar v => r <- evaluate_scalar self v ;; Ok (Scalar r)
  end.

(** *** format_polynomial *)

(** [int(coef) if coef == int(coef) else coef], printed. *)
Definition coef_str (coef : pyval) : result string :=
  i <- py_int coef ;;
  if py_eq coef (PInt i) then py_int_str i else Ok (py_str coef).

(** The body of the loop for a non-zero coefficient.  (The exponent that
    is printed is less than the length of the list.) *)
Definition format_term (coef : pyval) (power : nat) : result string :=
  match power with
  | 0%nat => coef_str coef
  | 1%nat =>
      if py_eq coef (PInt 1) then Ok "x"
      else if py_eq coef (PInt (-1)) then Ok "-x"
      else s <- coef_str coef ;; Ok (s ++ "x")
  | _ =>
      if py_eq coef (PInt 1) then Ok ("x^" ++ int_str (Z.of_nat power))
      else if py_eq coef (PInt (-1)) then Ok ("-x^" ++ int_str (Z.of_nat power))
      else s <- coef_str coef ;; Ok (s ++ "x^" ++ int_str (Z.of_nat power))
  end.

(** The loop that fills [terms]; [power = degree - i] is the number of
    coefficients after the current one. *)
Fixpoint collect_terms (coeffs : list pyval) : result (list string) :=
  match coeffs with
  | [] => Ok []
  | coef :: rest =>
      if py_eq coef (PInt 0) then collect_terms rest
      else
        t <- format_term coef (List.length rest) ;;
        ts <- collect_terms rest ;;
        Ok (t :: ts)
  end.

Definition join_step (result term : string) : string :=
  if startswith_minus term then result ++ " - " ++ tail term
  else result ++ " + " ++ term.

Definition join_terms (terms : list string) : string :=
  match terms with
  | [] => "0"
  | t0 :: ts => fold_left join_step ts t0
  end.

Definition format_polynomial (coeffs : list pyval) : result string :=
  match coeffs with
  | [] => Ok "0"
  | _ => terms <- collect_terms coeffs ;; Ok (join_terms terms)
  end.

Definition get_equation (self : RationalFunction) : result string :=
  num_str <- format_polynomial (numerator self) ;;
  den_str <- format_polynomial (denominator self) ;;
  Ok ("(" ++ num_str ++ ") / (" ++ den_str ++ ")").

(* ================================================================= *)
(** ** class Question and create_questions *)

(** The attribute [type] carries the name of its constructor argument,
    [q_type]. *)
Record Question : Type := {
  function : RationalFunction;
  q_type : string;
  question_text : string;
  options : list string;
  correct_answer : string;
  explanation : string;
  points : Z
}.

(** [va1, va2 = sorted(l)].  On a list of two items Python's sort makes the
    one comparison [l[1] < l[0]] and swaps the items when it holds; unpacking
    a list of any other length into two names raises [ValueError]. *)
Definition sorted_pair (l : list pyval) : result (pyval * pyval) :=
  match l with
  | [x; y] => Ok (if py_lt y x then (y, x) else (x, y))
  | _ => Raise ValueError
  end.

Definition vertical_question (function : RationalFunction) : result (list Question) :=
  match vertical_asymptotes function with
  | [] => Ok []
  | va :: rest =>
      match rest with
      | [] =>
          va_1 <- py_add va (PInt 1) ;;
          Ok [ {| function := function;
                  q_type := "vertical_asymptote";
                  question_text :=
                    "What is the vertical asymptote of " ++ name function ++ "?";
                  options := [ "x = " ++ py_str va; "x = " ++ py_str va_1;
                               "y = " ++ py_str va; "No vertical asymptote" ];
                  correct_answer := "x = " ++ py_str va;
                  explanation :=
                    "The vertical asymptote occurs where the denominator equals zero.";
                  points := 100 |} ]
      | _ =>
          va12 <- sorted_pair (vertical_asymptotes function) ;;
          let '(va1, va2) := va12 in
          Ok [ {| function := function;
                  q_type := "vertical_asymptote";
                  question_text :=
                    "What are the vertical asymptotes of " ++ name function ++ "?";
                  options := [ "x = " ++ py_str va1 ++ " and x = " ++ py_str va2;
                               "x = " ++ py_str va1; "x = " ++ py_str va2;
                               "No vertical asymptotes" ];
                  correct_answer := "x = " ++ py_str va1 ++ " and x = " ++ py_str va2;
                  explanation :=
                    "The vertical asymptotes occur where the denominator equals zero.";
                  points := 150 |} ]
      end
  end.

Definition horizontal_question (function : RationalFunction) : result (list Question) :=
  match horizontal_asymptote function with
  | Some ha =>
      ha_1 <- py_add ha (PInt 1) ;;
      Ok [ {| function := function;
              q_type := "horizontal_asymptote";
              question_text :=
                "What is the horizontal asymptote of " ++ name function ++ "?";
              options := [ "y = " ++ py_str ha; "y = " ++ py_str ha_1;
                           "y = 0"; "No horizontal asymptote" ];
              correct_answer := "y = " ++ py_str ha;
              explanation :=
                "Compare the degrees of numerator and denominator to find the horizontal asymptote.";
              points := 100 |} ]
  | None => Ok []
  end.

Definition intercept_question (function : RationalFunction) : result (list Question) :=
  match x_intercepts function with
  | xi :: _ =>
      xi_1 <- py_add xi (PInt 1) ;;
      Ok [ {| function := function;
              q_type := "x_intercept";
              question_text := "What is the x-intercept of " ++ name function ++ "?";
              options := [ "x = " ++ py_str xi; "x = " ++ py_str xi_1;
                           "x = 0"; "No x-intercept" ];
              correct_answer := "x = " ++ py_str xi;
              explanation := "X-intercepts occur where the numerator equals zero.";
              points := 100 |} ]
  | [] => Ok []
  end.

(** The three [if] blocks of [create_questions], in order; each appends at
    most one question. *)
Definition create_questions (function : RationalFunction) : result (list Question) :=
  qv <- vertical_question function ;;
  qh <- horizontal_question function ;;
  qx <- intercept_question function ;;
  Ok (qv ++ qh ++ qx)%list.

(* ================================================================= *)
(** ** Vocabulary of the specification *)

(** The denominator's roots in the spec's words: [-b/a] for [ax + b], and
    for [ax^2 + bx + c] the discriminant [d = b^2 - 4ac] and the two roots
    [(-b + sqrt d)/(2a)] and [(-b - sqrt d)/(2a)]. *)
Definition linear_root (a b : pyval) : result pyval :=
  py_truediv (py_neg b) a.

Definition discriminant_of (a b c : pyval) : result pyval :=
  b2 <- py_pow_nat b 2 ;;
  a4 <- py_mul (PInt 4) a ;;
  ac4 <- py_mul a4 c ;;
  py_sub b2 ac4.

Definition quadratic_root (plus : bool) (a b d : pyval) : result pyval :=
  s <- py_pow_half d ;;
  n <- (if plus then py_add else py_sub) (py_neg b) s ;;
  a2 <- py_mul (PInt 2) a ;;
  py_truediv n a2.

(** Degree of a coefficient list, as the code computes it. *)
Definition degree (coeffs : list pyval) : Z := Z.of_nat (List.length coeffs) - 1.

(** A sequence every item of which is zero. *)
Definition all_zero (coeffs : list pyval) : bool :=
  forallb (fun c => py_eq c (PInt 0)) coeffs.

(** Consecutive items are in ascending order. *)
Fixpoint ascending (l : list pyval) : bool :=
  match l with
  | x :: (y :: _) as l' => py_le x y && ascending l'
  | _ => true
  end.

(** Each coefficient with the degree of its term. *)
Fixpoint with_powers (coeffs : list pyval) : list (pyval * nat) :=
  match coeffs with
  | [] => []
  | coef :: rest => (coef, List.length rest) :: with_powers rest
  end.

Definition nonzero_term (cp : pyval * nat) : bool := py_ne (fst cp) (PInt 0).

(** A later term behind its separator. *)
Definition signed_term (negative : bool) (term : string) : string :=
  if negative then " - " ++ tail term else " + " ++ term.

Fixpoint flatten (l : list string) : string :=
  match l with
  | [] => ""
  | s :: l' => s ++ flatten l'
  end.

(** The formatter in the spec's words: the terms with a zero coefficient
    are left out; the others are printed in the order of the coefficients,
    the first as it is and each later one behind [" + "], or behind [" - "]
    and without its sign when its coefficient is negative; without any term
    the result is ["0"]. *)
Definition formatted_polynomial (coeffs : list pyval) : result string :=
  let kept := filter nonzero_term (with_powers coeffs) in
  terms <- mapM (fun cp => format_term (fst cp) (snd cp)) kept ;;
  Ok match combine kept terms with
     | [] => "0"
     | (_, t0) :: later =>
         t0 ++ flatten (map (fun ct => signed_term (py_lt (fst (fst ct)) (PInt 0)) (snd ct))
                            later)
     end.

(** How often an answer string occurs among the options. *)
Definition occurrences (answer : string) (opts : list string) : nat :=
  count_occ string_dec opts answer.

(** The well-formedness of a question that the spec asks for: four pairwise
    different options, one of which, and only one, is the correct answer. *)
Definition well_formed_question (q : Question) : Prop :=
  List.length (options q) = 4%nat /\
  NoDup (options q) /\
  occurrences (correct_answer q) (options q) = 1%nat.

(** *** Sample functions

    Three of the functions of [create_sample_functions], with the derived
    fields their construction computes, and functions outside it. *)
Definition one_over_x : RationalFunction :=
  {| numerator := [PInt 1]; denominator := [PInt 1; PInt 0];
     level := 1; name := "f(x) = 1/x";
     vertical_asymptotes := [PFloat 0]; horizontal_asymptote := Some (PInt 0);
     x_intercepts := []; y_intercept := None |}.

Definition two_over_x_minus_1 : RationalFunction :=
  {| numerator := [PInt 2]; denominator := [PInt 1; PInt (-1)];
     level := 1; name := "f(x) = 2/(x-1)";
     vertical_asymptotes := [PFloat 1]; horizontal_asymptote := Some (PInt 0);
     x_intercepts := []; y_intercept := Some (PFloat (-2)) |}.

Definition x_minus_1_over_x2_minus_4 : RationalFunction :=
  {| numerator := [PInt 1; PInt (-1)]; denominator := [PInt 1; PInt 0; PInt (-4)];
     level := 2; name := "f(x) = (x-1)/(x^2-4)";
     vertical_asymptotes := [PFloat 2; PFloat (-2)];
     horizontal_asymptote := Some (PInt 0);
     x_intercepts := [PFloat 1]; y_intercept := Some (PFloat 0.25) |}.

Definition double_root : RationalFunction :=
  {| numerator := [PInt 1]; denominator := [PInt 1; PInt (-2); PInt 1];
     level := 2; name := "f(x) = 1/(x-1)^2";
     vertical_asymptotes := [PFloat 1; PFloat 1];
     horizontal_asymptote := Some (PInt 0);
     x_intercepts := []; y_intercept := Some (PFloat 1) |}.

(** Two functions with the numerator [x^2], for arguments as large as
    [1e200]: over [1e-300 x] and over [x - 1e200]. *)
Definition x2_over_tiny_x : RationalFunction :=
  {| numerator := [PInt 1; PInt 0; PInt 0]; denominator := [PFloat 1e-300; PInt 0];
     level := 1; name := "f(x) = x^2/(1e-300x)";
     vertical_asymptotes := [PFloat 0]; horizontal_asymptote := None;
     x_intercepts := []; y_intercept := None |}.

Definition x2_over_x_minus_1e200 : RationalFunction :=
  {| numerator := [PInt 1; PInt 0; PInt 0]; denominator := [PInt 1; PFloat (-1e200)];
     level := 1; name := "f(x) = x^2/(x-1e+200)";
     vertical_asymptotes := [PFloat 1e200]; horizontal_asymptote := None;
     x_intercepts := []; y_intercept := Some (PFloat (-0)) |}.

(* ================================================================= *)
(** ** The sample functions and the game session *)

(** [create_sample_functions]: the dict from a level to its functions, as
    the list of its items; every call constructs the seven functions anew,
    level 1 first. *)
Definition create_sample_functions : result (list (Z * list RationalFunction)) :=
  f1 <- RationalFunction_init [PInt 1] [PInt 1; PInt 0] 1 "f(x) = 1/x" ;;
  f2 <- RationalFunction_init [PInt 2] [PInt 1; PInt (-1)] 1 "f(x) = 2/(x-1)" ;;
  f3 <- RationalFunction_init [PInt 1; PInt 0] [PInt 1; PInt (-2)] 1 "f(x) = x/(x-2)" ;;
  f4 <- RationalFunction_init [PInt 3] [PInt 1; PInt 1] 1 "f(x) = 3/(x+1)" ;;
  f5 <- RationalFunction_init [PInt 2; PInt 0] [PInt 1; PInt (-1)] 2 "f(x) = 2x/(x-1)" ;;
  f6 <- RationalFunction_init [PInt 1; PInt (-1)] [PInt 1; PInt 0; PInt (-4)] 2
          "f(x) = (x-1)/(x²-4)" ;;
  f7 <- RationalFunction_init [PInt 1; PInt 0; PInt 1] [PInt 1; PInt 0] 2
          "f(x) = (x²+1)/x" ;;
  Ok [(1, [f1; f2; f3; f4]); (2, [f5; f6; f7])].

(** [d.get(key, [])] on such a dict. *)
Fixpoint get_level (d : list (Z * list RationalFunction)) (key : Z)
    : list RationalFunction :=
  match d with
  | [] => []
  | (k, fs) :: d' => if k =? key then fs else get_level d' key
  end.

(** [st.session_state.game_state], a dict with a fixed set of keys.  The
    values under [feedback_data] and [leaderboard] are only ever the empty
    dict and the empty list. *)
Record game_state : Type := {
  player_name : string;
  current_level : Z;
  score : Z;
  lives : Z;
  functions_caught : list string;
  current_function : option RationalFunction;
  current_questions : list Question;
  question_index : Z;
  game_started : bool;
  show_feedback : bool;
  feedback_data : list (string * string);
  leaderboard : list string
}.

(** What a handler shows with Streamlit, in order; [Rerun] is [st.rerun()],
    which ends the script run, and [Sleep] is [time.sleep]. *)
Inductive ui_event : Type :=
| StSuccess (msg : string)
| StInfo (msg : string)
| StError (msg : string)
| Sleep (seconds : Z)
| Rerun.

(** The state at the start of a session and after [reset_game]. *)
Definition initial_game_state : game_state :=
  {| player_name := ""; current_level := 1; score := 0; lives := 5;
     functions_caught := []; current_function := None;
     current_questions := []; question_index := 0;
     game_started := false; show_feedback := false;
     feedback_data := []; leaderboard := [] |}.

Definition reset_game (s : game_state) : game_state * list ui_event :=
  (initial_game_state, [Rerun]).

(** The comprehension of [main] that picks the functions on offer: those of
    the current level whose name is not among the caught ones. *)
Definition available_functions (s : game_state) : result (list RationalFunction) :=
  all_functions <- create_sample_functions ;;
  Ok (filter (fun f => negb (existsb (String.eqb (name f)) (functions_caught s)))
             (get_level all_functions (current_level s))).

(** [catch_function]: the exception of [create_questions], if any, leaves
    the handler after [current_function] is set. *)
Definition catch_function (function : RationalFunction) (s : game_state)
    : game_state * list ui_event * option exn :=
  match create_questions function with
  | Raise e =>
      ({| player_name := player_name s; current_level := current_level s;
          score := score s; lives := lives s;
          functions_caught := functions_caught s;
          current_function := Some function;
          current_questions := current_questions s;
          question_index := question_index s;
          game_started := game_started s; show_feedback := show_feedback s;
          feedback_data := feedback_data s; leaderboard := leaderboard s |},
       [], Some e)
  | Ok questions =>
      ({| player_name := player_name s; current_level := current_level s;
          score := score s; lives := lives s;
          functions_caught := (functions_caught s ++ [name function])%list;
          current_function := Some function;
          current_questions := questions;
          question_index := 0;
          game_started := game_started s; show_feedback := show_feedback s;
          feedback_data := feedback_data s; leaderboard := leaderboard s |},
       [StSuccess ("🎣 Caught " ++ name function ++ "! Answer questions to earn points.");
        Rerun],
       None)
  end.

Definition next_question (s : game_state) : game_state * list ui_event :=
  let index := question_index s + 1 in
  if Z.of_nat (List.length (current_questions s)) <=? index then
    ({| player_name := player_name s; current_level := current_level s;
        score := score s; lives := lives s;
        functions_caught := functions_caught s;
        current_function := None;
        current_questions := [];
        question_index := 0;
        game_started := game_started s; show_feedback := show_feedback s;
        feedback_data := feedback_data s; leaderboard := leaderboard s |},
     [StSuccess "🌟 Function complete! Catch another function to continue."; Rerun])
  else
    ({| player_name := player_name s; current_level := current_level s;
        score := score s; lives := lives s;
        functions_caught := functions_caught s;
        current_function := current_function s;
        current_questions := current_questions s;
        question_index := index;
        game_started := game_started s; show_feedback := show_feedback s;
        feedback_data := feedback_data s; leaderboard := leaderboard s |},
     [Rerun]).

(** The two branches of [submit_answer] on [is_correct]. *)
Definition add_score (s : game_state) (points : Z) : game_state :=
  {| player_name := player_name s; current_level := current_level s;
     score := score s + points; lives := lives s;
     functions_caught := functions_caught s;
     current_function := current_function s;
     current_questions := current_questions s;
     question_index := question_index s;
     game_started := game_started s; show_feedback := show_feedback s;
     feedback_data := feedback_data s; leaderboard := leaderboard s |}.

Definition lose_life (s : game_state) : game_state :=
  {| player_name := player_name s; current_level := current_level s;
     score := score s; lives := lives s - 1;
     functions_caught := functions_caught s;
     current_function := current_function s;
     current_questions := current_questions s;
     question_index := question_index s;
     game_started := game_started s; show_feedback := show_feedback s;
     feedback_data := feedback_data s; leaderboard := leaderboard s |}.

Definition submit_answer (question : Question) (answer : string) (s : game_state)
    : game_state * list ui_event :=
  let is_correct := String.eqb answer (correct_answer question) in
  let points := if is_correct then points question else 0 in
  let s1 := if is_correct then add_score s points else lose_life s in
  let shown :=
    if is_correct then
      [StSuccess ("✅ Correct! +" ++ int_str points ++ " points");
       StInfo ("**Explanation:** " ++ explanation question)]
    else
      [StError ("❌ Incorrect. The correct answer was: " ++ correct_answer question);
       StInfo ("**Explanation:** " ++ explanation question)] in
  if lives s1 <=? 0 then
    (s1, (shown ++ [StError "💀 Game Over! You ran out of lives."])%list)
  else
    let '(s2, shown2) := next_question s1 in
    (s2, (shown ++ [Sleep 2] ++ shown2)%list).

(** [show_hint]: the dict of hints and its [get] with a default. *)
Definition hints : list (string * string) :=
  [ ("vertical_asymptote", "Look for values that make the denominator equal to zero.");
    ("horizontal_asymptote", "Compare the degrees of the numerator and denominator.");
    ("x_intercept", "Find where the numerator equals zero (but denominator doesn't).");
    ("y_intercept", "Substitute x = 0 into the function.") ].

Fixpoint get_hint (d : list (string * string)) (key default : string) : string :=
  match d with
  | [] => default
  | (k, v) :: d' => if String.eqb k key then v else get_hint d' key default
  end.

Definition show_hint (question : Question) : list ui_event :=
  let hint := get_hint hints (q_type question) "Think about the function's properties." in
  [StInfo ("💡 **Hint:** " ++ hint)].

Definition advance_level (s : game_state) : game_state * list ui_event :=
  let next := current_level s + 1 in
  ({| player_name := player_name s; current_level := next;
      score := score s; lives := lives s;
      functions_caught := [];
      current_function := None;
      current_questions := [];
      question_index := question_index s;
      game_started := game_started s; show_feedback := show_feedback s;
      feedback_data := feedback_data s; leaderboard := leaderboard s |},
   [StSuccess ("🎉 Welcome to Level " ++ int_str next ++ "!"); Rerun]).

(** *** Vocabulary for the properties of the added code *)

(** A polynomial with int coefficients at an int, by Horner's rule. *)
Definition horner (coeffs : list Z) (x : Z) : Z :=
  fold_left (fun acc c => acc * x + c) coeffs 0.

(** A number that is neither an infinity nor a nan. *)
Definition py_is_finite (v : pyval) : bool :=
  match v with
  | PInt _ => true
  | PFloat f =>
      match Prim2SF f with
      | S754_nan | S754_infinity _ => false
      | _ => true
      end
  end.

(** A number [format_polynomial] can print: a float that is neither an
    infinity nor a nan, or an int within the digit limit of [str]. *)
Definition py_printable (v : pyval) : bool :=
  match v with
  | PInt z => Z.abs z <? 10 ^ int_max_str_digits
  | PFloat _ => py_is_finite v
  end.

Definition is_float (v : pyval) : bool :=
  match v with
  | PFloat _ => true
  | PInt _ => false
  end.

(** A spec float other than a negative finite non-zero number: the floats
    whose power [0.5] is real. *)
Definition has_real_root (r : spec_float) : Prop :=
  match r with
  | S754_finite true _ _ => False
  | _ => True
  end.

(** The kinds of question a function gives rise to, in the order of
    [create_questions]. *)
Definition expected_kinds (f : RationalFunction) : list string :=
  ((match vertical_asymptotes f with [] => [] | _ => ["vertical_asymptote"] end)
   ++ (match horizontal_asymptote f with None => [] | Some _ => ["horizontal_asymptote"] end)
   ++ (match x_intercepts f with [] => [] | _ => ["x_intercept"] end))%list.

(** The question at [question_index], counted from the front of
    [current_questions], when there is one. *)
Definition current_question (s : game_state) : option Question :=
  if 0 <=? question_index s then
    nth_error (current_questions s) (Z.to_nat (question_index s))
  else None.

(** The index is not negative and, while there are questions, points at one
    of them. *)
Definition index_in_range (s : game_state) : Prop :=
  0 <= question_index s /\
  (current_questions s <> [] ->
   question_index s < Z.of_nat (List.length (current_questions s))).

(** [n] times "Skip Question". *)
Fixpoint skip (n : nat) (s : game_state) : game_state :=
  match n with
  | O => s
  | S n' => skip n' (fst (next_question s))
  end.

(** [n] times "Submit Answer" with the same question and answer. *)
Fixpoint resubmit (n : nat) (question : Question) (answer : string) (s : game_state)
    : game_state :=
  match n with
  | O => s
  | S n' => resubmit n' question answer (fst (submit_answer question answer s))
  end.

(** *** The buttons of [main] *)

(** [l[i]]: Python indexing, from the end for a negative index. *)
Definition getitem {A : Type} (l : list A) (i : Z) : result A :=
  let j := if i <? 0 then i + Z.of_nat (List.length l) else i in
  if j <? 0 then Raise IndexError
  else match nth_error l (Z.to_nat j) with
       | Some a => Ok a
       | None => Raise IndexError
       end.

(** The buttons [main] puts on show; a click runs the script once more with
    that one button pressed.  [CatchFunction i] is the button of entry [i]
    of the functions on offer, [SubmitAnswer choice] is "Submit Answer"
    with entry [choice] of the question's options picked in the radio. *)
Inductive button : Type :=
| StartGame (player_name_input : string)
| ViewLeaderboard
| NewGame
| AdvanceToNextLevel
| CatchFunction (i : nat)
| SubmitAnswer (choice : nat)
| GetHint
| SkipQuestion.

(** The question panel of [main]: the question on show, if the panel is
    drawn. *)
Definition question_panel (s : game_state) : option Question :=
  match current_function s, current_questions s with
  | Some _, _ :: _ =>
      if question_index s <? Z.of_nat (List.length (current_questions s)) then
        match getitem (current_questions s) (question_index s) with
        | Ok question => Some question
        | Raise _ => None
        end
      else None
  | _, _ => None
  end.

Definition start_game (player : string) (s : game_state) : game_state :=
  {| player_name := player; current_level := current_level s;
     score := score s; lives := lives s;
     functions_caught := functions_caught s;
     current_function := current_function s;
     current_questions := current_questions s;
     question_index := question_index s;
     game_started := true; show_feedback := show_feedback s;
     feedback_data := feedback_data s; leaderboard := leaderboard s |}.

(** One run of [main] with button [b] pressed: the game state it leaves, or
    [None] when [main] does not put that button on show in state [s].  The
    plot and the leaderboard drawn on the way only read the state; the state
    a handler leaves stays in the session also when the handler raises. *)
Definition click (b : button) (s : game_state) : option game_state :=
  if negb (game_started s) then
    match b with
    | StartGame player =>
        if (player =? "")%string then Some s else Some (start_game player s)
    | _ => None
    end
  else
    match b with
    | StartGame _ => None
    | ViewLeaderboard => Some s
    | NewGame => Some (fst (reset_game s))
    | AdvanceToNextLevel =>
        match available_functions s with
        | Ok [] => Some (fst (advance_level s))
        | _ => None
        end
    | CatchFunction i =>
        match available_functions s with
        | Ok available =>
            match nth_error available i with
            | Some function => Some (fst (fst (catch_function function s)))
            | None => None
            end
        | Raise _ => None
        end
    | SubmitAnswer choice =>
        match question_panel s with
        | Some question =>
            match nth_error (options question) choice with
            | Some answer => Some (fst (submit_answer question answer s))
            | None => None
            end
        | None => None
        end
    | GetHint =>
        match question_panel s with
        | Some _ => Some s
        | None => None
        end
    | SkipQuestion =>
        match question_panel s with
        | Some _ => Some (fst (next_question s))
        | None => None
        end
    end.

(** A session: the clicks one after the other. *)
Fixpoint play (clicks : list button) (s : game_state) : option game_state :=
  match clicks with
  | [] => Some s
  | b :: rest =>
      match click b s with
      | Some s' => play rest s'
      | None => None
      end
  end.

(** What holds of the game state all through a session. *)
Definition game_invariant (s : game_state) : Prop :=
  0 <= score s /\
  lives s <= 5 /\
  1 <= current_level s /\
  NoDup (functions_caught s) /\
  (forall all_functions, create_sample_functions = Ok all_functions ->
     incl (functions_caught s)
          (map name (get_level all_functions (current_level s)))) /\
  index_in_range s /\
  (current_function s = None -> current_questions s = []) /\
  Forall (fun q => points q = 100 \/ points q = 150) (current_questions s) /\
  (game_started s = false -> s = initial_game_state).

(* ================================================================= *)
(** ** Reasoning about outcomes *)

Lemma bind_Ok {A B : Type} (c : result A) (k : A -> result B) (b : B) :
  (x <- c ;; k x) = Ok b -> exists a, c = Ok a /\ k a = Ok b.
Proof.
  destruct c as [a | e]; simpl; intros H; [eauto | discriminate].
Qed.

(** Splits a hypothesis [x <- c ;; k = Ok b] into its two steps. *)
Ltac bind_inv H :=
  let a := fresh "v" in
  let Ha := fresh "E" in
  apply bind_Ok in H; destruct H as (a & Ha & H).

Ltac ok_inv H := injection H as H; try subst.

Lemma mapM_Ok {A B : Type} (f : A -> result B) (xs : list A) (ys : list B) :
  mapM f xs = Ok ys <-> Forall2 (fun x y => f x = Ok y) xs ys.
Proof.
  revert ys; induction xs as [| x xs IH]; intros ys; simpl.
  - split; intros H.
    + ok_inv H. constructor.
    + inversion H; reflexivity.
  - split; intros H.
    + bind_inv H. bind_inv H. ok_inv H.
      constructor; [assumption | now apply IH].
    + inversion H as [| ? y ? ys' Hy Hys]; subst.
      rewrite Hy; simpl. apply IH in Hys. rewrite Hys; reflexivity.
Qed.

Lemma bind_Raise {A B : Type} (c : result A) (k : A -> result B) (e : exn) :
  (x <- c ;; k x) = Raise e -> c = Raise e \/ exists a, c = Ok a /\ k a = Raise e.
Proof.
  destruct c as [a | e']; cbn [bind]; intros H; [eauto |].
  injection H as ->. now left.
Qed.

(** Splits a hypothesis [x <- c ;; k = Raise e] into its two cases. *)
Ltac raise_inv H :=
  let a := fresh "v" in
  let Ha := fresh "E" in
  apply bind_Raise in H; destruct H as [H | (a & Ha & H)].

(** *** The exceptions of the arithmetic

    Sums, differences, products and powers raise nothing but
    [OverflowError]: an int too large for a float, or a float power out of
    range. *)

Lemma float_of_Z_exn (z : Z) (e : exn) : float_of_Z z = Raise e -> e = OverflowError.
Proof.
  unfold float_of_Z. destruct (binary_normalize prec emax z 0 false);
    try discriminate. intros H. now injection H as <-.
Qed.

Lemma as_float_exn (v : pyval) (e : exn) : as_float v = Raise e -> e = OverflowError.
Proof. destruct v; simpl; [apply float_of_Z_exn | discriminate]. Qed.

Lemma py_arith_exn zop fop (a b : pyval) (e : exn) :
  py_arith zop fop a b = Raise e -> e = OverflowError.
Proof.
  unfold py_arith. intros H.
  assert (H' : (x <- as_float a ;; y <- as_float b ;; Ok (PFloat (fop x y))) = Raise e).
  { destruct a, b; try exact H; discriminate H. }
  destruct (as_float a) as [x |] eqn:Ea; cbn [bind] in H'.
  - destruct (as_float b) as [y |] eqn:Eb; cbn [bind] in H'; [discriminate |].
    injection H' as <-. eapply as_float_exn; eassumption.
  - injection H' as <-. eapply as_float_exn; eassumption.
Qed.

Lemma py_pow_nat_exn (v : pyval) (n : nat) (e : exn) :
  py_pow_nat v n = Raise e -> e = OverflowError.
Proof.
  destruct v as [z | f]; [discriminate |]. unfold py_pow_nat, float_pow_nat.
  destruct n; [discriminate |].
  destruct (Prim2SF f) as [s | s | | s m ex]; try discriminate.
  destruct (binary_normalize prec emax _ _ false); try discriminate.
  intros H. now injection H as <-.
Qed.

(** What a successful construction stores. *)
Lemma init_fields numerator0 denominator0 level0 name0 f :
  RationalFunction_init numerator0 denominator0 level0 name0 = Ok f ->
  numerator f = numerator0 /\ denominator f = denominator0 /\
  find_vertical_asymptotes denominator0 = Ok (vertical_asymptotes f) /\
  find_horizontal_asymptote numerator0 denominator0 = Ok (horizontal_asymptote f) /\
  find_x_intercepts numerator0 = Ok (x_intercepts f) /\
  find_y_intercept numerator0 denominator0 = Ok (y_intercept f).
Proof.
  unfold RationalFunction_init; intros H.
  bind_inv H. bind_inv H. bind_inv H. bind_inv H. ok_inv H. simpl.
  repeat split; assumption.
Qed.

(** The sample records are what the constructor returns. *)
Lemma one_over_x_init :
  RationalFunction_init [PInt 1] [PInt 1; PInt 0] 1 "f(x) = 1/x" = Ok one_over_x.
Proof. vm_compute. reflexivity. Qed.

Lemma two_over_x_minus_1_init :
  RationalFunction_init [PInt 2] [PInt 1; PInt (-1)] 1 "f(x) = 2/(x-1)"
  = Ok two_over_x_minus_1.
Proof. vm_compute. reflexivity. Qed.

Lemma x_minus_1_over_x2_minus_4_init :
  RationalFunction_init [PInt 1; PInt (-1)] [PInt 1; PInt 0; PInt (-4)] 2
    "f(x) = (x-1)/(x^2-4)" = Ok x_minus_1_over_x2_minus_4.
Proof. vm_compute. reflexivity. Qed.

Lemma double_root_init :
  RationalFunction_init [PInt 1] [PInt 1; PInt (-2); PInt 1] 2 "f(x) = 1/(x-1)^2"
  = Ok double_root.
Proof. vm_compute. reflexivity. Qed.

(* ================================================================= *)
(** ** Zero and near-zero denominators in [evaluate] *)

Lemma pow2_pos (p : positive) : 0 < 2 ^ Z.pos p.
Proof. apply Z.pow_pos_nonneg; lia. Qed.

(** A finite non-zero float compares with the int [0] by its sign bit. *)
Lemma Z_compare_SF_0_finite (s : bool) (m : positive) (e : Z) :
  Z_compare_SF 0 (S754_finite s m e) = Some (if s then Gt else Lt).
Proof.
  unfold Z_compare_SF. f_equal.
  destruct e as [| p | p], s; try reflexivity.
  - apply Z.compare_gt_iff, Z.mul_neg_pos; [apply Pos2Z.neg_is_neg | apply pow2_pos].
  - apply Z.compare_lt_iff, Z.mul_pos_pos; [apply Pos2Z.is_pos | apply pow2_pos].
Qed.

(** [v == 0] holds of the int [0] and of the two float zeros only. *)
Lemma py_eq_0_inv (v : pyval) :
  py_eq v (PInt 0) = true ->
  v = PInt 0 \/ exists f s, v = PFloat f /\ Prim2SF f = S754_zero s.
Proof.
  unfold py_eq, py_compare. destruct v as [z | f].
  - destruct (Z.compare_spec z 0); try discriminate. subst; auto.
  - destruct (Prim2SF f) as [s | s | | s m e] eqn:E.
    + right; eauto.
    + destruct s; discriminate.
    + discriminate.
    + rewrite Z_compare_SF_0_finite. destruct s; discriminate.
Qed.

Lemma python_1e_10 : Prim2SF 1e-10 = S754_finite false 7737125245533627 (-86).
Proof. vm_compute. reflexivity. Qed.

(** A zero denominator value passes the test [abs(den_val) < 1e-10] and
    fails the test [den_val > 0]. *)
Lemma zero_is_near_zero (v : pyval) :
  py_eq v (PInt 0) = true ->
  py_lt (py_abs v) (PFloat 1e-10) = true /\ py_gt v (PInt 0) = false.
Proof.
  intros H. destruct (py_eq_0_inv v H) as [-> | (f & s & -> & E)].
  - split; vm_compute; reflexivity.
  - unfold py_gt, py_lt, py_compare, py_abs.
    rewrite abs_spec, E, python_1e_10. simpl. auto.
Qed.

(** Computing a polynomial value raises nothing but [OverflowError]. *)
Lemma poly_sum_exn (coeffs : list pyval) (x acc : pyval) (e : exn) :
  poly_sum coeffs x acc = Raise e -> e = OverflowError.
Proof.
  revert acc. induction coeffs as [| coef rest IH]; intros acc; cbn [poly_sum];
    [discriminate |].
  intros H.
  raise_inv H; [now apply py_pow_nat_exn in H |].
  raise_inv H; [now apply py_arith_exn in H |].
  raise_inv H; [now apply py_arith_exn in H |].
  now apply IH in H.
Qed.

Lemma poly_value_exn (coeffs : list pyval) (x : pyval) (e : exn) :
  poly_value coeffs x = Raise e -> e = OverflowError.
Proof. apply poly_sum_exn. Qed.

(** One call [self.evaluate(x)] on a number [x], at which the two sums
    have the values [num_val] and [den_val]. *)
Section EvaluateScalar.

Variables (self : RationalFunction) (x num_val den_val : pyval).
Hypothesis Hnum : poly_value (numerator self) x = Ok num_val.
Hypothesis Hden : poly_value (denominator self) x = Ok den_val.

Lemma evaluate_scalar_values :
  evaluate self (Scalar x) =
    if py_lt (py_abs den_val) (PFloat 1e-10) then
      Ok (Scalar (if py_gt den_val (PInt 0) then PFloat infinity
                  else PFloat neg_infinity))
    else r <- py_truediv num_val den_val ;; Ok (Scalar r).
Proof.
  simpl. unfold evaluate_scalar. rewrite Hnum, Hden. simpl.
  destruct (py_lt (py_abs den_val) (PFloat 1e-10)); reflexivity.
Qed.

End EvaluateScalar.

(** The numerator is summed first, then the denominator, and only then is
    the denominator's value looked at: an overflow in either sum leaves
    [evaluate] as [OverflowError]. *)
Lemma evaluate_scalar_raises (self : RationalFunction) (x : pyval) (e : exn) :
  poly_value (numerator self) x = Raise e \/
  poly_value (denominator self) x = Raise e ->
  e = OverflowError /\ evaluate self (Scalar x) = Raise OverflowError.
Proof.
  intros H.
  assert (He : e = OverflowError) by (destruct H as [H | H]; now apply poly_value_exn in H).
  subst e. split; [reflexivity |].
  cbn [evaluate]. unfold evaluate_scalar.
  destruct (poly_value (numerator self) x) as [n | e'] eqn:En.
  - destruct H as [H | H]; [discriminate H |]. rewrite H. reflexivity.
  - apply poly_value_exn in En. subst e'. reflexivity.
Qed.

Lemma x2_over_tiny_x_init :
  RationalFunction_init [PInt 1; PInt 0; PInt 0] [PFloat 1e-300; PInt 0] 1
    "f(x) = x^2/(1e-300x)" = Ok x2_over_tiny_x.
Proof. vm_compute. reflexivity. Qed.

Lemma x2_over_x_minus_1e200_init :
  RationalFunction_init [PInt 1; PInt 0; PInt 0] [PInt 1; PFloat (-1e200)] 1
    "f(x) = x^2/(x-1e+200)" = Ok x2_over_x_minus_1e200.
Proof. vm_compute. reflexivity. Qed.

(** C7, as stated, fails: for the function [x^2/(1e-300x)] at [x = 1e200]
    the denominator's value is [1e-100], below [1e-10], and [evaluate]
    returns no infinity: the numerator's power [1e200 ** 2] raises
    [OverflowError]. *)
Lemma evaluate_raises_near_zero_denominator :
  ~ (forall num den lvl nm f x den_val,
       RationalFunction_init num den lvl nm = Ok f ->
       poly_value (denominator f) x = Ok den_val ->
       py_lt (py_abs den_val) (PFloat 1e-10) = true ->
       evaluate f (Scalar x) = Ok (Scalar (PFloat infinity)) \/
       evaluate f (Scalar x) = Ok (Scalar (PFloat neg_infinity))).
Proof.
  intros H.
  assert (Hd : poly_value (denominator x2_over_tiny_x) (PFloat 1e200)
               = Ok (PFloat 1e-100)) by (vm_compute; reflexivity).
  assert (Hlt : py_lt (py_abs (PFloat 1e-100)) (PFloat 1e-10) = true)
    by (vm_compute; reflexivity).
  destruct (H _ _ _ _ _ _ _ x2_over_tiny_x_init Hd Hlt) as [E | E];
    vm_compute in E; discriminate E.
Qed.

(** C7, amended: at an [x] where the two polynomial values are computed,
    [evaluate] returns an infinity when [abs(den_val) < 1e-10] holds,
    positive when [den_val > 0] and negative otherwise, and returns the
    quotient [num_val / den_val] when the test fails; where computing a
    polynomial value raises, which it does with [OverflowError] only,
    [evaluate] raises [OverflowError]. *)
Theorem evaluate_near_zero_denominator (self : RationalFunction) (x : pyval) :
  (forall num_val den_val,
     poly_value (numerator self) x = Ok num_val ->
     poly_value (denominator self) x = Ok den_val ->
     (py_lt (py_abs den_val) (PFloat 1e-10) = true ->
        (py_gt den_val (PInt 0) = true ->
           evaluate self (Scalar x) = Ok (Scalar (PFloat infinity))) /\
        (py_gt den_val (PInt 0) = false ->
           evaluate self (Scalar x) = Ok (Scalar (PFloat neg_infinity)))) /\
     (py_lt (py_abs den_val) (PFloat 1e-10) = false ->
        evaluate self (Scalar x)
        = (r <- py_truediv num_val den_val ;; Ok (Scalar r)))) /\
  (forall e,
     poly_value (numerator self) x = Raise e \/
     poly_value (denominator self) x = Raise e ->
     e = OverflowError /\ evaluate self (Scalar x) = Raise OverflowError).
Proof.
  split; [| apply evaluate_scalar_raises].
  intros num_val den_val Hnum Hden.
  rewrite (evaluate_scalar_values self x num_val den_val Hnum Hden). split.
  - intros ->. split; intros ->; reflexivity.
  - intros ->. reflexivity.
Qed.

(** C10, as stated, fails: for the function [x^2/(x-1e200)] at [x = 1e200]
    the denominator's value is exactly [0.0], and [evaluate] does not
    return negative infinity: the numerator's power raises
    [OverflowError]. *)
Lemma evaluate_raises_at_zero_denominator :
  ~ (forall num den lvl nm f x den_val,
       RationalFunction_init num den lvl nm = Ok f ->
       poly_value (denominator f) x = Ok den_val ->
       py_eq den_val (PInt 0) = true ->
       evaluate f (Scalar x) = Ok (Scalar (PFloat neg_infinity))).
Proof.
  intros H.
  assert (Hd : poly_value (denominator x2_over_x_minus_1e200) (PFloat 1e200)
               = Ok (PFloat 0)) by (vm_compute; reflexivity).
  assert (Hz : py_eq (PFloat 0) (PInt 0) = true) by (vm_compute; reflexivity).
  assert (E := H _ _ _ _ _ _ _ x2_over_x_minus_1e200_init Hd Hz).
  vm_compute in E. discriminate E.
Qed.

(** C10, amended: at an [x] where the denominator's value is exactly zero,
    [evaluate] returns negative infinity when the numerator's value is
    computed, and raises [OverflowError] when computing the numerator's
    value raises. *)
Theorem evaluate_zero_denominator (self : RationalFunction) (x den_val : pyval) :
  poly_value (denominator self) x = Ok den_val ->
  py_eq den_val (PInt 0) = true ->
  (forall num_val, poly_value (numerator self) x = Ok num_val ->
     evaluate self (Scalar x) = Ok (Scalar (PFloat neg_infinity))) /\
  (forall e, poly_value (numerator self) x = Raise e ->
     e = OverflowError /\ evaluate self (Scalar x) = Raise OverflowError).
Proof.
  intros Hden Hzero. split.
  - intros num_val Hnum.
    rewrite (evaluate_scalar_values self x num_val den_val Hnum Hden).
    destruct (zero_is_near_zero den_val Hzero) as [-> ->]. reflexivity.
  - intros e Hnum. apply evaluate_scalar_raises. now left.
Qed.

(** The sample function [2/(x-1)] just right of its asymptote: the
    denominator value is about [1e-11] and the result is [inf]. *)
Lemma evaluate_near_zero_denominator_witness :
  poly_value (numerator two_over_x_minus_1) (PFloat 1.00000000001) = Ok (PFloat 2) /\
  poly_value (denominator two_over_x_minus_1) (PFloat 1.00000000001)
    = Ok (PFloat (1.00000000001 - 1)) /\
  py_lt (py_abs (PFloat (1.00000000001 - 1))) (PFloat 1e-10) = true /\
  py_gt (PFloat (1.00000000001 - 1)) (PInt 0) = true /\
  evaluate two_over_x_minus_1 (Scalar (PFloat 1.00000000001))
    = Ok (Scalar (PFloat infinity)).
Proof.
  assert (Hn : poly_value (numerator two_over_x_minus_1) (PFloat 1.00000000001)
               = Ok (PFloat 2)) by (vm_compute; reflexivity).
  assert (Hd : poly_value (denominator two_over_x_minus_1) (PFloat 1.00000000001)
               = Ok (PFloat (1.00000000001 - 1))) by (vm_compute; reflexivity).
  assert (Hlt : py_lt (py_abs (PFloat (1.00000000001 - 1))) (PFloat 1e-10) = true)
    by (vm_compute; reflexivity).
  assert (Hgt : py_gt (PFloat (1.00000000001 - 1)) (PInt 0) = true)
    by (vm_compute; reflexivity).
  refine (conj Hn (conj Hd (conj Hlt (conj Hgt _)))).
  exact (proj1 (proj1 (proj1 (evaluate_near_zero_denominator _ _) _ _ Hn Hd) Hlt) Hgt).
Defined.

(** The same function at its asymptote [x = 1]. *)
Lemma evaluate_zero_denominator_witness :
  poly_value (numerator two_over_x_minus_1) (PInt 1) = Ok (PInt 2) /\
  poly_value (denominator two_over_x_minus_1) (PInt 1) = Ok (PInt 0) /\
  py_eq (PInt 0) (PInt 0) = true /\
  evaluate two_over_x_minus_1 (Scalar (PInt 1)) = Ok (Scalar (PFloat neg_infinity)).
Proof.
  assert (Hn : poly_value (numerator two_over_x_minus_1) (PInt 1) = Ok (PInt 2))
    by reflexivity.
  assert (Hd : poly_value (denominator two_over_x_minus_1) (PInt 1) = Ok (PInt 0))
    by reflexivity.
  assert (Hz : py_eq (PInt 0) (PInt 0) = true) by reflexivity.
  refine (conj Hn (conj Hd (conj Hz _))).
  exact (proj1 (evaluate_zero_denominator _ _ _ Hd Hz) _ Hn).
Defined.

(** The spec's sample value: [2/(x-1)] at [x = 3] is [1.0]. *)
Example evaluate_two_over_x_minus_1_at_3 :
  evaluate two_over_x_minus_1 (Scalar (PInt 3)) = Ok (Scalar (PFloat 1)).
Proof. vm_compute. reflexivity. Qed.

(* ================================================================= *)
(** ** [evaluate] on sequences *)

Lemma evaluate_Seq (self : RationalFunction) (xs : list pyarg) :
  evaluate self (Seq xs) = (ys <- mapM (evaluate self) xs ;; Ok (Seq ys)).
Proof. reflexivity. Qed.

Lemma evaluate_Scalar (self : RationalFunction) (v : pyval) :
  evaluate self (Scalar v) = (r <- evaluate_scalar self v ;; Ok (Scalar r)).
Proof. reflexivity. Qed.

Lemma Forall2_nth_error {A B : Type} (R : A -> B -> Prop) (xs : list A) (ys : list B) :
  Forall2 R xs ys ->
  forall i x, nth_error xs i = Some x -> exists y, nth_error ys i = Some y /\ R x y.
Proof.
  induction 1 as [| x0 y0 xs ys H0 _ IH]; intros i x Hi.
  - destruct i; discriminate.
  - destruct i as [| i]; simpl in *.
    + injection Hi as <-. eauto.
    + eauto.
Qed.

(** C9: [evaluate] on a sequence returns exactly when it returns on every
    item, and then returns the sequence of the items' results, of the same
    length and in the same order; on a number it returns a number. *)
Theorem evaluate_sequence (self : RationalFunction) (xs : list pyarg) :
  (forall r, evaluate self (Seq xs) = Ok r <->
     exists ys, r = Seq ys /\ Forall2 (fun x y => evaluate self x = Ok y) xs ys) /\
  (forall ys, evaluate self (Seq xs) = Ok (Seq ys) ->
     List.length ys = List.length xs /\
     forall i x, nth_error xs i = Some x ->
       exists y, nth_error ys i = Some y /\ evaluate self x = Ok y) /\
  (forall v r, evaluate self (Scalar v) = Ok r <->
     exists w, r = Scalar w /\ evaluate_scalar self v = Ok w).
Proof.
  assert (Hseq : forall r, evaluate self (Seq xs) = Ok r <->
     exists ys, r = Seq ys /\ Forall2 (fun x y => evaluate self x = Ok y) xs ys).
  { intros r. rewrite evaluate_Seq. split.
    - intros H. bind_inv H. ok_inv H. exists v. split; [reflexivity |].
      now apply mapM_Ok.
    - intros (ys & -> & H). apply mapM_Ok in H. rewrite H. reflexivity. }
  split; [exact Hseq | split].
  - intros ys H. apply Hseq in H. destruct H as (ys' & E & H).
    injection E as <-. split.
    + symmetry. eapply Forall2_length; eassumption.
    + intros i x Hi. eapply (Forall2_nth_error _ _ _ H); eassumption.
  - intros v r. rewrite evaluate_Scalar. split.
    + intros H. bind_inv H. ok_inv H. eauto.
    + intros (w & -> & H). rewrite H. reflexivity.
Qed.

(** A batch over [2/(x-1)], with a nested sequence. *)
Example evaluate_batch :
  evaluate two_over_x_minus_1
    (Seq [Scalar (PInt 1); Scalar (PFloat 0.5); Seq [Scalar (PInt 3)]])
  = Ok (Seq [Scalar (PFloat neg_infinity); Scalar (PFloat (-4));
             Seq [Scalar (PFloat 1)]]).
Proof. vm_compute. reflexivity. Qed.

(* ================================================================= *)
(** ** The order on Python numbers *)

Lemma SFcompare_antisym (x y : spec_float) :
  SFcompare x y = option_map CompOpp (SFcompare y x).
Proof.
  destruct x as [sx | sx | | sx mx ex], y as [sy | sy | | sy my ey];
    try (destruct sx); try (destruct sy); try reflexivity; simpl;
    rewrite (Z.compare_antisym ey ex); destruct (ey ?= ex); simpl;
    try reflexivity;
    change (Pos.compare_cont Eq mx my) with (Pos.compare mx my);
    change (Pos.compare_cont Eq my mx) with (Pos.compare my mx);
    rewrite (Pos.compare_antisym my mx); destruct (my ?= mx)%positive; reflexivity.
Qed.

Lemma py_compare_antisym (a b : pyval) :
  py_compare a b = option_map CompOpp (py_compare b a).
Proof.
  destruct a as [x | f], b as [y | g]; simpl.
  - now rewrite (Z.compare_antisym y x).
  - destruct (Z_compare_SF x (Prim2SF g)) as [[] |]; reflexivity.
  - reflexivity.
  - apply SFcompare_antisym.
Qed.

(** A float that is not a nan has a spec value other than [S754_nan]. *)
Lemma not_nan_spec (f : float) : PrimFloat.is_nan f = false -> Prim2SF f <> S754_nan.
Proof.
  unfold PrimFloat.is_nan. rewrite FloatAxioms.eqb_spec. intros H E.
  rewrite E in H. discriminate.
Qed.

(** Two numbers neither of which is a nan are comparable. *)
Lemma py_comparable (a b : pyval) :
  py_is_nan a = false -> py_is_nan b = false -> py_compare a b <> None.
Proof.
  destruct a as [x | f], b as [y | g]; simpl; intros Ha Hb.
  - discriminate.
  - apply not_nan_spec in Hb. destruct (Prim2SF g); try discriminate. congruence.
  - apply not_nan_spec in Ha. destruct (Prim2SF f); try discriminate. congruence.
  - apply not_nan_spec in Ha. apply not_nan_spec in Hb.
    destruct (Prim2SF f) as [sx | sx | | sx mx ex], (Prim2SF g) as [sy | sy | | sy my ey];
      try congruence; try (destruct sx); try (destruct sy); discriminate.
Qed.


Lemma py_not_lt_ge (a b : pyval) :
  py_compare a b <> None -> py_lt a b = false -> py_ge a b = true.
Proof.
  unfold py_ge, py_le, py_lt. rewrite (py_compare_antisym b a).
  destruct (py_compare a b) as [[] |]; simpl; congruence.
Qed.

Lemma py_lt_le (a b : pyval) : py_lt a b = true -> py_le a b = true.
Proof.
  unfold py_le, py_lt. destruct (py_compare a b) as [[] |]; congruence.
Qed.

(** The pair that [sorted] hands to [create_questions] is in ascending
    order, and is the given pair or its swap. *)
Lemma sorted_pair_ascending (x y lo hi : pyval) :
  py_compare x y <> None ->
  sorted_pair [x; y] = Ok (lo, hi) ->
  py_le lo hi = true /\ ((lo, hi) = (x, y) \/ (lo, hi) = (y, x)).
Proof.
  intros Hc H. simpl in H. destruct (py_lt y x) eqn:E; injection H as <- <-.
  - split; [now apply py_lt_le | now right].
  - split; [| now left].
    apply (py_not_lt_ge y x); [| exact E].
    rewrite py_compare_antisym. destruct (py_compare x y); [discriminate | congruence].
Qed.

(* ================================================================= *)
(** ** The property analyzer *)

Lemma find_vertical_asymptotes_linear (a b : pyval) :
  find_vertical_asymptotes [a; b] =
    if py_ne a (PInt 0) then r <- linear_root a b ;; Ok [r] else Ok [].
Proof. reflexivity. Qed.

Lemma find_vertical_asymptotes_quadratic (a b c : pyval) :
  find_vertical_asymptotes [a; b; c] =
    if py_ne a (PInt 0) then
      d <- discriminant_of a b c ;;
      if py_ge d (PInt 0) then
        r1 <- quadratic_root true a b d ;;
        r2 <- quadratic_root false a b d ;;
        Ok [r1; r2]
      else Ok []
    else Ok [].
Proof.
  unfold find_vertical_asymptotes, discriminant_of, quadratic_root.
  destruct (py_ne a (PInt 0)); [| reflexivity].
  destruct (py_pow_nat b 2) as [b2 |]; [cbn [bind] | reflexivity].
  destruct (py_mul (PInt 4) a) as [a4 |]; [cbn [bind] | reflexivity].
  destruct (py_mul a4 c) as [ac4 |]; [cbn [bind] | reflexivity].
  destruct (py_sub b2 ac4) as [d |]; [cbn [bind] | reflexivity].
  destruct (py_ge d (PInt 0)); [| reflexivity].
  destruct (py_pow_half d) as [s |]; [cbn [bind] | reflexivity].
  destruct (py_add (py_neg b) s) as [p |]; [cbn [bind] | reflexivity].
  destruct (py_mul (PInt 2) a) as [a2 |]; [cbn [bind] | reflexivity].
  destruct (py_truediv p a2) as [r1 |]; [cbn [bind] | reflexivity].
  destruct (py_sub (py_neg b) s) as [m |]; [cbn [bind] | reflexivity].
  destruct (py_truediv m a2) as [r2 |]; reflexivity.
Qed.




(** The spec's sample values. *)
Example vertical_asymptotes_samples :
  find_vertical_asymptotes [PInt 1; PInt 0] = Ok [PFloat 0] /\
  find_vertical_asymptotes [PInt 1; PInt (-1)] = Ok [PFloat 1] /\
  find_vertical_asymptotes [PInt 1; PInt 0; PInt 4] = Ok [] /\
  find_vertical_asymptotes [PInt 7] = Ok [] /\
  find_vertical_asymptotes [PInt 1; PInt 0; PInt 0; PInt (-1)] = Ok [].
Proof. repeat split; vm_compute; reflexivity. Qed.

(** C5: the horizontal asymptote by the degrees: the int [0] when the
    numerator's degree is smaller, the quotient of the leading coefficients
    when the degrees are equal, [None] when the numerator's degree is
    larger.  The field [horizontal_asymptote] of a constructed function is
    this result. *)
Theorem horizontal_asymptote_by_degree (num den : list pyval) :
  (degree num < degree den ->
     find_horizontal_asymptote num den = Ok (Some (PInt 0))) /\
  (degree num = degree den -> forall n0 d0 ns ds,
     num = n0 :: ns -> den = d0 :: ds ->
     find_horizontal_asymptote num den = (q <- py_truediv n0 d0 ;; Ok (Some q))) /\
  (degree den < degree num -> find_horizontal_asymptote num den = Ok None) /\
  (forall lvl nm f, RationalFunction_init num den lvl nm = Ok f ->
     find_horizontal_asymptote num den = Ok (horizontal_asymptote f)).
Proof.
  unfold find_horizontal_asymptote, degree. repeat split.
  - intros H. apply Z.ltb_lt in H. now rewrite H.
  - intros H n0 d0 ns ds -> ->. rewrite H, Z.ltb_irrefl, Z.eqb_refl. reflexivity.
  - intros H.
    destruct (Z.ltb_spec (Z.of_nat (List.length num) - 1) (Z.of_nat (List.length den) - 1));
      [lia |].
    destruct (Z.eqb_spec (Z.of_nat (List.length num) - 1) (Z.of_nat (List.length den) - 1));
      [lia | reflexivity].
  - intros lvl nm f H. now apply init_fields in H.
Qed.

(** [2x/(x-1)]: equal degrees, asymptote [2/1 = 2.0]. *)
Lemma horizontal_asymptote_by_degree_witness :
  degree [PInt 2; PInt 0] = degree [PInt 1; PInt (-1)] /\
  find_horizontal_asymptote [PInt 2; PInt 0] [PInt 1; PInt (-1)] = Ok (Some (PFloat 2)).
Proof.
  assert (Hdeg : degree [PInt 2; PInt 0] = degree [PInt 1; PInt (-1)]) by reflexivity.
  refine (conj Hdeg _).
  rewrite (proj1 (proj2 (horizontal_asymptote_by_degree _ _)) Hdeg
             (PInt 2) (PInt 1) [PInt 0] [PInt (-1)] eq_refl eq_refl).
  vm_compute. reflexivity.
Defined.

Example horizontal_asymptote_samples :
  find_horizontal_asymptote [PInt 1] [PInt 1; PInt 0] = Ok (Some (PInt 0)) /\
  find_horizontal_asymptote [PInt 1; PInt 0; PInt 1] [PInt 1; PInt 0] = Ok None /\
  find_horizontal_asymptote [PInt 1; PInt 0] [PInt 1; PInt (-2)] = Ok (Some (PFloat 1)).
Proof. repeat split; vm_compute; reflexivity. Qed.

(** A derived list of more than one asymptote comes from a quadratic
    denominator with a non-negative discriminant, and holds its two roots,
    the one with [+ d**0.5] first. *)
Lemma two_asymptotes_inv (den l : list pyval) :
  find_vertical_asymptotes den = Ok l -> (1 < List.length l)%nat ->
  exists a b c d r1 r2,
    den = [a; b; c] /\ discriminant_of a b c = Ok d /\
    py_ge d (PInt 0) = true /\
    quadratic_root true a b d = Ok r1 /\ quadratic_root false a b d = Ok r2 /\
    l = [r1; r2].
Proof.
  intros H Hlen.
  destruct den as [| a [| b [| c [| e den]]]];
    try (injection H as <-; simpl in Hlen; lia).
  - rewrite find_vertical_asymptotes_linear in H.
    destruct (py_ne a (PInt 0)); [| injection H as <-; simpl in Hlen; lia].
    bind_inv H. injection H as <-. simpl in Hlen; lia.
  - rewrite find_vertical_asymptotes_quadratic in H.
    destruct (py_ne a (PInt 0)); [| injection H as <-; simpl in Hlen; lia].
    apply bind_Ok in H. destruct H as (d & Hd & H).
    destruct (py_ge d (PInt 0)) eqn:Hge; [| injection H as <-; simpl in Hlen; lia].
    apply bind_Ok in H. destruct H as (r1 & Hr1 & H).
    apply bind_Ok in H. destruct H as (r2 & Hr2 & H).
    injection H as <-.
    exists a, b, c, d, r1, r2. repeat split; assumption.
Qed.

Lemma vertical_asymptotes_at_most_two (den l : list pyval) :
  find_vertical_asymptotes den = Ok l -> (List.length l <= 2)%nat.
Proof.
  intros H. destruct (Nat.le_gt_cases (List.length l) 1) as [Hle | Hgt]; [lia |].
  destruct (two_asymptotes_inv den l H Hgt) as (a & b & c & d & r1 & r2 & _ & _ & _ & _ & _ & ->).
  simpl; lia.
Qed.

(* ================================================================= *)
(** ** The question synthesizer *)

(** [v + 1] never raises. *)
Lemma py_add_1_returns (v : pyval) : exists w, py_add v (PInt 1) = Ok w.
Proof. destruct v; eexists; reflexivity. Qed.

Lemma vertical_question_none (f : RationalFunction) :
  vertical_asymptotes f = [] -> vertical_question f = Ok [].
Proof. unfold vertical_question. intros ->. reflexivity. Qed.

Lemma vertical_question_one (f : RationalFunction) (va : pyval) :
  vertical_asymptotes f = [va] ->
  exists q, vertical_question f = Ok [q] /\
    q_type q = "vertical_asymptote" /\ points q = 100 /\
    correct_answer q = "x = " ++ py_str va /\
    exists o1 o2 o3, options q = [correct_answer q; o1; o2; o3].
Proof.
  unfold vertical_question. intros ->.
  destruct (py_add_1_returns va) as (w & ->). cbn [bind].
  eexists. split; [reflexivity |]. cbn. repeat split; eauto.
Qed.

Lemma vertical_question_two (f : RationalFunction) (r1 r2 : pyval) :
  vertical_asymptotes f = [r1; r2] ->
  exists q lo hi, vertical_question f = Ok [q] /\
    sorted_pair [r1; r2] = Ok (lo, hi) /\
    q_type q = "vertical_asymptote" /\ points q = 150 /\
    correct_answer q = "x = " ++ py_str lo ++ " and x = " ++ py_str hi /\
    exists o1 o2 o3, options q = [correct_answer q; o1; o2; o3].
Proof.
  unfold vertical_question. intros ->. cbn [sorted_pair bind].
  destruct (py_lt r2 r1); do 3 eexists; (split; [reflexivity |]);
    cbn; repeat split; eauto.
Qed.

Lemma horizontal_question_spec (f : RationalFunction) :
  exists qs, horizontal_question f = Ok qs /\
    forall q, In q qs ->
      q_type q = "horizontal_asymptote" /\ points q = 100 /\
      exists o1 o2 o3, options q = [correct_answer q; o1; o2; o3].
Proof.
  unfold horizontal_question. destruct (horizontal_asymptote f) as [ha |].
  - destruct (py_add_1_returns ha) as (w & ->). cbn [bind].
    eexists. split; [reflexivity |].
    intros q [<- | []]. cbn. repeat split; eauto.
  - exists []. split; [reflexivity | intros q []].
Qed.

Lemma intercept_question_spec (f : RationalFunction) :
  exists qs, intercept_question f = Ok qs /\
    forall q, In q qs ->
      q_type q = "x_intercept" /\ points q = 100 /\
      exists o1 o2 o3, options q = [correct_answer q; o1; o2; o3].
Proof.
  unfold intercept_question. destruct (x_intercepts f) as [| xi rest].
  - exists []. split; [reflexivity | intros q []].
  - destruct (py_add_1_returns xi) as (w & ->). cbn [bind].
    eexists. split; [reflexivity |].
    intros q [<- | []]. cbn. repeat split; eauto.
Qed.

(** The vertical-asymptote question of a constructed function, by the
    number of entries of its field. *)
Lemma vertical_question_spec num den lvl nm (f : RationalFunction) :
  RationalFunction_init num den lvl nm = Ok f ->
  exists qs, vertical_question f = Ok qs /\
    forall q, In q qs ->
      q_type q = "vertical_asymptote" /\
      (points q = 150 <-> List.length (vertical_asymptotes f) = 2%nat) /\
      (points q = 100 <-> List.length (vertical_asymptotes f) = 1%nat) /\
      exists o1 o2 o3, options q = [correct_answer q; o1; o2; o3].
Proof.
  intros H. apply init_fields in H. destruct H as (_ & _ & Hva & _).
  apply vertical_asymptotes_at_most_two in Hva.
  destruct (vertical_asymptotes f) as [| va [| va' [| va'' l]]] eqn:E.
  - exists []. split; [now apply vertical_question_none | intros q []].
  - destruct (vertical_question_one f va E) as (q0 & Hq & Ht & Hp & _ & Ho).
    exists [q0]. split; [exact Hq |].
    intros q [<- | []]. rewrite Hp. simpl. repeat split; try lia; try assumption.
  - destruct (vertical_question_two f va va' E) as (q0 & lo & hi & Hq & _ & Ht & Hp & _ & Ho).
    exists [q0]. split; [exact Hq |].
    intros q [<- | []]. rewrite Hp. simpl. repeat split; try lia; try assumption.
  - simpl in Hva. lia.
Qed.

(** C2: [create_questions] returns on every constructed function; its
    vertical-asymptote question scores 150 exactly when the field
    [vertical_asymptotes] holds two entries and 100 exactly when it holds one;
    its horizontal-asymptote and x-intercept questions score 100. *)
Theorem question_points num den lvl nm (f : RationalFunction) :
  RationalFunction_init num den lvl nm = Ok f ->
  exists qs, create_questions f = Ok qs /\
    forall q, In q qs ->
      (q_type q = "vertical_asymptote" ->
         (points q = 150 <-> List.length (vertical_asymptotes f) = 2%nat) /\
         (points q = 100 <-> List.length (vertical_asymptotes f) = 1%nat)) /\
      (q_type q = "horizontal_asymptote" -> points q = 100) /\
      (q_type q = "x_intercept" -> points q = 100).
Proof.
  intros H. unfold create_questions.
  destruct (vertical_question_spec _ _ _ _ f H) as (qv & -> & Hv).
  destruct (horizontal_question_spec f) as (qh & -> & Hh).
  destruct (intercept_question_spec f) as (qx & -> & Hx).
  cbn [bind]. eexists. split; [reflexivity |].
  intros q Hin. rewrite !in_app_iff in Hin. destruct Hin as [Hin | [Hin | Hin]].
  - destruct (Hv q Hin) as (Ht & H150 & H100 & _). rewrite Ht.
    split; [intros _; split; assumption | split; discriminate].
  - destruct (Hh q Hin) as (Ht & Hp & _). rewrite Ht.
    split; [discriminate | split; [intros _; exact Hp | discriminate]].
  - destruct (Hx q Hin) as (Ht & Hp & _). rewrite Ht.
    split; [discriminate | split; [discriminate | intros _; exact Hp]].
Qed.

(** The sample function [(x-1)/(x^2-4)]. *)
Lemma question_points_witness :
  RationalFunction_init [PInt 1; PInt (-1)] [PInt 1; PInt 0; PInt (-4)] 2
    "f(x) = (x-1)/(x^2-4)" = Ok x_minus_1_over_x2_minus_4 /\
  exists qs, create_questions x_minus_1_over_x2_minus_4 = Ok qs /\
    forall q, In q qs ->
      (q_type q = "vertical_asymptote" ->
         (points q = 150 <->
            List.length (vertical_asymptotes x_minus_1_over_x2_minus_4) = 2%nat) /\
         (points q = 100 <->
            List.length (vertical_asymptotes x_minus_1_over_x2_minus_4) = 1%nat)) /\
      (q_type q = "horizontal_asymptote" -> points q = 100) /\
      (q_type q = "x_intercept" -> points q = 100).
Proof.
  exact (conj x_minus_1_over_x2_minus_4_init
           (question_points _ _ _ _ _ x_minus_1_over_x2_minus_4_init)).
Defined.

(** The questions of the sample function [(x-1)/(x^2-4)]. *)
Example create_questions_two_roots :
  option_map (map (fun q => (q_type q, options q, correct_answer q, points q)))
    (match create_questions x_minus_1_over_x2_minus_4 with
     | Ok qs => Some qs
     | Raise _ => None
     end)
  = Some
      [ ("vertical_asymptote",
         ["x = -2.0 and x = 2.0"; "x = -2.0"; "x = 2.0"; "No vertical asymptotes"],
         "x = -2.0 and x = 2.0", 150);
        ("horizontal_asymptote",
         ["y = 0"; "y = 1"; "y = 0"; "No horizontal asymptote"], "y = 0", 100);
        ("x_intercept",
         ["x = 1.0"; "x = 2.0"; "x = 0"; "No x-intercept"], "x = 1.0", 100) ].
Proof. vm_compute. reflexivity. Qed.

(** The field counts entries, not different values: a double root makes two
    entries, and the question scores 150. *)
Example create_questions_double_root :
  vertical_asymptotes double_root = [PFloat 1; PFloat 1] /\
  option_map (map (fun q => (q_type q, options q, correct_answer q, points q)))
    (match vertical_question double_root with
     | Ok qs => Some qs
     | Raise _ => None
     end)
  = Some
      [ ("vertical_asymptote",
         ["x = 1.0 and x = 1.0"; "x = 1.0"; "x = 1.0"; "No vertical asymptotes"],
         "x = 1.0 and x = 1.0", 150) ].
Proof. split; vm_compute; reflexivity. Qed.

(** The first option of every question is its correct answer, and there are
    four options. *)
Lemma correct_answer_is_first_option num den lvl nm (f : RationalFunction) qs q :
  RationalFunction_init num den lvl nm = Ok f ->
  create_questions f = Ok qs -> In q qs ->
  exists o1 o2 o3, options q = [correct_answer q; o1; o2; o3].
Proof.
  intros H. unfold create_questions.
  destruct (vertical_question_spec _ _ _ _ f H) as (qv & -> & Hv).
  destruct (horizontal_question_spec f) as (qh & -> & Hh).
  destruct (intercept_question_spec f) as (qx & -> & Hx).
  cbn [bind]. intros E Hin. injection E as <-.
  rewrite !in_app_iff in Hin. destruct Hin as [Hin | [Hin | Hin]].
  - now destruct (Hv q Hin) as (_ & _ & _ & Ho).
  - now destruct (Hh q Hin) as (_ & _ & Ho).
  - now destruct (Hx q Hin) as (_ & _ & Ho).
Qed.

(** C1 (the code departs from the claim): for the sample function
    [f(x) = 1/x] the horizontal asymptote is the int [0]; the options of its
    horizontal-asymptote question hold the correct answer twice, so they are
    not four different strings and the answer does not occur exactly once. *)
Theorem horizontal_zero_answer_twice :
  RationalFunction_init [PInt 1] [PInt 1; PInt 0] 1 "f(x) = 1/x" = Ok one_over_x /\
  exists qv qh,
    create_questions one_over_x = Ok [qv; qh] /\
    q_type qh = "horizontal_asymptote" /\
    options qh = ["y = 0"; "y = 1"; "y = 0"; "No horizontal asymptote"] /\
    correct_answer qh = "y = 0" /\
    occurrences (correct_answer qh) (options qh) = 2%nat /\
    ~ NoDup (options qh) /\
    ~ well_formed_question qh.
Proof.
  split; [exact one_over_x_init |].
  do 2 eexists. split; [vm_compute; reflexivity |].
  cbn [q_type options correct_answer].
  assert (Hdup : ~ NoDup ["y = 0"; "y = 1"; "y = 0"; "No horizontal asymptote"]).
  { intros Hnd. inversion Hnd as [| ? ? Hnotin _]. apply Hnotin. simpl. auto. }
  repeat split; try reflexivity; try exact Hdup.
  intros (_ & Hnd & _). exact (Hdup Hnd).
Qed.

(** C3 (the code departs from the claim): a numerator and a denominator of
    equal length, the denominator not all zero but with a zero leading
    coefficient: [find_horizontal_asymptote] divides by that coefficient and
    the construction raises [ZeroDivisionError]. *)
Theorem leading_zero_denominator_raises :
  all_zero [PInt 0; PInt 1] = false /\
  find_vertical_asymptotes [PInt 0; PInt 1] = Ok [] /\
  find_horizontal_asymptote [PInt 1; PInt 1] [PInt 0; PInt 1]
    = Raise ZeroDivisionError /\
  RationalFunction_init [PInt 1; PInt 1] [PInt 0; PInt 1] 1 "f(x) = x + 1"
    = Raise ZeroDivisionError.
Proof. repeat split; vm_compute; reflexivity. Qed.

(** The sibling methods test the coefficient they divide by. *)
Example guarded_divisions :
  find_vertical_asymptotes [PInt 0; PInt 1] = Ok [] /\
  find_x_intercepts [PInt 0; PInt 1] = Ok [] /\
  find_y_intercept [PInt 1] [PInt 1; PInt 0] = Ok None.
Proof. repeat split; vm_compute; reflexivity. Qed.

(** C6, as stated, fails: the field [vertical_asymptotes] of the sample
    function [(x-1)/(x^2-4)] is [[2.0, -2.0]], more than one value, in
    descending order. *)
Lemma vertical_asymptotes_not_ascending :
  ~ (forall num den lvl nm f,
       RationalFunction_init num den lvl nm = Ok f ->
       (1 < List.length (vertical_asymptotes f))%nat ->
       ascending (vertical_asymptotes f) = true).
Proof.
  intros H.
  specialize (H _ _ _ _ _ x_minus_1_over_x2_minus_4_init (Nat.lt_1_2)).
  vm_compute in H. discriminate H.
Qed.

(** C6, amended: when the field [vertical_asymptotes] of a constructed
    function holds more than one value, it holds the two roots of the
    quadratic denominator in the order in which [find_vertical_asymptotes]
    computes them, [(-b + d**0.5)/(2*a)] first and [(-b - d**0.5)/(2*a)]
    second; [create_questions] sorts the two, and when neither is a nan its
    question names them in ascending order. *)
Theorem vertical_asymptotes_order num den lvl nm (f : RationalFunction) :
  RationalFunction_init num den lvl nm = Ok f ->
  (1 < List.length (vertical_asymptotes f))%nat ->
  exists a b c d r1 r2,
    den = [a; b; c] /\ discriminant_of a b c = Ok d /\
    quadratic_root true a b d = Ok r1 /\ quadratic_root false a b d = Ok r2 /\
    vertical_asymptotes f = [r1; r2] /\
    (py_is_nan r1 = false -> py_is_nan r2 = false ->
     exists lo hi q,
       sorted_pair (vertical_asymptotes f) = Ok (lo, hi) /\
       py_le lo hi = true /\
       ((lo, hi) = (r1, r2) \/ (lo, hi) = (r2, r1)) /\
       vertical_question f = Ok [q] /\
       correct_answer q = "x = " ++ py_str lo ++ " and x = " ++ py_str hi).
Proof.
  intros H Hlen. apply init_fields in H. destruct H as (_ & _ & Hva & _).
  destruct (two_asymptotes_inv _ _ Hva Hlen)
    as (a & b & c & d & r1 & r2 & -> & Hd & _ & Hr1 & Hr2 & E).
  exists a, b, c, d, r1, r2. repeat split; try assumption.
  intros Hn1 Hn2.
  destruct (vertical_question_two f r1 r2 E) as (q & lo & hi & Hq & Hs & _ & _ & Hc & _).
  exists lo, hi, q. rewrite E.
  destruct (sorted_pair_ascending r1 r2 lo hi (py_comparable _ _ Hn1 Hn2) Hs) as [Hle Hor].
  repeat split; assumption.
Qed.

(** The same sample function: the field is [[2.0, -2.0]], the question
    names [-2.0] before [2.0]. *)
Lemma vertical_asymptotes_order_witness :
  RationalFunction_init [PInt 1; PInt (-1)] [PInt 1; PInt 0; PInt (-4)] 2
    "f(x) = (x-1)/(x^2-4)" = Ok x_minus_1_over_x2_minus_4 /\
  (1 < List.length (vertical_asymptotes x_minus_1_over_x2_minus_4))%nat /\
  exists a b c d r1 r2,
    [PInt 1; PInt 0; PInt (-4)] = [a; b; c] /\ discriminant_of a b c = Ok d /\
    quadratic_root true a b d = Ok r1 /\ quadratic_root false a b d = Ok r2 /\
    vertical_asymptotes x_minus_1_over_x2_minus_4 = [r1; r2] /\
    (py_is_nan r1 = false -> py_is_nan r2 = false ->
     exists lo hi q,
       sorted_pair (vertical_asymptotes x_minus_1_over_x2_minus_4) = Ok (lo, hi) /\
       py_le lo hi = true /\
       ((lo, hi) = (r1, r2) \/ (lo, hi) = (r2, r1)) /\
       vertical_question x_minus_1_over_x2_minus_4 = Ok [q] /\
       correct_answer q = "x = " ++ py_str lo ++ " and x = " ++ py_str hi).
Proof.
  exact (conj x_minus_1_over_x2_minus_4_init
           (conj Nat.lt_1_2
              (vertical_asymptotes_order _ _ _ _ _
                 x_minus_1_over_x2_minus_4_init Nat.lt_1_2))).
Defined.

(* ================================================================= *)
(** ** The polynomial formatter *)

(** *** The first character of a printed number *)

Lemma int_str_head (z : Z) :
  exists c s, int_str z = String c s /\ Ascii.eqb c "-" = (z <? 0).
Proof.
  unfold int_str, Z.to_int. destruct z as [| p | p]; simpl.
  - eauto.
  - unfold NilZero.string_of_uint. destruct (Pos.to_uint p); simpl; eauto.
  - eauto.
Qed.

Lemma startswith_minus_int_str (z : Z) : startswith_minus (int_str z) = (z <? 0).
Proof. destruct (int_str_head z) as (c & s & -> & H). exact H. Qed.

Lemma startswith_minus_app (s r : string) :
  s <> "" -> startswith_minus (s ++ r) = startswith_minus s.
Proof. destruct s; [congruence | reflexivity]. Qed.

Lemma int_str_nonempty (z : Z) : int_str z <> "".
Proof. destruct (int_str_head z) as (c & s & -> & _). discriminate. Qed.

Lemma append_assoc (a b c : string) : (a ++ b) ++ c = a ++ (b ++ c).
Proof. induction a as [| ch a IH]; simpl; [reflexivity | now rewrite IH]. Qed.

(** The digit string behind a float is the print of a non-negative int. *)
Lemma scale10_pos (q n d : Z) :
  0 <= n -> 0 < d -> 0 <= fst (scale10 q n d) /\ 0 < snd (scale10 q n d).
Proof.
  intros Hn Hd. unfold scale10. destruct (q <? 0) eqn:E; simpl.
  - split; [| exact Hd]. apply Z.mul_nonneg_nonneg; [exact Hn |].
    apply Z.pow_nonneg; lia.
  - split; [exact Hn |]. apply Z.mul_pos_pos; [exact Hd |].
    apply Z.pow_pos_nonneg; [lia |]. apply Z.ltb_ge in E. exact E.
Qed.

Lemma shortest_search_nonneg (ks : list Z) (incl : bool) (lo v hi d p : Z) :
  0 <= v -> 0 < d -> 0 <= fst (shortest_search ks incl lo v hi d p).
Proof.
  intros Hv Hd. induction ks as [| k ks IH]; simpl; [lia |].
  destruct (scale10_pos (p - k) v d Hv Hd) as [Hv' Hd'].
  destruct (scale10 (p - k) v d) as [v' d'] eqn:E. simpl in Hv', Hd'.
  assert (Hc : 0 <= v' / d') by (apply Z.div_pos; assumption).
  destruct ks as [| k' ks'].
  - destruct (_ || _); simpl; lia.
  - destruct (_ && _); [destruct (_ || _); simpl; lia |].
    destruct (within _ _ _ _); [simpl; lia |].
    destruct (within _ _ _ _); [simpl; lia | exact IH].
Qed.

Lemma strip_zeros_nonneg (fuel : nat) (c q : Z) :
  0 <= c -> 0 <= fst (strip_zeros fuel c q).
Proof.
  revert c q. induction fuel as [| fuel IH]; intros c q Hc; simpl; [exact Hc |].
  destruct (_ && _); [| exact Hc].
  apply IH. apply Z.div_pos; lia.
Qed.

Lemma shortest_digits_head (m : positive) (e : Z) :
  exists c s, fst (shortest_digits m e) = String c s /\ Ascii.eqb c "-" = false.
Proof.
  unfold shortest_digits.
  set (s := if e - 2 <? 0 then 1 else 2 ^ (e - 2)).
  set (d := if e - 2 <? 0 then 2 ^ (2 - e) else 1).
  assert (Hs : 0 < s).
  { subst s. destruct (Z.ltb_spec (e - 2) 0); [lia |]. apply Z.pow_pos_nonneg; lia. }
  assert (Hd : 0 < d).
  { subst d. destruct (Z.ltb_spec (e - 2) 0); [| lia]. apply Z.pow_pos_nonneg; lia. }
  assert (Hv : 0 <= 4 * Z.pos m * s) by lia.
  match goal with
  | |- context [shortest_search ?ks ?incl ?lo ?v ?hi ?dd ?p] =>
      assert (Hc := shortest_search_nonneg ks incl lo v hi dd p Hv Hd);
      destruct (shortest_search ks incl lo v hi dd p) as [c q]
  end.
  simpl in Hc.
  assert (Hc' := strip_zeros_nonneg 400 c q Hc).
  destruct (strip_zeros 400 c q) as [c' q']. simpl in Hc'. simpl.
  destruct (int_str_head c') as (ch & r & -> & H). exists ch, r. split; [reflexivity |].
  rewrite H. apply Z.ltb_ge. exact Hc'.
Qed.

Lemma format_repr_head (ds : string) (decpt : Z) :
  (exists c s, ds = String c s /\ Ascii.eqb c "-" = false) ->
  exists c s, format_repr ds decpt = String c s /\ Ascii.eqb c "-" = false.
Proof.
  intros (c & s & -> & Hc). unfold format_repr.
  destruct (_ || _).
  - simpl. eauto.
  - destruct (Z.leb_spec decpt 0); [simpl; eauto |].
    destruct (_ <? _).
    + destruct (Z.to_nat decpt) as [| n] eqn:E; [lia |]. simpl. eauto.
    + simpl. eauto.
Qed.

(** [repr] of a float starts with a minus sign exactly when the sign bit is
    set. *)
Lemma float_repr_head (f : float) :
  exists c s, float_repr f = String c s /\
    Ascii.eqb c "-" = match Prim2SF f with
                      | S754_zero b | S754_infinity b | S754_finite b _ _ => b
                      | S754_nan => false
                      end.
Proof.
  unfold float_repr. destruct (Prim2SF f) as [b | b | | b m e].
  - destruct b; simpl; eauto.
  - destruct b; simpl; eauto.
  - simpl; eauto.
  - destruct (shortest_digits_head m e) as (c & s & E & Hc).
    destruct (shortest_digits m e) as [ds decpt]. simpl in E.
    destruct (format_repr_head ds decpt) as (c' & s' & -> & Hc'); [eauto |].
    destruct b; simpl; eauto.
Qed.

(** *** The sign of a coefficient and the first character of its term *)

Lemma py_lt_0_float (f : float) :
  py_lt (PFloat f) (PInt 0) =
    match Prim2SF f with
    | S754_infinity b | S754_finite b _ _ => b
    | S754_zero _ | S754_nan => false
    end.
Proof.
  unfold py_lt, py_compare. destruct (Prim2SF f) as [b | b | | b m e];
    try reflexivity.
  - destruct b; reflexivity.
  - rewrite Z_compare_SF_0_finite. destruct b; reflexivity.
Qed.

(** An int equal to a finite non-zero float has the float's sign. *)
Lemma Z_compare_SF_finite_Eq (k : Z) (b : bool) (m : positive) (e : Z) :
  Z_compare_SF k (S754_finite b m e) = Some Eq -> (k <? 0) = b.
Proof.
  unfold Z_compare_SF. intros H. injection H as H.
  assert (Hm := Pos2Z.is_pos m). assert (Hm' := Pos2Z.neg_is_neg m).
  destruct e as [| p | p]; apply Z.compare_eq in H;
    try (assert (Hp := pow2_pos p));
    destruct b; try (apply Z.ltb_lt); try (apply Z.ltb_ge); nia.
Qed.

(** A number equal to a non-zero int has the sign of that int. *)
Lemma py_eq_int_sign (v : pyval) (k : Z) :
  k <> 0 -> py_eq v (PInt k) = true -> py_lt v (PInt 0) = (k <? 0).
Proof.
  intros Hk. destruct v as [z | f].
  - unfold py_eq, py_lt, py_compare.
    destruct (Z.compare_spec z k) as [-> | |]; try discriminate. intros _. reflexivity.
  - rewrite py_lt_0_float. unfold py_eq, py_compare.
    destruct (Prim2SF f) as [b | b | | b m e].
    + cbn [Z_compare_SF option_map].
      destruct (Z.compare_spec k 0); try discriminate. contradiction.
    + destruct b; discriminate.
    + discriminate.
    + destruct (Z_compare_SF k (S754_finite b m e)) as [[] |] eqn:E; try discriminate.
      intros _. symmetry. exact (Z_compare_SF_finite_Eq k b m e E).
Qed.

(** What [str] prints of an int, when it prints it. *)
Lemma py_int_str_Ok (z : Z) (s : string) : py_int_str z = Ok s -> s = int_str z.
Proof.
  unfold py_int_str. destruct (10 ^ int_max_str_digits <=? Z.abs z); [discriminate |].
  intros H. now injection H as <-.
Qed.

Lemma coef_str_sign (coef : pyval) (s : string) :
  coef_str coef = Ok s ->
  s <> "" /\ startswith_minus s = py_lt coef (PInt 0).
Proof.
  unfold coef_str. destruct coef as [z | f].
  - cbn [py_int bind]. unfold py_eq, py_compare. rewrite Z.compare_refl.
    intros H. apply py_int_str_Ok in H. subst s. split; [apply int_str_nonempty |].
    apply startswith_minus_int_str.
  - intros H. apply bind_Ok in H. destruct H as (i & Hi & H).
    destruct (py_eq (PFloat f) (PInt i)) eqn:Heq;
      [apply py_int_str_Ok in H; subst s | injection H as <-].
    + split; [apply int_str_nonempty |]. rewrite startswith_minus_int_str.
      destruct (Z.eq_dec i 0) as [-> | Hnz].
      * rewrite py_lt_0_float. unfold py_eq, py_compare in Heq.
        destruct (Prim2SF f) as [b | b | | b m e]; try reflexivity; try discriminate.
        -- destruct b; discriminate.
        -- rewrite Z_compare_SF_0_finite in Heq. destruct b; discriminate.
      * symmetry. now apply py_eq_int_sign.
    + cbn [py_str]. destruct (float_repr_head f) as (c & r & -> & Hc).
      split; [discriminate |]. cbn [startswith_minus]. rewrite Hc, py_lt_0_float.
      unfold py_int in Hi. unfold py_eq, py_compare in Heq.
      destruct (Prim2SF f) as [b | b | | b m e]; try reflexivity.
      injection Hi as <-. discriminate Heq.
Qed.

Lemma format_term_sign (coef : pyval) (power : nat) (t : string) :
  format_term coef power = Ok t -> startswith_minus t = py_lt coef (PInt 0).
Proof.
  assert (Hrest : forall r,
    (if py_eq coef (PInt 1) then Ok ("x" ++ r)
     else if py_eq coef (PInt (-1)) then Ok ("-x" ++ r)
     else s <- coef_str coef ;; Ok (s ++ "x" ++ r)) = Ok t ->
    startswith_minus t = py_lt coef (PInt 0)).
  { intros r H.
    destruct (py_eq coef (PInt 1)) eqn:E1.
    { injection H as <-. rewrite (py_eq_int_sign coef 1); [reflexivity | lia | exact E1]. }
    destruct (py_eq coef (PInt (-1))) eqn:E2.
    { injection H as <-. rewrite (py_eq_int_sign coef (-1)); [reflexivity | lia | exact E2]. }
    apply bind_Ok in H. destruct H as (s & Hs & H). injection H as <-.
    destruct (coef_str_sign coef s Hs) as [Hne <-].
    now apply startswith_minus_app. }
  unfold format_term. destruct power as [| [| n]].
  - intros H. now destruct (coef_str_sign coef t H).
  - apply (Hrest "").
  - apply (Hrest ("^" ++ int_str (Z.of_nat (S (S n))))).
Qed.

(** *** The terms and their joining *)

Lemma collect_terms_filter (coeffs : list pyval) :
  collect_terms coeffs =
    mapM (fun cp => format_term (fst cp) (snd cp))
         (filter nonzero_term (with_powers coeffs)).
Proof.
  induction coeffs as [| coef rest IH]; [reflexivity |].
  cbn [collect_terms with_powers filter]. unfold nonzero_term at 1, py_ne.
  cbn [fst]. destruct (py_eq coef (PInt 0)); cbn [negb mapM fst snd].
  - exact IH.
  - rewrite IH. reflexivity.
Qed.

Lemma with_powers_descending (coeffs : list pyval) :
  map snd (with_powers coeffs) = rev (seq 0 (List.length coeffs)).
Proof.
  induction coeffs as [| coef rest IH]; [reflexivity |].
  cbn [with_powers map snd List.length]. rewrite seq_S, rev_app_distr, IH.
  reflexivity.
Qed.

Lemma collect_terms_all_zero (coeffs : list pyval) :
  all_zero coeffs = true -> collect_terms coeffs = Ok [].
Proof.
  unfold all_zero. induction coeffs as [| coef rest IH]; [reflexivity |].
  cbn [forallb collect_terms]. intros H. apply andb_prop in H. destruct H as [-> H].
  now apply IH.
Qed.

Lemma append_empty_r (s : string) : s ++ "" = s.
Proof. induction s as [| c s IH]; simpl; [reflexivity | now rewrite IH]. Qed.

Lemma join_step_signed (acc term : string) :
  join_step acc term = acc ++ signed_term (startswith_minus term) term.
Proof. unfold join_step, signed_term. destruct (startswith_minus term); reflexivity. Qed.

Lemma fold_join_step (ts : list string) (acc : string) :
  fold_left join_step ts acc =
    acc ++ flatten (map (fun t => signed_term (startswith_minus t) t) ts).
Proof.
  revert acc. induction ts as [| t ts IH]; intros acc; cbn [fold_left map flatten].
  - now rewrite append_empty_r.
  - rewrite IH, join_step_signed, append_assoc. reflexivity.
Qed.

(** The separators that the code picks by the first character of a term are
    the ones picked by the sign of the term's coefficient. *)
Lemma separators_by_sign (kept : list (pyval * nat)) (terms : list string) :
  Forall2 (fun cp t => format_term (fst cp) (snd cp) = Ok t) kept terms ->
  map (fun t => signed_term (startswith_minus t) t) terms =
  map (fun ct => signed_term (py_lt (fst (fst ct)) (PInt 0)) (snd ct))
      (combine kept terms).
Proof.
  induction 1 as [| cp t kept terms H _ IH]; [reflexivity |].
  cbn [map combine fst snd]. rewrite IH, (format_term_sign _ _ _ H). reflexivity.
Qed.

Lemma format_polynomial_refines (coeffs : list pyval) :
  format_polynomial coeffs = formatted_polynomial coeffs.
Proof.
  unfold format_polynomial, formatted_polynomial.
  destruct coeffs as [| coef rest]; [reflexivity |].
  rewrite collect_terms_filter.
  destruct (mapM _ (filter nonzero_term (with_powers (coef :: rest))))
    as [terms | e] eqn:E; cbn [bind]; [| reflexivity].
  f_equal. apply mapM_Ok in E.
  destruct E as [| cp t kept terms H Hrest]; [reflexivity |].
  cbn [join_terms combine]. rewrite fold_join_step.
  now rewrite (separators_by_sign kept terms Hrest).
Qed.

(** C8: [format_polynomial] leaves out the terms with a zero coefficient,
    prints the others in the order of descending degree, joined by [" + "]
    or, before a term with a negative coefficient, [" - "]; it returns ["0"]
    when every coefficient is zero; and it prints [[1, 0, 1]] as
    ["x^2 + 1"], [[1, -1]] as ["x - 1"] and [[0, 0]] as ["0"]. *)
Theorem format_polynomial_canonical :
  (forall coeffs, format_polynomial coeffs = formatted_polynomial coeffs) /\
  (forall coeffs, map snd (with_powers coeffs) = rev (seq 0 (List.length coeffs))) /\
  (forall coeffs, all_zero coeffs = true -> format_polynomial coeffs = Ok "0") /\
  format_polynomial [PInt 1; PInt 0; PInt 1] = Ok "x^2 + 1" /\
  format_polynomial [PInt 1; PInt (-1)] = Ok "x - 1" /\
  format_polynomial [PInt 0; PInt 0] = Ok "0".
Proof.
  split; [exact format_polynomial_refines |].
  split; [exact with_powers_descending |].
  split.
  - intros coeffs H. unfold format_polynomial.
    destruct coeffs; [reflexivity |]. now rewrite (collect_terms_all_zero _ H).
  - repeat split; vm_compute; reflexivity.
Qed.

(** Zero coefficients of the three kinds: [0], [0.0] and [-0.0]. *)
Lemma format_polynomial_canonical_witness :
  all_zero [PInt 0; PFloat 0; PFloat (-0)] = true /\
  format_polynomial [PInt 0; PFloat 0; PFloat (-0)] = Ok "0".
Proof.
  assert (H : all_zero [PInt 0; PFloat 0; PFloat (-0)] = true)
    by (vm_compute; reflexivity).
  exact (conj H (proj1 (proj2 (proj2 format_polynomial_canonical)) _ H)).
Defined.

(** Further prints: floats, a leading minus, a missing middle term. *)
Example format_polynomial_samples :
  format_polynomial [PInt 2; PInt (-3); PInt 0; PInt (-1)] = Ok "2x^3 - 3x^2 - 1" /\
  format_polynomial [PFloat 1.5; PFloat (-2); PFloat (-0.5)] = Ok "1.5x^2 - 2x - 0.5" /\
  format_polynomial [PInt (-1); PInt 1; PInt 1] = Ok "-x^2 + x + 1" /\
  format_polynomial [] = Ok "0" /\
  get_equation two_over_x_minus_1 = Ok "(2) / (x - 1)".
Proof. repeat split; vm_compute; reflexivity. Qed.

(* ================================================================= *)
(** ** Polynomials with int coefficients at an int *)

Section IntPolynomial.

Variable x : Z.

Lemma fold_horner_acc (coeffs : list Z) (acc : Z) :
  fold_left (fun a c => a * x + c) coeffs acc
  = acc * x ^ Z.of_nat (List.length coeffs) + horner coeffs x.
Proof.
  unfold horner. revert acc. induction coeffs as [| c rest IH]; intros acc.
  - simpl. lia.
  - cbn [fold_left List.length]. rewrite (IH (acc * x + c)), (IH (0 * x + c)).
    rewrite Nat2Z.inj_succ, Z.pow_succ_r by lia. ring.
Qed.

Lemma horner_cons (c : Z) (rest : list Z) :
  horner (c :: rest) x = c * x ^ Z.of_nat (List.length rest) + horner rest x.
Proof.
  unfold horner at 1. cbn [fold_left]. rewrite fold_horner_acc. ring.
Qed.

Lemma poly_sum_int (coeffs : list Z) (acc : Z) :
  poly_sum (map PInt coeffs) (PInt x) (PInt acc) = Ok (PInt (acc + horner coeffs x)).
Proof.
  revert acc. induction coeffs as [| c rest IH]; intros acc.
  - simpl. f_equal. f_equal. unfold horner. simpl. lia.
  - cbn [map poly_sum py_pow_nat bind]. rewrite length_map.
    cbn [py_mul py_add py_arith bind]. rewrite IH, horner_cons.
    f_equal. f_equal. ring.
Qed.

End IntPolynomial.

Lemma poly_value_horner (coeffs : list Z) (x : Z) :
  poly_value (map PInt coeffs) (PInt x) = Ok (PInt (horner coeffs x)).
Proof. unfold poly_value. now rewrite poly_sum_int. Qed.

(** X1: on int coefficients and an int argument the sum of powers that
    [evaluate] computes never raises and is the exact value of the
    polynomial, the one Horner's rule gives. *)
Theorem poly_value_int (coeffs : list Z) (x : Z) :
  poly_value (map PInt coeffs) (PInt x) = Ok (PInt (horner coeffs x)) /\
  horner coeffs x
  = fold_right (fun c rest => c + rest) 0
      (map (fun cp => fst cp * x ^ Z.of_nat (snd cp))
           (combine coeffs (rev (seq 0 (List.length coeffs))))).
Proof.
  split; [apply poly_value_horner |].
  induction coeffs as [| c rest IH]; [reflexivity |].
  rewrite horner_cons, IH. cbn [List.length]. rewrite seq_S, rev_app_distr.
  reflexivity.
Qed.

Lemma near_zero_int (z : Z) : py_lt (py_abs (PInt z)) (PFloat 1e-10) = (z =? 0).
Proof.
  unfold py_lt, py_abs, py_compare. rewrite python_1e_10. cbn [Z_compare_SF].
  destruct (Z.eqb_spec z 0) as [-> | Hz]; [reflexivity |].
  assert (H86 : 2 ^ 86 = 77371252455336267181195264) by reflexivity.
  assert (Hgt : (Z.abs z * 2 ^ 86 ?= 7737125245533627) = Gt).
  { apply Z.compare_gt_iff. rewrite H86. lia. }
  now rewrite Hgt.
Qed.

Lemma int_truediv_exn (a b : Z) (e : exn) :
  b <> 0 -> int_truediv a b = Raise e -> e = OverflowError.
Proof.
  intros Hb. unfold int_truediv.
  destruct (Z.eqb_spec b 0) as [| _]; [contradiction |].
  destruct (a =? 0); [discriminate |].
  destruct (SFdiv_core_binary prec emax (Z.abs a) 0 (Z.abs b) 0) as [[q e'] l].
  destruct (binary_round_aux prec emax _ q e' l); try discriminate.
  intros H. now injection H as <-.
Qed.

Lemma evaluate_on_ints (self : RationalFunction) (num den : list Z) (x : Z) :
  numerator self = map PInt num ->
  denominator self = map PInt den ->
  evaluate self (Scalar (PInt x)) =
    (if horner den x =? 0 then Ok (Scalar (PFloat neg_infinity))
     else q <- int_truediv (horner num x) (horner den x) ;; Ok (Scalar (PFloat q))).
Proof.
  intros Hn Hd.
  rewrite (evaluate_scalar_values self (PInt x) (PInt (horner num x))
             (PInt (horner den x))).
  - rewrite near_zero_int. destruct (Z.eqb_spec (horner den x) 0) as [-> | Hz].
    + reflexivity.
    + cbn [py_truediv]. destruct (int_truediv _ _); reflexivity.
  - rewrite Hn. apply poly_value_horner.
  - rewrite Hd. apply poly_value_horner.
Qed.

(** X2: for a function with int coefficients at an int [x], [evaluate]
    returns negative infinity exactly when [x] is a root of the denominator
    and otherwise the correctly rounded quotient of the two exact
    polynomial values; the only exception it can raise is [OverflowError],
    never [ZeroDivisionError]. *)
Theorem evaluate_int (self : RationalFunction) (num den : list Z) (x : Z) :
  numerator self = map PInt num ->
  denominator self = map PInt den ->
  evaluate self (Scalar (PInt x)) =
    (if horner den x =? 0 then Ok (Scalar (PFloat neg_infinity))
     else q <- int_truediv (horner num x) (horner den x) ;; Ok (Scalar (PFloat q))) /\
  (forall e, evaluate self (Scalar (PInt x)) = Raise e -> e = OverflowError).
Proof.
  intros Hn Hd. assert (E := evaluate_on_ints self num den x Hn Hd).
  split; [exact E |].
  intros e. rewrite E. destruct (Z.eqb_spec (horner den x) 0) as [| Hz]; [discriminate |].
  destruct (int_truediv (horner num x) (horner den x)) as [q | e'] eqn:Hq;
    cbn [bind]; [discriminate |].
  intros H. injection H as <-. exact (int_truediv_exn _ _ _ Hz Hq).
Qed.

(** [2/(x-1)] at [x = 3] and at its root [x = 1]. *)
Lemma evaluate_int_witness :
  numerator two_over_x_minus_1 = map PInt [2] /\
  denominator two_over_x_minus_1 = map PInt [1; -1] /\
  evaluate two_over_x_minus_1 (Scalar (PInt 3)) = Ok (Scalar (PFloat 1)) /\
  evaluate two_over_x_minus_1 (Scalar (PInt 1)) = Ok (Scalar (PFloat neg_infinity)).
Proof.
  refine (conj eq_refl (conj eq_refl (conj _ _))).
  - rewrite (proj1 (evaluate_int two_over_x_minus_1 [2] [1; -1] 3 eq_refl eq_refl)).
    vm_compute. reflexivity.
  - rewrite (proj1 (evaluate_int two_over_x_minus_1 [2] [1; -1] 1 eq_refl eq_refl)).
    vm_compute. reflexivity.
Defined.

(* ================================================================= *)
(** ** The y-intercept and the value at zero *)

Lemma py_ne_int_0 (d : Z) : py_ne (PInt d) (PInt 0) = negb (d =? 0).
Proof. destruct d; reflexivity. Qed.

Lemma last_item_ints (coeffs : list Z) (c : Z) :
  last_item (map PInt (coeffs ++ [c])) = Ok (PInt c).
Proof. unfold last_item. rewrite map_app, rev_app_distr. reflexivity. Qed.

Lemma horner_last_at_0 (coeffs : list Z) (c : Z) : horner (coeffs ++ [c]) 0 = c.
Proof. unfold horner. rewrite fold_left_app. simpl. lia. Qed.

Lemma list_empty_or_last {A : Type} (l : list A) :
  l = [] \/ exists l' a, l = (l' ++ [a])%list.
Proof.
  destruct l as [| a l]; [now left | right].
  destruct (exists_last (l := a :: l)) as (l' & b & E); [discriminate | eauto].
Qed.

(** X3: for a constructed function with int coefficients the field
    [y_intercept] is the value of [evaluate] at the int [0]; it is [None]
    exactly when that value is the sentinel for a zero denominator. *)
Theorem y_intercept_is_value_at_zero (num den : list Z) lvl nm (f : RationalFunction) :
  RationalFunction_init (map PInt num) (map PInt den) lvl nm = Ok f ->
  match y_intercept f with
  | Some y => evaluate f (Scalar (PInt 0)) = Ok (Scalar y)
  | None =>
      evaluate f (Scalar (PInt 0)) = Ok (Scalar (PFloat neg_infinity)) /\
      horner den 0 = 0
  end.
Proof.
  intros H. apply init_fields in H. destruct H as (Hn & Hd & _ & _ & _ & Hy).
  rewrite (evaluate_on_ints f num den 0 Hn Hd).
  unfold find_y_intercept in Hy.
  destruct (list_empty_or_last den) as [E | (den' & d & E)]; subst den;
    [discriminate Hy |].
  rewrite last_item_ints in Hy. cbn [bind] in Hy. rewrite py_ne_int_0 in Hy.
  rewrite horner_last_at_0.
  destruct (Z.eqb_spec d 0) as [E | Hz]; cbn [negb] in Hy.
  - subst d. injection Hy as <-. split; reflexivity.
  - destruct (list_empty_or_last num) as [E | (num' & n & E)]; subst num;
      [discriminate Hy |].
    rewrite last_item_ints in Hy. cbn [bind py_truediv] in Hy.
    rewrite horner_last_at_0.
    destruct (int_truediv n d) as [q | e]; [| discriminate Hy].
    cbn [bind] in Hy. injection Hy as <-. reflexivity.
Qed.

(** [(x-1)/(x^2-4)]: the y-intercept [0.25] is the value at [0]. *)
Lemma y_intercept_is_value_at_zero_witness :
  RationalFunction_init (map PInt [1; -1]) (map PInt [1; 0; -4]) 2
    "f(x) = (x-1)/(x^2-4)" = Ok x_minus_1_over_x2_minus_4 /\
  evaluate x_minus_1_over_x2_minus_4 (Scalar (PInt 0)) = Ok (Scalar (PFloat 0.25)).
Proof.
  refine (conj x_minus_1_over_x2_minus_4_init _).
  exact (y_intercept_is_value_at_zero [1; -1] [1; 0; -4] _ _ _
           x_minus_1_over_x2_minus_4_init).
Defined.

(* ================================================================= *)
(** ** What the analyzers return and raise *)

(** *** The exceptions of the division *)

Lemma py_truediv_exn (a b : pyval) (e : exn) :
  py_truediv a b = Raise e -> e = ZeroDivisionError \/ e = OverflowError.
Proof.
  unfold py_truediv. intros H.
  assert (Hint : forall x y, int_truediv x y = Raise e ->
                             e = ZeroDivisionError \/ e = OverflowError).
  { intros x y Hxy. destruct (Z.eq_dec y 0) as [-> | Hy].
    - unfold int_truediv in Hxy. simpl in Hxy. injection Hxy as <-. now left.
    - right. eapply int_truediv_exn; eassumption. }
  assert (Hmix : (x <- as_float a ;; y <- as_float b ;;
                  if is_zero y then Raise ZeroDivisionError
                  else Ok (PFloat (x / y)%float)) = Raise e ->
                 e = ZeroDivisionError \/ e = OverflowError).
  { destruct (as_float a) as [x |] eqn:Ea; cbn [bind].
    - destruct (as_float b) as [y |] eqn:Eb; cbn [bind].
      + destruct (is_zero y); [| discriminate]. intros H'. injection H' as <-. now left.
      + intros H'. injection H' as <-. right. eapply as_float_exn; eassumption.
    - intros H'. injection H' as <-. right. eapply as_float_exn; eassumption. }
  destruct a as [x | x], b as [y | y]; try (exact (Hmix H)).
  destruct (int_truediv x y) as [q |] eqn:Eq; cbn [bind] in H; [discriminate |].
  injection H as <-. eapply Hint; eassumption.
Qed.

Lemma py_truediv_float (a b v : pyval) : py_truediv a b = Ok v -> is_float v = true.
Proof.
  unfold py_truediv. intros H.
  assert (Hmix : (x <- as_float a ;; y <- as_float b ;;
                  if is_zero y then Raise ZeroDivisionError
                  else Ok (PFloat (x / y)%float)) = Ok v -> is_float v = true).
  { intros H'. bind_inv H'. bind_inv H'. destruct (is_zero v1); [discriminate |].
    now injection H' as <-. }
  destruct a as [x | x], b as [y | y]; try (exact (Hmix H)).
  bind_inv H. now injection H as <-.
Qed.

(** *** The power [0.5] under the guard [discriminant >= 0] *)

Lemma binary_round_aux_real (m e : Z) (l : location) :
  has_real_root (binary_round_aux prec emax false m e l).
Proof.
  unfold binary_round_aux.
  destruct (shr_fexp prec emax m e l) as [mrs' e'].
  destruct (shr_fexp prec emax _ e' loc_Exact) as [mrs'' e''].
  destruct (shr_m mrs''); simpl; [exact I | | exact I].
  destruct (_ <=? _); exact I.
Qed.

Lemma binary_normalize_real (z e : Z) :
  0 <= z -> has_real_root (binary_normalize prec emax z e false).
Proof.
  destruct z as [| p | p]; intros Hz; [exact I | | lia].
  unfold binary_normalize, binary_round.
  destruct (shl_align p e _) as [mz ez]. apply binary_round_aux_real.
Qed.

Lemma SFldexp_real (r : spec_float) (e : Z) :
  has_real_root r -> has_real_root (SFldexp prec emax r e).
Proof.
  destruct r as [s | s | | s m ex]; simpl; try (intros; exact I).
  destruct s; [contradiction |]. intros _. unfold binary_round.
  destruct (shl_align m (ex + e) _) as [mz ez]. apply binary_round_aux_real.
Qed.

Lemma SF2Prim_real (r : spec_float) :
  has_real_root r -> has_real_root (Prim2SF (SF2Prim r)).
Proof.
  destruct r as [s | s | | s m e]; intros Hr.
  - destruct s; vm_compute; exact I.
  - destruct s; vm_compute; exact I.
  - vm_compute; exact I.
  - destruct s; [contradiction |].
    unfold SF2Prim. rewrite Z_ldexp_spec. apply SFldexp_real.
    rewrite of_uint63_spec. apply binary_normalize_real. apply Uint63.to_Z_bounded.
Qed.

Lemma py_pow_half_exn (d : pyval) (e : exn) :
  py_ge d (PInt 0) = true -> py_pow_half d = Raise e -> e = OverflowError.
Proof.
  intros Hge. unfold py_pow_half.
  destruct (as_float d) as [f |] eqn:Ef; cbn [bind].
  - assert (Hreal : has_real_root (Prim2SF f)).
    { destruct d as [z | g]; simpl in Ef.
      - unfold float_of_Z in Ef.
        assert (Hz : 0 <= z).
        { unfold py_ge, py_le, py_compare in Hge.
          destruct (Z.compare_spec 0 z); try discriminate; lia. }
        assert (Hn := binary_normalize_real z 0 Hz).
        destruct (binary_normalize prec emax z 0 false) eqn:En; try discriminate;
          injection Ef as <-; exact (SF2Prim_real _ Hn).
      - injection Ef as <-. unfold py_ge, py_le, py_compare in Hge.
        destruct (Prim2SF g) as [s | s | | s m ex]; try exact I.
        rewrite Z_compare_SF_0_finite in Hge. destruct s; [discriminate | exact I]. }
    unfold float_pow_half. destruct (Prim2SF f) as [s | s | | s m ex]; try discriminate.
    destruct s; [contradiction | discriminate].
  - intros H. injection H as <-. eapply as_float_exn; eassumption.
Qed.

Lemma linear_root_exn (a b : pyval) (e : exn) :
  linear_root a b = Raise e -> e = ZeroDivisionError \/ e = OverflowError.
Proof. apply py_truediv_exn. Qed.

Lemma discriminant_of_exn (a b c : pyval) (e : exn) :
  discriminant_of a b c = Raise e -> e = OverflowError.
Proof.
  unfold discriminant_of. intros H.
  raise_inv H; [now apply py_pow_nat_exn in H |].
  raise_inv H; [now apply py_arith_exn in H |].
  raise_inv H; [now apply py_arith_exn in H |].
  now apply py_arith_exn in H.
Qed.

Lemma quadratic_root_exn (plus : bool) (a b d : pyval) (e : exn) :
  py_ge d (PInt 0) = true ->
  quadratic_root plus a b d = Raise e -> e = ZeroDivisionError \/ e = OverflowError.
Proof.
  intros Hge. unfold quadratic_root. intros H.
  raise_inv H; [right; now apply (py_pow_half_exn d) |].
  raise_inv H; [right; destruct plus; now apply py_arith_exn in H |].
  raise_inv H; [right; now apply py_arith_exn in H |].
  now apply py_truediv_exn in H.
Qed.

Lemma find_vertical_asymptotes_exn (den : list pyval) (e : exn) :
  find_vertical_asymptotes den = Raise e -> e = ZeroDivisionError \/ e = OverflowError.
Proof.
  destruct den as [| a [| b [| c [| x den]]]]; try discriminate.
  - rewrite find_vertical_asymptotes_linear.
    destruct (py_ne a (PInt 0)); [| discriminate]. intros H.
    raise_inv H; [now apply linear_root_exn in H | discriminate].
  - rewrite find_vertical_asymptotes_quadratic.
    destruct (py_ne a (PInt 0)); [| discriminate]. intros H.
    raise_inv H; [right; now apply discriminant_of_exn in H |].
    destruct (py_ge v (PInt 0)) eqn:Hge; [| discriminate].
    raise_inv H; [now apply quadratic_root_exn in H |].
    raise_inv H; [now apply quadratic_root_exn in H | discriminate].
Qed.

Lemma find_vertical_asymptotes_floats (den l : list pyval) :
  find_vertical_asymptotes den = Ok l -> Forall (fun v => is_float v = true) l.
Proof.
  destruct den as [| a [| b [| c [| x den]]]];
    try (intros H; injection H as <-; constructor).
  - rewrite find_vertical_asymptotes_linear.
    destruct (py_ne a (PInt 0)); [| intros H; injection H as <-; constructor].
    intros H. bind_inv H. injection H as <-.
    repeat constructor. eapply py_truediv_float; eassumption.
  - rewrite find_vertical_asymptotes_quadratic.
    destruct (py_ne a (PInt 0)); [| intros H; injection H as <-; constructor].
    intros H. bind_inv H.
    destruct (py_ge v (PInt 0)); [| injection H as <-; constructor].
    bind_inv H. bind_inv H. injection H as <-.
    unfold quadratic_root in E0, E1.
    bind_inv E0. bind_inv E0. bind_inv E0. bind_inv E1. bind_inv E1. bind_inv E1.
    repeat constructor; eapply py_truediv_float; eassumption.
Qed.

Lemma find_x_intercepts_inv (num l : list pyval) :
  find_x_intercepts num = Ok l ->
  l = [] \/
  exists n0 n1 r, num = [n0; n1] /\ py_ne n0 (PInt 0) = true /\
                  linear_root n0 n1 = Ok r /\ is_float r = true /\ l = [r].
Proof.
  destruct num as [| n0 [| n1 [| x num]]]; try (intros H; injection H as <-; now left).
  unfold find_x_intercepts. destruct (py_ne n0 (PInt 0)) eqn:Hn;
    [| intros H; injection H as <-; now left].
  intros H. bind_inv H. injection H as <-. right.
  exists n0, n1, v. repeat split; try assumption.
  eapply py_truediv_float; eassumption.
Qed.

Lemma find_x_intercepts_exn (num : list pyval) (e : exn) :
  find_x_intercepts num = Raise e -> e = ZeroDivisionError \/ e = OverflowError.
Proof.
  destruct num as [| n0 [| n1 [| x num]]]; try discriminate.
  unfold find_x_intercepts. destruct (py_ne n0 (PInt 0)); [| discriminate].
  intros H. raise_inv H; [now apply py_truediv_exn in H | discriminate].
Qed.

Lemma last_item_empty (l : list pyval) (e : exn) : last_item l = Raise e -> l = [].
Proof.
  unfold last_item. destruct (list_empty_or_last l) as [-> | (l' & a & ->)];
    [reflexivity |]. rewrite rev_app_distr. discriminate.
Qed.

Lemma last_item_IndexError (l : list pyval) (e : exn) :
  last_item l = Raise e -> e = IndexError.
Proof.
  unfold last_item. destruct (rev l); [| discriminate]. intros H. now injection H as <-.
Qed.

Lemma find_y_intercept_exn (num den : list pyval) (e : exn) :
  find_y_intercept num den = Raise e ->
  e = ZeroDivisionError \/ e = OverflowError \/
  (e = IndexError /\ (num = [] \/ den = [])).
Proof.
  unfold find_y_intercept. intros H.
  raise_inv H.
  { right; right. split; [eapply last_item_IndexError; eassumption |].
    right. eapply last_item_empty; eassumption. }
  destruct (py_ne v (PInt 0)); [| discriminate].
  raise_inv H.
  { right; right. split; [eapply last_item_IndexError; eassumption |].
    left. eapply last_item_empty; eassumption. }
  raise_inv H; [| discriminate].
  apply py_truediv_exn in H. tauto.
Qed.

Lemma find_horizontal_asymptote_exn (num den : list pyval) (e : exn) :
  find_horizontal_asymptote num den = Raise e ->
  e = ZeroDivisionError \/ e = OverflowError \/
  (e = IndexError /\ (num = [] \/ den = [])).
Proof.
  unfold find_horizontal_asymptote.
  destruct (_ <? _); [discriminate |]. destruct (_ =? _); [| discriminate].
  intros H. raise_inv H.
  { destruct num; [| discriminate]. injection H as <-. right; right. auto. }
  raise_inv H.
  { destruct den; [| discriminate]. injection H as <-. right; right. auto. }
  raise_inv H; [| discriminate].
  apply py_truediv_exn in H. tauto.
Qed.

(** X4: construction raises nothing but [ZeroDivisionError], [OverflowError]
    and [IndexError], the last only for an empty numerator or denominator;
    with an empty denominator it always raises.  (The power [0.5] of
    [find_vertical_asymptotes] is only taken of a number that is not
    negative, so no root is ever complex.) *)
Theorem construction_exceptions (num den : list pyval) lvl nm :
  (forall e, RationalFunction_init num den lvl nm = Raise e ->
     e = ZeroDivisionError \/ e = OverflowError \/
     (e = IndexError /\ (num = [] \/ den = []))) /\
  (den = [] -> exists e, RationalFunction_init num den lvl nm = Raise e).
Proof.
  split.
  - unfold RationalFunction_init. intros e H.
    raise_inv H; [apply find_vertical_asymptotes_exn in H; tauto |].
    raise_inv H; [now apply find_horizontal_asymptote_exn in H |].
    raise_inv H; [apply find_x_intercepts_exn in H; tauto |].
    raise_inv H; [now apply find_y_intercept_exn in H | discriminate].
  - intros ->. unfold RationalFunction_init. cbn [find_vertical_asymptotes bind].
    destruct (find_horizontal_asymptote num []) as [ha | e];
      [| exists e; reflexivity]. cbn [bind].
    destruct (find_x_intercepts num) as [xi | e]; [| exists e; reflexivity].
    exists IndexError. reflexivity.
Qed.

(** An empty denominator. *)
Lemma construction_exceptions_witness :
  exists e, RationalFunction_init [PInt 1] [] 1 "f(x) = 1" = Raise e.
Proof. exact (proj2 (construction_exceptions [PInt 1] [] 1 "f(x) = 1") eq_refl). Defined.

(** X5: the derived fields of a constructed function: at most two vertical
    asymptotes and at most one x-intercept, all of them floats; a
    y-intercept that is a float; a horizontal asymptote that is the int [0]
    when the numerator has the smaller degree, a float when the degrees are
    equal, and [None] exactly when the numerator has the larger degree. *)
Theorem derived_fields_shape (num den : list pyval) lvl nm (f : RationalFunction) :
  RationalFunction_init num den lvl nm = Ok f ->
  ((List.length (vertical_asymptotes f) <= 2)%nat /\
   Forall (fun v => is_float v = true) (vertical_asymptotes f)) /\
  ((List.length (x_intercepts f) <= 1)%nat /\
   Forall (fun v => is_float v = true) (x_intercepts f)) /\
  (forall y, y_intercept f = Some y -> is_float y = true) /\
  (forall h, horizontal_asymptote f = Some h ->
     (h = PInt 0 /\ degree num < degree den) \/
     (is_float h = true /\ degree num = degree den)) /\
  (horizontal_asymptote f = None <-> degree den < degree num).
Proof.
  intros H. apply init_fields in H. destruct H as (_ & _ & Hva & Hha & Hxi & Hy).
  split; [| split; [| split; [| split]]].
  - split; [eapply vertical_asymptotes_at_most_two; eassumption |].
    eapply find_vertical_asymptotes_floats; eassumption.
  - destruct (find_x_intercepts_inv _ _ Hxi) as [-> | (n0 & n1 & r & _ & _ & _ & Hr & ->)].
    + split; [simpl; lia | constructor].
    + split; [simpl; lia | repeat constructor; exact Hr].
  - intros y Ey. rewrite Ey in Hy. unfold find_y_intercept in Hy.
    bind_inv Hy. destruct (py_ne v (PInt 0)); [| discriminate].
    bind_inv Hy. bind_inv Hy. injection Hy as <-. eapply py_truediv_float; eassumption.
  - intros h Eh. rewrite Eh in Hha. unfold find_horizontal_asymptote in Hha.
    fold (degree num) in Hha. fold (degree den) in Hha.
    destruct (Z.ltb_spec (degree num) (degree den)).
    + injection Hha as <-. now left.
    + destruct (Z.eqb_spec (degree num) (degree den)); [| discriminate]. right.
      bind_inv Hha. bind_inv Hha. bind_inv Hha. injection Hha as <-.
      split; [eapply py_truediv_float; eassumption | assumption].
  - unfold find_horizontal_asymptote in Hha.
    fold (degree num) in Hha. fold (degree den) in Hha.
    destruct (Z.ltb_spec (degree num) (degree den)).
    + injection Hha as <-. split; [discriminate | lia].
    + destruct (Z.eqb_spec (degree num) (degree den)).
      * bind_inv Hha. bind_inv Hha. bind_inv Hha. injection Hha as <-.
        split; [discriminate | lia].
      * injection Hha as <-. split; [lia | reflexivity].
Qed.

(** The sample function [(x-1)/(x^2-4)]. *)
Lemma derived_fields_shape_witness :
  RationalFunction_init [PInt 1; PInt (-1)] [PInt 1; PInt 0; PInt (-4)] 2
    "f(x) = (x-1)/(x^2-4)" = Ok x_minus_1_over_x2_minus_4 /\
  Forall (fun v => is_float v = true) (vertical_asymptotes x_minus_1_over_x2_minus_4).
Proof.
  refine (conj x_minus_1_over_x2_minus_4_init _).
  exact (proj2 (proj1 (derived_fields_shape _ _ _ _ _ x_minus_1_over_x2_minus_4_init))).
Defined.

(* ================================================================= *)
(** ** More on the polynomial formatter *)

(** *** What can be printed *)

(** The largest float is far below the digit limit of [str]. *)
Lemma str_limit_large : 2 ^ 1024 < 10 ^ int_max_str_digits.
Proof.
  apply Z.lt_le_trans with (10 ^ 1024).
  - apply Z.pow_lt_mono_l; lia.
  - apply Z.pow_le_mono_r; [lia | discriminate].
Qed.

Lemma digits2_pos_bound (m : positive) : Z.pos m < 2 ^ Z.pos (digits2_pos m).
Proof.
  induction m as [m IH | m IH |]; cbn [digits2_pos].
  - rewrite Pos2Z.inj_succ, Z.pow_succ_r by lia. lia.
  - rewrite Pos2Z.inj_succ, Z.pow_succ_r by lia. lia.
  - reflexivity.
Qed.

(** [int(f)] of a float is below [2^1024] in absolute value. *)
Lemma py_int_float_small (f : float) (i : Z) :
  py_int (PFloat f) = Ok i -> Z.abs i < 2 ^ 1024.
Proof.
  unfold py_int. assert (Hv := Prim2SF_valid f).
  destruct (Prim2SF f) as [s | s | | s m e]; try discriminate.
  - intros H. injection H as <-. reflexivity.
  - unfold valid_binary, bounded, canonical_mantissa, fexp, emin in Hv.
    apply andb_prop in Hv. destruct Hv as [Hc He].
    apply Z.eqb_eq in Hc. apply Z.leb_le in He.
    assert (Hd := digits2_pos_bound m).
    assert (Hdig : Z.pos (digits2_pos m) <= 53) by (unfold prec, emax in *; lia).
    assert (He' : e <= 971) by (unfold prec, emax in *; lia).
    assert (Hm : Z.pos m < 2 ^ 53).
    { eapply Z.lt_le_trans; [exact Hd |]. apply Z.pow_le_mono_r; lia. }
    cbv zeta. intros H.
    set (t := match e with
              | Z.neg p => Z.shiftr (Z.pos m) (Z.pos p)
              | _ => Z.pos m * 2 ^ e
              end) in H.
    assert (Ht : 0 <= t < 2 ^ 1024).
    { unfold t. clear H t. destruct e as [| p | p].
      - rewrite Z.pow_0_r, Z.mul_1_r. split; [lia |].
        eapply Z.lt_trans; [exact Hm |]. apply Z.pow_lt_mono_r; lia.
      - assert (Hp : 0 < 2 ^ Z.pos p) by (apply Z.pow_pos_nonneg; lia).
        split; [apply Z.mul_nonneg_nonneg; lia |].
        replace 1024 with (53 + 971) by reflexivity. rewrite Z.pow_add_r by lia.
        eapply Z.lt_le_trans; [apply Z.mul_lt_mono_pos_r; [exact Hp | exact Hm] |].
        apply Z.mul_le_mono_nonneg_l; [apply Z.pow_nonneg; lia |].
        apply Z.pow_le_mono_r; lia.
      - assert (Hp : 0 < 2 ^ Z.pos p) by (apply Z.pow_pos_nonneg; lia).
        rewrite Z.shiftr_div_pow2 by lia. split; [apply Z.div_pos; lia |].
        eapply Z.le_lt_trans; [apply Z.div_le_upper_bound; [exact Hp |] |].
        + instantiate (1 := Z.pos m).
          set (X := 2 ^ Z.pos p) in *. clearbody X.
          assert (1 * Z.pos m <= X * Z.pos m) by (apply Z.mul_le_mono_nonneg_r; lia).
          lia.
        + eapply Z.lt_trans; [exact Hm |]. apply Z.pow_lt_mono_r; lia. }
    clearbody t. injection H as <-.
    set (B := 2 ^ 1024) in *. clearbody B. destruct s; lia.
Qed.

Lemma py_int_str_small (z : Z) :
  Z.abs z < 10 ^ int_max_str_digits -> py_int_str z = Ok (int_str z).
Proof.
  intros H. unfold py_int_str.
  destruct (Z.leb_spec (10 ^ int_max_str_digits) (Z.abs z)); [lia | reflexivity].
Qed.

Lemma py_eq_not_finite (c : pyval) (k : Z) :
  py_is_finite c = false -> py_eq c (PInt k) = false.
Proof.
  destruct c as [z | f]; [discriminate |]. unfold py_is_finite, py_eq, py_compare.
  destruct (Prim2SF f) as [s | s | | s m e]; try discriminate; intros _;
    [destruct s |]; reflexivity.
Qed.

(** A number that cannot be printed is none of [0], [1] and [-1]. *)
Lemma py_eq_not_printable (c : pyval) (k : Z) :
  Z.abs k <= 1 -> py_printable c = false -> py_eq c (PInt k) = false.
Proof.
  intros Hk. destruct c as [z | f]; [| apply py_eq_not_finite].
  unfold py_printable, py_eq, py_compare. intros H. apply Z.ltb_ge in H.
  assert (HB := str_limit_large). assert (H2 : 1 < 2 ^ 1024) by reflexivity.
  set (B := 10 ^ int_max_str_digits) in *. clearbody B.
  set (C := 2 ^ 1024) in *. clearbody C.
  destruct (Z.compare_spec z k); [lia | reflexivity | reflexivity].
Qed.

Lemma py_int_finite (c : pyval) :
  if py_is_finite c then exists i, py_int c = Ok i
  else exists e, py_int c = Raise e /\ (e = ValueError \/ e = OverflowError).
Proof.
  destruct c as [z | f]; [simpl; eauto |]. unfold py_is_finite, py_int.
  destruct (Prim2SF f) as [s | s | | s m e]; eauto.
Qed.

Lemma coef_str_printable (coef : pyval) :
  if py_printable coef then exists s, coef_str coef = Ok s
  else exists e, coef_str coef = Raise e /\ (e = ValueError \/ e = OverflowError).
Proof.
  unfold coef_str. destruct coef as [z | f].
  - cbn [py_int bind]. unfold py_eq, py_compare. rewrite Z.compare_refl.
    unfold py_printable, py_int_str.
    destruct (Z.ltb_spec (Z.abs z) (10 ^ int_max_str_digits)) as [Hlt | Hge].
    + destruct (Z.leb_spec (10 ^ int_max_str_digits) (Z.abs z)); [lia | eauto].
    + destruct (Z.leb_spec (10 ^ int_max_str_digits) (Z.abs z)); [eauto | lia].
  - assert (Hint := py_int_finite (PFloat f)). cbn [py_printable].
    destruct (py_is_finite (PFloat f)).
    + destruct Hint as (i & Hi). rewrite Hi. cbn [bind].
      destruct (py_eq (PFloat f) (PInt i)); [| eauto].
      rewrite py_int_str_small; [eauto |].
      apply py_int_float_small in Hi. assert (HB := str_limit_large). lia.
    + destruct Hint as (e & -> & Hkind). cbn [bind]. eauto.
Qed.

Lemma format_term_printable (coef : pyval) (power : nat) :
  if py_printable coef then exists t, format_term coef power = Ok t
  else exists e, format_term coef power = Raise e /\
                 (e = ValueError \/ e = OverflowError).
Proof.
  assert (Hstr := coef_str_printable coef).
  destruct (py_printable coef) eqn:Hp.
  - destruct Hstr as (s & Hs). unfold format_term.
    destruct power as [| [| n]]; [eauto | |];
      destruct (py_eq coef (PInt 1)); eauto;
      destruct (py_eq coef (PInt (-1))); eauto;
      rewrite Hs; cbn [bind]; eauto.
  - destruct Hstr as (e & Hs & Hkind). exists e. split; [| exact Hkind].
    assert (H1 : py_eq coef (PInt 1) = false)
      by (apply py_eq_not_printable; [discriminate | exact Hp]).
    assert (H2 : py_eq coef (PInt (-1)) = false)
      by (apply py_eq_not_printable; [discriminate | exact Hp]).
    unfold format_term.
    destruct power as [| [| n]]; [exact Hs | |]; rewrite H1, H2, Hs; reflexivity.
Qed.

Lemma collect_terms_printable (coeffs : list pyval) :
  if forallb py_printable coeffs then exists ts, collect_terms coeffs = Ok ts
  else exists e, collect_terms coeffs = Raise e /\
                 (e = ValueError \/ e = OverflowError).
Proof.
  induction coeffs as [| coef rest IH]; [simpl; eauto |].
  cbn [forallb collect_terms].
  assert (Hterm := format_term_printable coef (List.length rest)).
  destruct (py_printable coef) eqn:Hp; cbn [andb].
  - destruct Hterm as (t & Ht). rewrite Ht. cbn [bind].
    destruct (forallb py_printable rest).
    + destruct IH as (ts & ->). destruct (py_eq coef (PInt 0)); cbn [bind]; eauto.
    + destruct IH as (e & -> & Hkind). destruct (py_eq coef (PInt 0)); cbn [bind]; eauto.
  - rewrite (py_eq_not_printable coef 0); [| discriminate | exact Hp].
    destruct Hterm as (e & -> & Hkind). cbn [bind]. eauto.
Qed.

Lemma format_polynomial_printable (coeffs : list pyval) :
  ((exists s, format_polynomial coeffs = Ok s) <->
   forallb py_printable coeffs = true) /\
  (forall e, format_polynomial coeffs = Raise e ->
             e = ValueError \/ e = OverflowError).
Proof.
  assert (Hc := collect_terms_printable coeffs). unfold format_polynomial.
  destruct coeffs as [| coef rest].
  - split; [split; eauto | discriminate].
  - destruct (forallb py_printable (coef :: rest)).
    + destruct Hc as (ts & ->). cbn [bind]. split; [split; eauto | discriminate].
    + destruct Hc as (e & -> & Hkind). cbn [bind]. split.
      * split; [intros (s & H); discriminate | discriminate].
      * intros e' H. now injection H as <-.
Qed.

(** X6: [format_polynomial] returns exactly when every coefficient can be
    printed: no float coefficient is an infinity or a nan and no int
    coefficient has more than 4300 digits, wherever it stands; otherwise it
    raises, with [ValueError] or [OverflowError]. *)
Theorem format_polynomial_returns (coeffs : list pyval) :
  ((exists s, format_polynomial coeffs = Ok s) <->
   forallb py_printable coeffs = true) /\
  (forall e, format_polynomial coeffs = Raise e ->
             e = ValueError \/ e = OverflowError).
Proof. apply format_polynomial_printable. Qed.

(** X20: [get_equation] returns exactly when every coefficient of the
    numerator and of the denominator can be printed (no infinity, no nan, no
    int of more than 4300 digits), and then shows the two prints in
    parentheses around [" / "]. *)
Theorem get_equation_returns (self : RationalFunction) :
  ((exists s, get_equation self = Ok s) <->
   forallb py_printable (numerator self) = true /\
   forallb py_printable (denominator self) = true) /\
  (forall s, get_equation self = Ok s ->
     exists n d, format_polynomial (numerator self) = Ok n /\
                 format_polynomial (denominator self) = Ok d /\
                 s = "(" ++ n ++ ") / (" ++ d ++ ")").
Proof.
  unfold get_equation.
  destruct (format_polynomial_printable (numerator self)) as [Hn _].
  destruct (format_polynomial_printable (denominator self)) as [Hd _].
  split; [split |].
  - intros (s & H). bind_inv H. bind_inv H. split; [apply Hn | apply Hd]; eauto.
  - intros [Fn Fd]. apply Hn in Fn. apply Hd in Fd.
    destruct Fn as (n & ->). destruct Fd as (d & ->). cbn [bind]. eauto.
  - intros s H. bind_inv H. bind_inv H. injection H as <-. eauto.
Qed.

(** Construction accepts an infinite coefficient; [get_equation] then
    raises on the constructed function. *)
Example get_equation_raises_on_constructed :
  (f <- RationalFunction_init [PFloat infinity] [PInt 1; PInt 1] 1 "f" ;;
   Ok (get_equation f)) = Ok (Raise OverflowError).
Proof. vm_compute. reflexivity. Qed.

(** An int coefficient of 4301 digits or more is not printed. *)
Lemma format_polynomial_long_int (z : Z) :
  10 ^ int_max_str_digits <= Z.abs z ->
  format_polynomial [PInt z] = Raise ValueError.
Proof.
  intros H. unfold format_polynomial. cbn [collect_terms List.length format_term].
  assert (Hp : py_printable (PInt z) = false) by (apply Z.ltb_ge; exact H).
  rewrite (py_eq_not_printable (PInt z) 0); [| discriminate | exact Hp].
  unfold coef_str. cbn [py_int bind]. unfold py_eq at 1, py_compare.
  rewrite Z.compare_refl. unfold py_int_str.
  destruct (Z.leb_spec (10 ^ int_max_str_digits) (Z.abs z)); [reflexivity | lia].
Qed.

Example format_polynomial_digit_limit :
  format_polynomial [PInt (10 ^ 4300)] = Raise ValueError /\
  get_equation x2_over_tiny_x = Ok "(x^2) / (1e-300x)".
Proof.
  split; [| vm_compute; reflexivity].
  apply format_polynomial_long_int.
  rewrite Z.abs_eq by (apply Z.pow_nonneg; lia). apply Z.le_refl.
Qed.

Lemma format_term_nonempty (coef : pyval) (power : nat) (t : string) :
  format_term coef power = Ok t -> t <> "".
Proof.
  assert (Hrest : forall r,
    (if py_eq coef (PInt 1) then Ok ("x" ++ r)
     else if py_eq coef (PInt (-1)) then Ok ("-x" ++ r)
     else s <- coef_str coef ;; Ok (s ++ "x" ++ r)) = Ok t -> t <> "").
  { intros r H. destruct (py_eq coef (PInt 1)); [injection H as <-; discriminate |].
    destruct (py_eq coef (PInt (-1))); [injection H as <-; discriminate |].
    bind_inv H. injection H as <-. destruct (coef_str_sign coef v E) as [Hne _].
    destruct v; [congruence | discriminate]. }
  unfold format_term. destruct power as [| [| n]].
  - intros H. now destruct (coef_str_sign coef t H).
  - apply (Hrest "").
  - apply (Hrest ("^" ++ int_str (Z.of_nat (S (S n))))).
Qed.

Lemma collect_terms_head (coeffs : list pyval) (terms : list string) :
  collect_terms coeffs = Ok terms ->
  match find (fun c => py_ne c (PInt 0)) coeffs with
  | None => terms = []
  | Some c => exists p t ts, terms = t :: ts /\ format_term c p = Ok t
  end.
Proof.
  revert terms. induction coeffs as [| coef rest IH]; intros terms H.
  - now injection H as <-.
  - cbn [collect_terms find] in *. unfold py_ne.
    destruct (py_eq coef (PInt 0)); cbn [negb].
    + now apply IH.
    + bind_inv H. bind_inv H. injection H as <-. eauto.
Qed.

(** X7: the print of a polynomial is never empty, and it starts with a
    minus sign exactly when the first non-zero coefficient is negative. *)
Theorem format_polynomial_leading_sign (coeffs : list pyval) (s : string) :
  format_polynomial coeffs = Ok s ->
  s <> "" /\
  startswith_minus s =
    match find (fun c => py_ne c (PInt 0)) coeffs with
    | Some c => py_lt c (PInt 0)
    | None => false
    end.
Proof.
  unfold format_polynomial. destruct coeffs as [| coef rest].
  - intros H. injection H as <-. split; [discriminate | reflexivity].
  - intros H. bind_inv H. injection H as <-.
    apply collect_terms_head in E.
    destruct (find _ (coef :: rest)) as [c |].
    + destruct E as (p & t & ts & -> & Ht). cbn [join_terms].
      rewrite fold_join_step.
      assert (Hne := format_term_nonempty _ _ _ Ht). split.
      * destruct t; [congruence | discriminate].
      * rewrite (startswith_minus_app _ _ Hne). now apply format_term_sign in Ht.
    + subst v. split; [discriminate | reflexivity].
Qed.

(** [-x^2 + x + 1]. *)
Lemma format_polynomial_leading_sign_witness :
  format_polynomial [PInt 0; PInt (-1); PInt 1; PInt 1] = Ok "-x^2 + x + 1" /\
  startswith_minus "-x^2 + x + 1" = py_lt (PInt (-1)) (PInt 0).
Proof.
  assert (H : format_polynomial [PInt 0; PInt (-1); PInt 1; PInt 1] = Ok "-x^2 + x + 1")
    by (vm_compute; reflexivity).
  exact (conj H (proj2 (format_polynomial_leading_sign _ _ H))).
Defined.

Lemma collect_terms_leading_zeros (zs coeffs : list pyval) :
  all_zero zs = true -> collect_terms (zs ++ coeffs) = collect_terms coeffs.
Proof.
  unfold all_zero. induction zs as [| z zs IH]; [reflexivity |].
  cbn [forallb app collect_terms]. intros H. apply andb_prop in H.
  destruct H as [-> H]. now apply IH.
Qed.

(** X8: zero coefficients in front of a coefficient list do not change its
    print. *)
Theorem format_polynomial_leading_zeros (zs coeffs : list pyval) :
  all_zero zs = true ->
  format_polynomial (zs ++ coeffs) = format_polynomial coeffs.
Proof.
  intros Hz. assert (H := collect_terms_leading_zeros zs coeffs Hz).
  unfold format_polynomial.
  destruct (zs ++ coeffs)%list as [| a l] eqn:E.
  - apply app_eq_nil in E. destruct E as [_ ->]. reflexivity.
  - rewrite H. destruct coeffs as [| c rest]; reflexivity.
Qed.

(** [0x^2 + 0.0x^1 + x - 2] prints as [x - 2]. *)
Lemma format_polynomial_leading_zeros_witness :
  all_zero [PInt 0; PFloat 0] = true /\
  format_polynomial [PInt 0; PFloat 0; PInt 1; PInt (-2)]
  = format_polynomial [PInt 1; PInt (-2)].
Proof.
  assert (H : all_zero [PInt 0; PFloat 0] = true) by (vm_compute; reflexivity).
  exact (conj H (format_polynomial_leading_zeros [PInt 0; PFloat 0]
                   [PInt 1; PInt (-2)] H)).
Defined.

(* ================================================================= *)
(** ** More on the questions *)

(** *** The print of a float is never the print of the int [0] *)

Lemma append_nonempty_r (a b : string) : b <> "" -> a ++ b <> "".
Proof. destruct a; simpl; [auto | discriminate]. Qed.

Lemma format_repr_two_chars (ds : string) (decpt : Z) :
  ds <> "" -> exists c r, format_repr ds decpt = String c r /\ r <> "".
Proof.
  destruct ds as [| c0 s0]; [congruence |]. intros _. unfold format_repr.
  destruct (_ || _).
  - cbn [substring append]. exists c0. eexists. split; [reflexivity |].
    apply append_nonempty_r.
    destruct (_ <? _)%nat; [discriminate | discriminate].
  - destruct (Z.leb_spec decpt 0).
    + exists "0"%char. eexists. split; [reflexivity | discriminate].
    + destruct (_ <? _).
      * destruct (Z.to_nat decpt) as [| n] eqn:E; [lia |].
        cbn [substring append]. exists c0. eexists. split; [reflexivity |].
        apply append_nonempty_r. discriminate.
      * cbn [append]. exists c0. eexists. split; [reflexivity |].
        apply append_nonempty_r, append_nonempty_r. discriminate.
Qed.

Lemma float_repr_not_0 (f : float) : float_repr f <> "0".
Proof.
  unfold float_repr. destruct (Prim2SF f) as [s | s | | s m e];
    try (destruct s; discriminate); try discriminate.
  destruct (shortest_digits_head m e) as (c & r & E & _).
  destruct (shortest_digits m e) as [ds decpt]. simpl in E.
  destruct (format_repr_two_chars ds decpt) as (c' & r' & -> & Hr');
    [rewrite E; discriminate |].
  destruct s; [discriminate |]. cbn [append]. intros H. injection H as _ H.
  contradiction.
Qed.

Lemma py_str_float_not_0 (v : pyval) : is_float v = true -> py_str v <> "0".
Proof. destruct v; [discriminate |]. intros _. apply float_repr_not_0. Qed.

Lemma length_append (a b : string) :
  String.length (a ++ b) = (String.length a + String.length b)%nat.
Proof. induction a as [| c a IH]; simpl; [reflexivity | now rewrite IH]. Qed.

(** *** The questions in full *)

Lemma vertical_question_forms (f : RationalFunction) :
  match vertical_asymptotes f with
  | [] => vertical_question f = Ok []
  | [va] =>
      exists q o1, vertical_question f = Ok [q] /\
        function q = f /\ q_type q = "vertical_asymptote" /\ points q = 100 /\
        correct_answer q = "x = " ++ py_str va /\
        options q = [ "x = " ++ py_str va; o1; "y = " ++ py_str va;
                      "No vertical asymptote" ]
  | [r1; r2] =>
      exists q lo hi, vertical_question f = Ok [q] /\
        function q = f /\ q_type q = "vertical_asymptote" /\ points q = 150 /\
        correct_answer q = "x = " ++ py_str lo ++ " and x = " ++ py_str hi /\
        options q = [ "x = " ++ py_str lo ++ " and x = " ++ py_str hi;
                      "x = " ++ py_str lo; "x = " ++ py_str hi;
                      "No vertical asymptotes" ]
  | _ => vertical_question f = Raise ValueError
  end.
Proof.
  unfold vertical_question.
  destruct (vertical_asymptotes f) as [| va [| va' [| va'' l]]]; try reflexivity.
  - destruct (py_add_1_returns va) as (w & ->). cbn [bind].
    do 2 eexists. split; [reflexivity |]. cbn. repeat split.
  - cbn [sorted_pair bind]. destruct (py_lt va' va);
      do 3 eexists; (split; [reflexivity |]); cbn; repeat split.
Qed.

Lemma horizontal_question_forms (f : RationalFunction) :
  match horizontal_asymptote f with
  | None => horizontal_question f = Ok []
  | Some ha =>
      exists q o1, horizontal_question f = Ok [q] /\
        function q = f /\ q_type q = "horizontal_asymptote" /\ points q = 100 /\
        correct_answer q = "y = " ++ py_str ha /\
        options q = [ "y = " ++ py_str ha; o1; "y = 0"; "No horizontal asymptote" ]
  end.
Proof.
  unfold horizontal_question. destruct (horizontal_asymptote f) as [ha |];
    [| reflexivity].
  destruct (py_add_1_returns ha) as (w & ->). cbn [bind].
  do 2 eexists. split; [reflexivity |]. cbn. repeat split.
Qed.

Lemma intercept_question_forms (f : RationalFunction) :
  match x_intercepts f with
  | [] => intercept_question f = Ok []
  | xi :: _ =>
      exists q o1, intercept_question f = Ok [q] /\
        function q = f /\ q_type q = "x_intercept" /\ points q = 100 /\
        correct_answer q = "x = " ++ py_str xi /\
        options q = [ "x = " ++ py_str xi; o1; "x = 0"; "No x-intercept" ]
  end.
Proof.
  unfold intercept_question. destruct (x_intercepts f) as [| xi rest];
    [reflexivity |].
  destruct (py_add_1_returns xi) as (w & ->). cbn [bind].
  do 2 eexists. split; [reflexivity |]. cbn. repeat split.
Qed.

Lemma create_questions_shape num den lvl nm (f : RationalFunction) :
  RationalFunction_init num den lvl nm = Ok f ->
  exists qs, create_questions f = Ok qs /\
    map q_type qs = expected_kinds f /\
    Forall (fun q => function q = f) qs /\
    (List.length qs <= 3)%nat /\
    (qs = [] <-> vertical_asymptotes f = [] /\ horizontal_asymptote f = None /\
                 x_intercepts f = []).
Proof.
  intros H. apply init_fields in H. destruct H as (_ & _ & Hva & _).
  apply vertical_asymptotes_at_most_two in Hva.
  assert (Hv := vertical_question_forms f).
  assert (Hh := horizontal_question_forms f).
  assert (Hx := intercept_question_forms f).
  unfold create_questions, expected_kinds.
  destruct (vertical_asymptotes f) as [| va [| va' [| va'' l]]];
    [| | | simpl in Hva; lia];
    [rewrite Hv
    |destruct Hv as (qv & ? & -> & Hfv & Htv & _)
    |destruct Hv as (qv & ? & ? & -> & Hfv & Htv & _)];
    (destruct (horizontal_asymptote f) as [ha |];
     [destruct Hh as (qh & ? & -> & Hfh & Hth & _) | rewrite Hh]);
    (destruct (x_intercepts f) as [| xi rest];
     [rewrite Hx | destruct Hx as (qx & ? & -> & Hfx & Htx & _)]);
    cbn [bind app map]; eexists; (split; [reflexivity |]);
    cbn [map List.length]; rewrite ?Htv, ?Hth, ?Htx;
    (split; [reflexivity |]);
    (split; [repeat constructor; assumption |]);
    (split; [lia |]);
    (split; [intros E; try discriminate E; auto
            | intros (E1 & E2 & E3); try discriminate E1; try discriminate E2;
              try discriminate E3; reflexivity]).
Qed.

(** X9: for a constructed function [create_questions] returns one question
    for each property the function has, in the order vertical asymptote,
    horizontal asymptote, x-intercept: at most three, each bound to the
    function, and none at all exactly when the function has none of the three
    properties. *)
Theorem create_questions_kinds num den lvl nm (f : RationalFunction) :
  RationalFunction_init num den lvl nm = Ok f ->
  exists qs, create_questions f = Ok qs /\
    map q_type qs = expected_kinds f /\
    Forall (fun q => function q = f) qs /\
    (List.length qs <= 3)%nat /\
    (qs = [] <-> vertical_asymptotes f = [] /\ horizontal_asymptote f = None /\
                 x_intercepts f = []).
Proof. apply create_questions_shape. Qed.

(** The sample function [f(x) = 1/x]: a vertical and a horizontal
    asymptote, no x-intercept. *)
Lemma create_questions_kinds_witness :
  RationalFunction_init [PInt 1] [PInt 1; PInt 0] 1 "f(x) = 1/x" = Ok one_over_x /\
  exists qs, create_questions one_over_x = Ok qs /\
    map q_type qs = ["vertical_asymptote"; "horizontal_asymptote"].
Proof.
  refine (conj one_over_x_init _).
  destruct (create_questions_kinds _ _ _ _ _ one_over_x_init) as (qs & H & Hk & _).
  exists qs. exact (conj H Hk).
Defined.

Lemma create_questions_parts (f : RationalFunction) (qs : list Question) :
  create_questions f = Ok qs ->
  exists qv qh qx,
    vertical_question f = Ok qv /\ horizontal_question f = Ok qh /\
    intercept_question f = Ok qx /\ qs = (qv ++ qh ++ qx)%list.
Proof.
  unfold create_questions. intros H. bind_inv H. bind_inv H. bind_inv H.
  injection H as <-. eauto 10.
Qed.

Lemma find_horizontal_asymptote_inv (num den : list pyval) (h : pyval) :
  find_horizontal_asymptote num den = Ok (Some h) ->
  (h = PInt 0 /\ degree num < degree den) \/
  (is_float h = true /\ degree num = degree den).
Proof.
  unfold find_horizontal_asymptote. fold (degree num). fold (degree den).
  destruct (Z.ltb_spec (degree num) (degree den)) as [Hlt | Hge].
  - intros H. injection H as <-. now left.
  - destruct (Z.eqb_spec (degree num) (degree den)) as [Heq | Hne]; [| discriminate].
    intros H.
    bind_inv H. bind_inv H. bind_inv H. injection H as <-. right.
    split; [eapply py_truediv_float; eassumption | assumption].
Qed.

Lemma prefixed_eq (p a b : string) : p ++ a = p ++ b -> a = b.
Proof. induction p as [| c p IH]; simpl; [auto |]. intros H. injection H as H. auto. Qed.

(** X10: in the horizontal-asymptote question of a constructed function
    the third option is the fixed string [y = 0], and the correct answer
    is that same string exactly when the numerator has the smaller degree;
    then the options are not four different strings. *)
Theorem horizontal_zero_collision num den lvl nm (f : RationalFunction) qs q :
  RationalFunction_init num den lvl nm = Ok f ->
  create_questions f = Ok qs -> In q qs ->
  q_type q = "horizontal_asymptote" ->
  nth 2 (options q) "" = "y = 0" /\
  (correct_answer q = "y = 0" <-> degree num < degree den) /\
  (degree num < degree den -> ~ NoDup (options q)).
Proof.
  intros Hinit Hqs Hin Hty.
  apply init_fields in Hinit. destruct Hinit as (_ & _ & _ & Hha & _).
  destruct (create_questions_parts f qs Hqs) as (qv & qh & qx & Hv & Hh & Hx & ->).
  assert (Fv := vertical_question_forms f).
  assert (Fh := horizontal_question_forms f).
  assert (Fx := intercept_question_forms f).
  assert (Hq : In q qh).
  { rewrite !in_app_iff in Hin. destruct Hin as [Hin | [Hin | Hin]]; [| exact Hin |].
    - exfalso. rewrite Hv in Fv.
      destruct (vertical_asymptotes f) as [| va [| va' [| va'' l]]].
      + injection Fv as ->. destruct Hin.
      + destruct Fv as (q0 & ? & E & _ & Ht & _). injection E as ->.
        destruct Hin as [<- | []]. rewrite Ht in Hty. discriminate.
      + destruct Fv as (q0 & ? & ? & E & _ & Ht & _). injection E as ->.
        destruct Hin as [<- | []]. rewrite Ht in Hty. discriminate.
      + discriminate.
    - exfalso. rewrite Hx in Fx. destruct (x_intercepts f) as [| xi rest].
      + injection Fx as ->. destruct Hin.
      + destruct Fx as (q0 & ? & E & _ & Ht & _). injection E as ->.
        destruct Hin as [<- | []]. rewrite Ht in Hty. discriminate. }
  rewrite Hh in Fh. destruct (horizontal_asymptote f) as [ha |].
  - destruct Fh as (q0 & o1 & E & _ & _ & _ & Hc & Ho). injection E as ->.
    destruct Hq as [<- | []]. rewrite Hc, Ho. split; [reflexivity |].
    destruct (find_horizontal_asymptote_inv _ _ _ Hha) as [[-> Hlt] | [Hfl Heq]].
    + split; [split; [intros _; exact Hlt | reflexivity] |].
      intros _ Hnd. cbn [py_str] in Hnd. inversion Hnd as [| ? ? Hnotin _].
      apply Hnotin. simpl. auto.
    + split; [split |]; [| lia | lia].
      intros Hy. exfalso. apply (py_str_float_not_0 ha Hfl).
      exact (prefixed_eq "y = " _ "0" Hy).
  - injection Fh as ->. destruct Hq.
Qed.

(** The sample function [f(x) = 1/x]. *)
Lemma horizontal_zero_collision_witness :
  RationalFunction_init [PInt 1] [PInt 1; PInt 0] 1 "f(x) = 1/x" = Ok one_over_x /\
  exists qs q,
    create_questions one_over_x = Ok qs /\ In q qs /\
    q_type q = "horizontal_asymptote" /\
    nth 2 (options q) "" = "y = 0" /\
    (correct_answer q = "y = 0" <-> degree [PInt 1] < degree [PInt 1; PInt 0]).
Proof.
  refine (conj one_over_x_init _).
  destruct (horizontal_question_forms one_over_x) as (q & o1 & Hq & _ & Ht & _).
  assert (Hqs : exists qv, create_questions one_over_x = Ok [qv; q]).
  { vm_compute in Hq. injection Hq as <-. eexists. vm_compute. reflexivity. }
  destruct Hqs as (qv & Hqs).
  exists [qv; q], q.
  assert (Hin : In q [qv; q]) by (right; left; reflexivity).
  refine (conj Hqs (conj Hin (conj Ht _))).
  destruct (horizontal_zero_collision _ _ _ _ _ _ _ one_over_x_init Hqs Hin Ht)
    as (H2 & Hiff & _).
  exact (conj H2 Hiff).
Defined.

Lemma longer_not_eq (p a b : string) : b <> "" -> p ++ a ++ b <> p ++ a.
Proof.
  intros Hb H. apply (f_equal String.length) in H.
  rewrite !length_append in H. destruct b; [congruence | simpl in H; lia].
Qed.

Lemma two_roots_answer_unique (lo hi : string) :
  occurrences ("x = " ++ lo ++ " and x = " ++ hi)
    [ "x = " ++ lo ++ " and x = " ++ hi; "x = " ++ lo; "x = " ++ hi;
      "No vertical asymptotes" ] = 1%nat.
Proof.
  unfold occurrences. cbn [count_occ].
  destruct (string_dec _ _) as [_ | Hne]; [| congruence].
  destruct (string_dec ("x = " ++ lo) _) as [E | _].
  { exfalso. symmetry in E. revert E. apply longer_not_eq. discriminate. }
  destruct (string_dec ("x = " ++ hi) _) as [E | _].
  { exfalso. apply (f_equal String.length) in E. rewrite !length_append in E.
    simpl in E. lia. }
  destruct (string_dec "No vertical asymptotes" _) as [E | _]; [discriminate E |].
  reflexivity.
Qed.

(** X11: in the vertical-asymptote and x-intercept questions of a
    constructed function the correct answer differs from the third and the
    fourth option, so it can only be repeated by the second, the value plus
    one; in the question about two vertical asymptotes it occurs exactly
    once. *)
Theorem fixed_distractors_differ num den lvl nm (f : RationalFunction) qs q :
  RationalFunction_init num den lvl nm = Ok f ->
  create_questions f = Ok qs -> In q qs ->
  q_type q = "vertical_asymptote" \/ q_type q = "x_intercept" ->
  nth 2 (options q) "" <> correct_answer q /\
  nth 3 (options q) "" <> correct_answer q /\
  (points q = 150 -> occurrences (correct_answer q) (options q) = 1%nat).
Proof.
  intros Hinit Hqs Hin Hty.
  apply init_fields in Hinit. destruct Hinit as (_ & _ & _ & _ & Hxi & _).
  destruct (create_questions_parts f qs Hqs) as (qv & qh & qx & Hv & Hh & Hx & ->).
  assert (Fv := vertical_question_forms f).
  assert (Fh := horizontal_question_forms f).
  assert (Fx := intercept_question_forms f).
  rewrite !in_app_iff in Hin. destruct Hin as [Hin | [Hin | Hin]].
  - rewrite Hv in Fv. destruct (vertical_asymptotes f) as [| va [| va' [| va'' l]]].
    + injection Fv as ->. destruct Hin.
    + destruct Fv as (q0 & o1 & E & _ & _ & Hp & Hc & Ho). injection E as ->.
      destruct Hin as [<- | []]. rewrite Hc, Ho, Hp. cbn [nth].
      repeat split; discriminate.
    + destruct Fv as (q0 & lo & hi & E & _ & _ & _ & Hc & Ho). injection E as ->.
      destruct Hin as [<- | []]. rewrite Hc, Ho. cbn [nth]. split; [| split].
      * intros E. apply (f_equal String.length) in E. rewrite !length_append in E.
        simpl in E. lia.
      * discriminate.
      * intros _. apply two_roots_answer_unique.
    + discriminate.
  - exfalso. rewrite Hh in Fh. destruct (horizontal_asymptote f) as [ha |].
    + destruct Fh as (q0 & ? & E & _ & Ht & _). injection E as ->.
      destruct Hin as [<- | []]. rewrite Ht in Hty. destruct Hty; discriminate.
    + injection Fh as ->. destruct Hin.
  - rewrite Hx in Fx.
    destruct (find_x_intercepts_inv _ _ Hxi) as [E | (n0 & n1 & r & _ & _ & _ & Hr & E)];
      rewrite E in Fx.
    + injection Fx as ->. destruct Hin.
    + destruct Fx as (q0 & o1 & E' & _ & _ & Hp & Hc & Ho). injection E' as ->.
      destruct Hin as [<- | []]. rewrite Hc, Ho, Hp. cbn [nth]. split; [| split].
      * intros Hy. symmetry in Hy. apply (py_str_float_not_0 r Hr).
        exact (prefixed_eq "x = " _ "0" Hy).
      * discriminate.
      * discriminate.
Qed.

(** The sample function [(x-1)/(x^2-4)], its question about two
    asymptotes. *)
Lemma fixed_distractors_differ_witness :
  RationalFunction_init [PInt 1; PInt (-1)] [PInt 1; PInt 0; PInt (-4)] 2
    "f(x) = (x-1)/(x^2-4)" = Ok x_minus_1_over_x2_minus_4 /\
  exists qs q,
    create_questions x_minus_1_over_x2_minus_4 = Ok qs /\ In q qs /\
    q_type q = "vertical_asymptote" /\ points q = 150 /\
    occurrences (correct_answer q) (options q) = 1%nat.
Proof.
  refine (conj x_minus_1_over_x2_minus_4_init _).
  destruct (vertical_question_forms x_minus_1_over_x2_minus_4)
    as (q & lo & hi & Hq & _ & Ht & Hp & _).
  assert (Hqs : exists qh qx, create_questions x_minus_1_over_x2_minus_4 = Ok [q; qh; qx]).
  { vm_compute in Hq. injection Hq as <-. do 2 eexists. vm_compute. reflexivity. }
  destruct Hqs as (qh & qx & Hqs).
  exists [q; qh; qx], q.
  assert (Hin : In q [q; qh; qx]) by (left; reflexivity).
  refine (conj Hqs (conj Hin (conj Ht (conj Hp _)))).
  exact (proj2 (proj2 (fixed_distractors_differ _ _ _ _ _ _ _
                         x_minus_1_over_x2_minus_4_init Hqs Hin (or_introl Ht))) Hp).
Defined.

(* ================================================================= *)
(** ** The game session *)

Lemma next_question_keeps (s : game_state) :
  let s' := fst (next_question s) in
  score s' = score s /\ lives s' = lives s /\
  current_level s' = current_level s /\ functions_caught s' = functions_caught s /\
  player_name s' = player_name s.
Proof. unfold next_question. destruct (_ <=? _); cbn; repeat split. Qed.

(** X12: submitting the correct answer adds the question's points to the
    score and costs no life; any other answer costs one life and leaves the
    score as it is; the level and the list of caught functions stay. *)
Theorem submit_answer_scores (question : Question) (answer : string) (s : game_state) :
  let s' := fst (submit_answer question answer s) in
  (answer = correct_answer question ->
     score s' = score s + points question /\ lives s' = lives s) /\
  (answer <> correct_answer question ->
     score s' = score s /\ lives s' = lives s - 1) /\
  current_level s' = current_level s /\ functions_caught s' = functions_caught s.
Proof.
  unfold submit_answer.
  destruct (String.eqb_spec answer (correct_answer question)) as [E | E].
  - set (s1 := add_score s (points question)).
    assert (H1 : score s1 = score s + points question /\ lives s1 = lives s /\
                 current_level s1 = current_level s /\
                 functions_caught s1 = functions_caught s) by (repeat split).
    destruct (lives s1 <=? 0).
    + cbn [fst]. split; [intros _; tauto | split; [congruence | tauto]].
    + destruct (next_question_keeps s1) as (Hs & Hl & Hlv & Hc & _).
      destruct (next_question s1) as [s2 log2]. cbn [fst] in *.
      rewrite Hs, Hl, Hlv, Hc.
      split; [intros _; tauto | split; [congruence | tauto]].
  - set (s1 := lose_life s).
    assert (H1 : score s1 = score s /\ lives s1 = lives s - 1 /\
                 current_level s1 = current_level s /\
                 functions_caught s1 = functions_caught s) by (repeat split).
    destruct (lives s1 <=? 0).
    + cbn [fst]. split; [congruence | split; [intros _; tauto | tauto]].
    + destruct (next_question_keeps s1) as (Hs & Hl & Hlv & Hc & _).
      destruct (next_question s1) as [s2 log2]. cbn [fst] in *.
      rewrite Hs, Hl, Hlv, Hc.
      split; [congruence | split; [intros _; tauto | tauto]].
Qed.

(** X13: when the player has no life left after an answer, the handler
    stops there: the question on show stays and no rerun is asked for;
    otherwise it goes on as "Skip Question" does from the scored state and
    asks for a rerun. *)
Theorem submit_answer_game_over (question : Question) (answer : string) (s : game_state) :
  let s' := fst (submit_answer question answer s) in
  let shown := snd (submit_answer question answer s) in
  (lives s' <= 0 ->
     current_function s' = current_function s /\
     current_questions s' = current_questions s /\
     question_index s' = question_index s /\
     ~ In Rerun shown /\
     In (StError "💀 Game Over! You ran out of lives.") shown) /\
  (0 < lives s' ->
     s' = fst (next_question
                 (if String.eqb answer (correct_answer question)
                  then add_score s (points question) else lose_life s)) /\
     In Rerun shown /\ In (Sleep 2) shown).
Proof.
  unfold submit_answer.
  set (is_correct := String.eqb answer (correct_answer question)).
  set (s1 := if is_correct then add_score s (if is_correct then points question else 0)
             else lose_life s).
  assert (Hs1 : s1 = if is_correct then add_score s (points question) else lose_life s).
  { subst s1. destruct is_correct; reflexivity. }
  assert (Hkeep : current_function s1 = current_function s /\
                  current_questions s1 = current_questions s /\
                  question_index s1 = question_index s).
  { rewrite Hs1. destruct is_correct; repeat split. }
  rewrite <- Hs1.
  destruct (Z.leb_spec (lives s1) 0) as [Hover | Halive].
  - cbn [fst snd]. split; [| lia]. intros _.
    destruct Hkeep as (H1 & H2 & H3). repeat split; try assumption.
    + rewrite in_app_iff. intros [Hin | [Hin | []]]; [| discriminate Hin].
      destruct is_correct; destruct Hin as [Hin | [Hin | []]]; discriminate Hin.
    + rewrite in_app_iff. right. left. reflexivity.
  - destruct (next_question_keeps s1) as (_ & Hl & _).
    assert (Hrerun : In Rerun (snd (next_question s1))).
    { unfold next_question. destruct (_ <=? _); cbn; auto. }
    destruct (next_question s1) as [s2 log2]. cbn [fst snd] in *. split; [lia |].
    intros _. split; [reflexivity |]. split.
    + rewrite !in_app_iff. right. right. exact Hrerun.
    + rewrite !in_app_iff. right. left. left. reflexivity.
Qed.

Lemma resubmit_stuck (question : Question) (n : nat) (s : game_state) :
  lives s <= 0 ->
  let s' := resubmit n question (correct_answer question) s in
  score s' = score s + Z.of_nat n * points question /\
  lives s' = lives s /\
  current_function s' = current_function s /\
  current_questions s' = current_questions s /\
  question_index s' = question_index s.
Proof.
  revert s. induction n as [| n IH]; intros s Hl.
  - cbn. repeat split. lia.
  - cbn [resubmit].
    assert (E : fst (submit_answer question (correct_answer question) s)
                = add_score s (points question)).
    { unfold submit_answer. rewrite String.eqb_refl.
      change (lives (add_score s (points question))) with (lives s).
      destruct (Z.leb_spec (lives s) 0); [reflexivity | lia]. }
    rewrite E. destruct (IH (add_score s (points question)) Hl) as (H1 & H2 & H3 & H4 & H5).
    cbn zeta in *. rewrite H1, H2, H3, H4, H5. cbn [score add_score].
    repeat split. lia.
Qed.

(** X14: once the lives are used up the game goes on taking answers: each
    further correct answer to the question on show adds its points again,
    and the question stays on show. *)
Theorem score_after_game_over (question : Question) (n : nat) (s : game_state) :
  lives s <= 0 ->
  let s' := resubmit n question (correct_answer question) s in
  score s' = score s + Z.of_nat n * points question /\
  current_questions s' = current_questions s /\
  question_index s' = question_index s.
Proof.
  intros Hl. destruct (resubmit_stuck question n s Hl) as (H1 & _ & _ & H4 & H5).
  cbn zeta. auto.
Qed.

(** Five wrong answers, then three correct ones on the same question. *)
Lemma score_after_game_over_witness :
  let q := {| function := one_over_x; q_type := "horizontal_asymptote";
              question_text := "What is the horizontal asymptote of f(x) = 1/x?";
              options := ["y = 0"; "y = 1"; "y = 0"; "No horizontal asymptote"];
              correct_answer := "y = 0";
              explanation := "Compare the degrees of numerator and denominator to find the horizontal asymptote.";
              points := 100 |} in
  let s := resubmit 5 q "y = 1" initial_game_state in
  lives s <= 0 /\ score s = 0 /\ score (resubmit 3 q (correct_answer q) s) = 300.
Proof.
  intros q s.
  assert (Hl : lives s <= 0) by (vm_compute; discriminate).
  assert (Hs : score s = 0) by reflexivity.
  refine (conj Hl (conj Hs _)).
  rewrite (proj1 (score_after_game_over q 3 s Hl)), Hs. reflexivity.
Defined.

Lemma next_question_index (s : game_state) :
  0 <= question_index s -> index_in_range (fst (next_question s)).
Proof.
  intros H0. unfold next_question, index_in_range.
  destruct (Z.leb_spec (Z.of_nat (List.length (current_questions s)))
              (question_index s + 1)); cbn.
  - split; [lia | congruence].
  - split; [lia | intros _; assumption].
Qed.

(** X15: every handler keeps the index of the question on show in range:
    not negative, and below the number of questions while there are any. *)
Theorem handlers_keep_index_in_range (s : game_state) :
  index_in_range s ->
  index_in_range (fst (next_question s)) /\
  (forall question answer, index_in_range (fst (submit_answer question answer s))) /\
  index_in_range (fst (advance_level s)) /\
  index_in_range (fst (reset_game s)) /\
  (forall f s' shown, catch_function f s = (s', shown, None) -> index_in_range s').
Proof.
  intros [H0 Hlt]. split; [| split; [| split; [| split]]].
  - now apply next_question_index.
  - intros question answer. unfold submit_answer.
    set (s1 := if String.eqb answer (correct_answer question) then _ else _).
    assert (H1 : index_in_range s1).
    { subst s1. destruct (String.eqb _ _); split; assumption. }
    destruct (lives s1 <=? 0); [exact H1 |].
    assert (H2 := next_question_index s1 (proj1 H1)).
    destruct (next_question s1). exact H2.
  - split; [exact H0 | cbn; congruence].
  - split; [cbn; lia | cbn; congruence].
  - intros f s' shown. unfold catch_function.
    destruct (create_questions f) as [qs | e]; [| discriminate].
    intros H. injection H as <- _. split; cbn; [lia |].
    destruct qs; [congruence | intros _; cbn [List.length]; lia].
Qed.

(** The state after catching [f(x) = 1/x], and one question later. *)
Lemma handlers_keep_index_in_range_witness :
  index_in_range initial_game_state /\
  forall s' shown,
    catch_function one_over_x initial_game_state = (s', shown, None) ->
    index_in_range s' /\ index_in_range (fst (next_question s')).
Proof.
  assert (H0 : index_in_range initial_game_state).
  { split; [cbn; lia | cbn; congruence]. }
  refine (conj H0 _). intros s' shown Hc.
  assert (H1 := proj2 (proj2 (proj2 (proj2
                  (handlers_keep_index_in_range initial_game_state H0))))
                  one_over_x s' shown Hc).
  exact (conj H1 (proj1 (handlers_keep_index_in_range s' H1))).
Defined.

Lemma skip_questions (qs : list Question) (s : game_state) (k : nat) :
  current_questions s = qs ->
  0 <= question_index s ->
  question_index s + Z.of_nat k < Z.of_nat (List.length qs) ->
  current_questions (skip k s) = qs /\
  current_function (skip k s) = current_function s /\
  question_index (skip k s) = question_index s + Z.of_nat k.
Proof.
  revert s. induction k as [| k IH]; intros s Hq H0 Hlt.
  - cbn. repeat split; try assumption. lia.
  - cbn [skip].
    set (s1 :=
      {| player_name := player_name s; current_level := current_level s;
         score := score s; lives := lives s;
         functions_caught := functions_caught s;
         current_function := current_function s;
         current_questions := current_questions s;
         question_index := question_index s + 1;
         game_started := game_started s; show_feedback := show_feedback s;
         feedback_data := feedback_data s; leaderboard := leaderboard s |}).
    assert (E : fst (next_question s) = s1).
    { unfold next_question.
      destruct (Z.leb_spec (Z.of_nat (List.length (current_questions s)))
                  (question_index s + 1)) as [Hle | _];
        [rewrite Hq in Hle; lia | reflexivity]. }
    rewrite E.
    assert (Hq1 : current_questions s1 = qs) by exact Hq.
    assert (Hi1 : question_index s1 = question_index s + 1) by reflexivity.
    destruct (IH s1 Hq1) as (H1 & H2 & H3); [lia | lia |].
    rewrite H1, H2, H3, Hi1. repeat split. lia.
Qed.

(** X16: after a function is caught, skipping [k] questions, [k] fewer
    than there are, puts question [k] on show; skipping as many questions
    as there are ends the function: no function and no question is on show
    and the index is back at 0. *)
Theorem skip_all_questions (f : RationalFunction) (s s' : game_state)
    (shown : list ui_event) :
  catch_function f s = (s', shown, None) ->
  current_questions s' <> [] ->
  let qs := current_questions s' in
  create_questions f = Ok qs /\
  (forall k, (k < List.length qs)%nat ->
     current_function (skip k s') = Some f /\
     current_question (skip k s') = nth_error qs k) /\
  (current_function (skip (List.length qs) s') = None /\
   current_questions (skip (List.length qs) s') = [] /\
   question_index (skip (List.length qs) s') = 0).
Proof.
  unfold catch_function. destruct (create_questions f) as [qs | e]; [| discriminate].
  intros H Hne. injection H as <- _. cbn [current_questions] in *. cbn zeta.
  split; [reflexivity |].
  set (s' := {| player_name := player_name s; current_questions := qs;
                question_index := 0 |}).
  assert (Hk : forall k, (k < List.length qs)%nat ->
     current_questions (skip k s') = qs /\ current_function (skip k s') = Some f /\
     question_index (skip k s') = Z.of_nat k).
  { intros k Hlt. destruct (skip_questions qs s' k) as (H1 & H2 & H3);
      [reflexivity | cbn; lia | cbn; lia |].
    rewrite H1, H2, H3. cbn. repeat split. }
  split.
  - intros k Hlt. destruct (Hk k Hlt) as (H1 & H2 & H3). split; [exact H2 |].
    unfold current_question. rewrite H1, H3.
    destruct (Z.leb_spec 0 (Z.of_nat k)); [| lia]. now rewrite Nat2Z.id.
  - destruct qs as [| q0 qs0]; [congruence |].
    assert (Hlast : (List.length qs0 < List.length (q0 :: qs0))%nat) by (cbn; lia).
    destruct (Hk _ Hlast) as (H1 & H2 & H3).
    replace (List.length (q0 :: qs0)) with (List.length qs0 + 1)%nat by (cbn; lia).
    assert (Hskip : forall a b st, skip (a + b) st = skip b (skip a st)).
    { induction a as [| a IHa]; intros b st; [reflexivity |]. cbn [Nat.add skip].
      apply IHa. }
    rewrite Hskip. cbn [skip]. unfold next_question. rewrite H1, H3.
    destruct (Z.leb_spec (Z.of_nat (List.length (q0 :: qs0))) (Z.of_nat (List.length qs0) + 1));
      [cbn; repeat split | cbn [List.length] in *; lia].
Qed.

(** Catching [f(x) = 1/x] from the start: two questions, then none. *)
Lemma skip_all_questions_witness :
  exists s' shown,
    catch_function one_over_x initial_game_state = (s', shown, None) /\
    current_questions s' <> [] /\
    List.length (current_questions s') = 2%nat /\
    current_function (skip 1 s') = Some one_over_x /\
    current_function (skip 2 s') = None.
Proof.
  destruct (catch_function one_over_x initial_game_state) as [[s' shown] o] eqn:Hc.
  pose proof Hc as Hv. vm_compute in Hv. injection Hv as Es Esh Eo.
  subst o. exists s', shown.
  assert (Hne : current_questions s' <> []) by (rewrite <- Es; discriminate).
  assert (Hlen : List.length (current_questions s') = 2%nat) by (rewrite <- Es; reflexivity).
  refine (conj eq_refl (conj Hne (conj Hlen _))).
  destruct (skip_all_questions one_over_x initial_game_state s' shown Hc Hne)
    as (_ & Hk & Hend & _).
  rewrite Hlen in Hend, Hk. split; [| exact Hend].
  exact (proj1 (Hk 1%nat (Nat.lt_1_2))).
Defined.

Lemma existsb_snoc {A : Type} (p : A -> bool) (l : list A) (a : A) :
  existsb p (l ++ [a]) = existsb p l || p a.
Proof. rewrite existsb_app. simpl. now rewrite orb_false_r. Qed.

Lemma filter_filter {A : Type} (p q : A -> bool) (l : list A) :
  filter q (filter p l) = filter (fun a => p a && q a) l.
Proof.
  induction l as [| a l IH]; [reflexivity |]. cbn [filter].
  destruct (p a); cbn [filter andb]; [destruct (q a) |]; now rewrite IH.
Qed.

(** X17: once a function is caught, the functions on offer are the ones on
    offer before except those that bear its name: it is not offered again,
    and nothing else is taken away or added. *)
Theorem caught_function_not_offered (f : RationalFunction) (s s' : game_state)
    (shown : list ui_event) (before : list RationalFunction) :
  catch_function f s = (s', shown, None) ->
  available_functions s = Ok before ->
  available_functions s'
    = Ok (filter (fun g => negb (String.eqb (name g) (name f))) before) /\
  (forall g, In g (filter (fun g => negb (String.eqb (name g) (name f))) before) ->
             name g <> name f /\ In g before).
Proof.
  unfold catch_function. destruct (create_questions f) as [qs | e]; [| discriminate].
  intros H. injection H as <- _. unfold available_functions.
  destruct create_sample_functions as [table | e]; [| discriminate].
  cbn [bind current_level functions_caught]. intros H. injection H as <-. split.
  - f_equal. rewrite filter_filter. apply filter_ext. intros g.
    rewrite existsb_snoc, negb_orb. reflexivity.
  - intros g Hg. apply filter_In in Hg. destruct Hg as [Hin Hn]. split; [| exact Hin].
    intros E. rewrite E, String.eqb_refl in Hn. discriminate.
Qed.

Lemma create_sample_functions_levels :
  exists l1 l2, create_sample_functions = Ok [(1, l1); (2, l2)] /\
                List.length l1 = 4%nat /\ List.length l2 = 3%nat.
Proof. do 2 eexists. split; [vm_compute; reflexivity | split; reflexivity]. Qed.

(** Catching [f(x) = 1/x] at the start leaves the three other functions
    of level 1. *)
Lemma caught_function_not_offered_witness :
  exists s' shown before,
    catch_function one_over_x initial_game_state = (s', shown, None) /\
    available_functions initial_game_state = Ok before /\
    List.length before = 4%nat /\
    exists after, available_functions s' = Ok after /\ List.length after = 3%nat.
Proof.
  destruct (catch_function one_over_x initial_game_state) as [[s' shown] o] eqn:Hc.
  pose proof Hc as Hv. vm_compute in Hv. injection Hv as Es Esh Eo.
  subst o.
  destruct (available_functions initial_game_state) as [before | e] eqn:Hb;
    [| vm_compute in Hb; discriminate Hb].
  exists s', shown, before.
  assert (Hlen : List.length before = 4%nat).
  { vm_compute in Hb. injection Hb as <-. reflexivity. }
  refine (conj eq_refl (conj eq_refl (conj Hlen _))).
  eexists. split.
  - exact (proj1 (caught_function_not_offered _ _ _ _ _ Hc Hb)).
  - vm_compute in Hb. injection Hb as <-. reflexivity.
Defined.

(** X18: the game has two levels: at any other level no function is on
    offer, and [advance_level], which only ever raises the level by one,
    does not bring one back once the level is above 2. *)
Theorem no_functions_beyond_level_2 (s : game_state) :
  (current_level s <> 1 -> current_level s <> 2 -> available_functions s = Ok []) /\
  current_level (fst (advance_level s)) = current_level s + 1 /\
  (2 <= current_level s -> available_functions (fst (advance_level s)) = Ok []).
Proof.
  destruct create_sample_functions_levels as (l1 & l2 & Ht & _).
  assert (Hnone : forall st, current_level st <> 1 -> current_level st <> 2 ->
                             available_functions st = Ok []).
  { intros st H1 H2. unfold available_functions. rewrite Ht. cbn [bind get_level].
    destruct (Z.eqb_spec 1 (current_level st)); [congruence |].
    destruct (Z.eqb_spec 2 (current_level st)); [congruence |]. reflexivity. }
  split; [apply Hnone | split; [reflexivity |]].
  intros H2. apply Hnone; cbn; lia.
Qed.

(** After level 2. *)
Lemma no_functions_beyond_level_2_witness :
  2 <= current_level (fst (advance_level initial_game_state)) /\
  available_functions (fst (advance_level (fst (advance_level initial_game_state))))
  = Ok [].
Proof.
  assert (H : 2 <= current_level (fst (advance_level initial_game_state)))
    by (vm_compute; discriminate).
  exact (conj H (proj2 (proj2 (no_functions_beyond_level_2 _)) H)).
Defined.

(** X19: a question that [create_questions] makes for a constructed
    function gets the hint written for its kind; neither the default hint
    nor the one for a y-intercept is ever shown for it. *)
Theorem hint_of_generated_question num den lvl nm (f : RationalFunction) qs q :
  RationalFunction_init num den lvl nm = Ok f ->
  create_questions f = Ok qs -> In q qs ->
  exists hint, show_hint q = [StInfo ("💡 **Hint:** " ++ hint)] /\
    ((q_type q = "vertical_asymptote" /\
      hint = "Look for values that make the denominator equal to zero.") \/
     (q_type q = "horizontal_asymptote" /\
      hint = "Compare the degrees of the numerator and denominator.") \/
     (q_type q = "x_intercept" /\
      hint = "Find where the numerator equals zero (but denominator doesn't).")).
Proof.
  intros Hinit Hqs Hin.
  destruct (create_questions_shape _ _ _ _ _ Hinit) as (qs' & Hqs' & Hk & _).
  rewrite Hqs in Hqs'. injection Hqs' as <-.
  assert (Hty : In (q_type q) (expected_kinds f)).
  { rewrite <- Hk. now apply in_map. }
  unfold expected_kinds in Hty. rewrite !in_app_iff in Hty.
  unfold show_hint. destruct Hty as [Hty | [Hty | Hty]].
  - destruct (vertical_asymptotes f); [destruct Hty |].
    destruct Hty as [<- | []]. eexists. split; [reflexivity |]. left. split; reflexivity.
  - destruct (horizontal_asymptote f); [| destruct Hty].
    destruct Hty as [<- | []]. eexists. split; [reflexivity |].
    right; left. split; reflexivity.
  - destruct (x_intercepts f); [destruct Hty |].
    destruct Hty as [<- | []]. eexists. split; [reflexivity |].
    right; right. split; reflexivity.
Qed.

(** The questions of the sample function [f(x) = 1/x]. *)
Lemma hint_of_generated_question_witness :
  RationalFunction_init [PInt 1] [PInt 1; PInt 0] 1 "f(x) = 1/x" = Ok one_over_x /\
  exists qs, create_questions one_over_x = Ok qs /\
    forall q, In q qs -> exists hint, show_hint q = [StInfo ("💡 **Hint:** " ++ hint)].
Proof.
  refine (conj one_over_x_init _).
  destruct (create_questions one_over_x) as [qs | e] eqn:Hqs;
    [| vm_compute in Hqs; discriminate Hqs].
  exists qs. refine (conj eq_refl _). intros q Hin.
  destruct (hint_of_generated_question _ _ _ _ _ _ _ one_over_x_init Hqs Hin)
    as (hint & Hh & _).
  exists hint. exact Hh.
Defined.

(* ----------------------------------------------------------------- *)
(** *** Sessions *)

Lemma create_questions_points (f : RationalFunction) (qs : list Question) :
  create_questions f = Ok qs ->
  Forall (fun q => points q = 100 \/ points q = 150) qs.
Proof.
  intros Hqs.
  destruct (create_questions_parts f qs Hqs) as (qv & qh & qx & Hv & Hh & Hx & ->).
  assert (Fv := vertical_question_forms f).
  assert (Fh := horizontal_question_forms f).
  assert (Fx := intercept_question_forms f).
  rewrite !Forall_app. split; [| split].
  - destruct (vertical_asymptotes f) as [| va [| va' [| va'' l]]].
    + rewrite Fv in Hv. injection Hv as <-. constructor.
    + destruct Fv as (q & o1 & E & _ & _ & Hp & _). rewrite E in Hv.
      injection Hv as <-. constructor; [now left | constructor].
    + destruct Fv as (q & lo & hi & E & _ & _ & Hp & _). rewrite E in Hv.
      injection Hv as <-. constructor; [now right | constructor].
    + rewrite Fv in Hv. discriminate.
  - destruct (horizontal_asymptote f) as [ha |].
    + destruct Fh as (q & o1 & E & _ & _ & Hp & _). rewrite E in Hh.
      injection Hh as <-. constructor; [now left | constructor].
    + rewrite Fh in Hh. injection Hh as <-. constructor.
  - destruct (x_intercepts f) as [| xi rest].
    + rewrite Fx in Hx. injection Hx as <-. constructor.
    + destruct Fx as (q & o1 & E & _ & _ & Hp & _). rewrite E in Hx.
      injection Hx as <-. constructor; [now left | constructor].
Qed.

Lemma initial_invariant : game_invariant initial_game_state.
Proof.
  unfold game_invariant, index_in_range. cbn.
  repeat split; try lia; try constructor; try congruence.
  intros all_functions _ a [].
Qed.

Lemma next_question_invariant (s : game_state) :
  game_invariant s -> game_invariant (fst (next_question s)).
Proof.
  intros (Hs & Hl & Hv & Hn & Hi & Hx & Hf & Hp & Hg).
  assert (Hx' := next_question_index s (proj1 Hx)).
  revert Hx'. unfold game_invariant, next_question.
  destruct (_ <=? _) eqn:Hle; cbn; intros Hx'.
  - repeat split; try assumption; try apply Hx'; try constructor.
    intros E. apply Hg in E. subst s. reflexivity.
  - repeat split; try assumption; try apply Hx'.
    intros E. apply Hg in E. subst s. discriminate Hle.
Qed.

Lemma getitem_In {A : Type} (l : list A) (i : Z) (a : A) :
  getitem l i = Ok a -> In a l.
Proof.
  unfold getitem. destruct (_ <? 0); [discriminate |].
  destruct (nth_error l _) as [b |] eqn:E; [| discriminate].
  intros H. injection H as <-. eapply nth_error_In; eassumption.
Qed.

Lemma question_panel_In (s : game_state) (q : Question) :
  question_panel s = Some q -> In q (current_questions s).
Proof.
  unfold question_panel. destruct (current_function s); [| discriminate].
  destruct (current_questions s) as [| q0 qs] eqn:E; [discriminate |].
  destruct (_ <? _); [| discriminate].
  destruct (getitem (q0 :: qs) (question_index s)) as [q' | e] eqn:G; [| discriminate].
  intros H. injection H as <-. eapply getitem_In; eassumption.
Qed.

Lemma submit_answer_invariant (question : Question) (answer : string) (s : game_state) :
  game_invariant s -> In question (current_questions s) -> game_started s = true ->
  game_invariant (fst (submit_answer question answer s)).
Proof.
  intros Inv Hin Hst.
  assert (Hpts : 0 <= points question).
  { destruct Inv as (_ & _ & _ & _ & _ & _ & _ & Hp & _).
    rewrite Forall_forall in Hp. destruct (Hp _ Hin); lia. }
  assert (Inv1 : game_invariant
            (if (answer =? correct_answer question)%string
             then add_score s (if (answer =? correct_answer question)%string
                               then points question else 0)
             else lose_life s)).
  { destruct Inv as (Hs & Hl & Hv & Hn & Hi & Hx & Hf & Hp & Hg).
    destruct (answer =? correct_answer question)%string;
      unfold game_invariant, index_in_range, add_score, lose_life; cbn;
      (repeat split; try assumption; try apply Hx; try lia;
       intros E; congruence). }
  unfold submit_answer. cbv zeta.
  set (s1 := if (answer =? correct_answer question)%string then _ else _) in *.
  destruct (lives s1 <=? 0); [exact Inv1 |].
  apply next_question_invariant in Inv1.
  destruct (next_question s1) as [s2 shown2]. exact Inv1.
Qed.

Lemma available_functions_In (s : game_state) (available : list RationalFunction)
    (f : RationalFunction) :
  available_functions s = Ok available -> In f available ->
  ~ In (name f) (functions_caught s) /\
  forall all_functions, create_sample_functions = Ok all_functions ->
    In (name f) (map name (get_level all_functions (current_level s))).
Proof.
  unfold available_functions. intros H Hin.
  apply bind_Ok in H. destruct H as (fs & Hfs & H). injection H as <-.
  apply filter_In in Hin. destruct Hin as [Hl Hc]. split.
  - intros Hcaught. apply negb_true_iff in Hc.
    assert (existsb (String.eqb (name f)) (functions_caught s) = true).
    { apply existsb_exists. exists (name f). split; [assumption | apply String.eqb_refl]. }
    congruence.
  - intros all_functions Hall. assert (all_functions = fs) by congruence. subst fs.
    now apply in_map.
Qed.

Lemma NoDup_snoc {A : Type} (l : list A) (a : A) :
  NoDup l -> ~ In a l -> NoDup (l ++ [a]).
Proof.
  intros Hn Ha. apply NoDup_rev in Hn. rewrite <- (rev_involutive (l ++ [a])).
  apply NoDup_rev. rewrite rev_app_distr. cbn. constructor; [| assumption].
  now rewrite <- in_rev.
Qed.

Lemma catch_function_invariant (f : RationalFunction) (s : game_state)
    (available : list RationalFunction) :
  game_invariant s -> game_started s = true ->
  available_functions s = Ok available -> In f available ->
  game_invariant (fst (fst (catch_function f s))).
Proof.
  intros (Hs & Hl & Hv & Hn & Hi & Hx & Hf & Hp & Hg) Hst Hav Hin.
  destruct (available_functions_In s available f Hav Hin) as [Hnew Hlevel].
  unfold catch_function. destruct (create_questions f) as [qs | e] eqn:Hqs; cbn.
  - unfold game_invariant, index_in_range; cbn. repeat split; try assumption; try lia.
    + now apply NoDup_snoc.
    + intros all_functions E a Ha. apply in_app_or in Ha.
      destruct Ha as [Ha | [<- | []]]; [now apply (Hi all_functions E) | now apply Hlevel].
    + intros Hne. destruct qs; [congruence | cbn; lia].
    + discriminate.
    + now apply create_questions_points with f.
    + congruence.
  - unfold game_invariant, index_in_range; cbn. repeat split; try assumption;
      try apply Hx; try discriminate. congruence.
Qed.

Lemma click_invariant (b : button) (s s' : game_state) :
  game_invariant s -> click b s = Some s' -> game_invariant s'.
Proof.
  intros Inv. unfold click. destruct (game_started s) eqn:Hst; cbn [negb].
  - destruct b as [p | | | | i | choice | |]; try discriminate.
    + intros H. injection H as <-. exact Inv.
    + intros H. injection H as <-. exact initial_invariant.
    + destruct (available_functions s) as [[| f fs] | e]; try discriminate.
      intros H. injection H as <-.
      destruct Inv as (Hs & Hl & Hv & Hn & Hi & Hx & Hf & Hp & Hg).
      unfold game_invariant, index_in_range, advance_level; cbn.
      repeat split; try assumption; try lia; try constructor; try apply Hx;
        try congruence.
      intros all_functions _ a [].
    + destruct (available_functions s) as [available | e] eqn:Hav; [| discriminate].
      destruct (nth_error available i) as [f |] eqn:Hf; [| discriminate].
      intros H. injection H as <-.
      apply catch_function_invariant with available; try assumption.
      eapply nth_error_In; eassumption.
    + destruct (question_panel s) as [q |] eqn:Hq; [| discriminate].
      destruct (nth_error (options q) choice) as [answer |]; [| discriminate].
      intros H. injection H as <-.
      apply submit_answer_invariant; [assumption | | assumption].
      now apply question_panel_In.
    + destruct (question_panel s); [| discriminate].
      intros H. injection H as <-. exact Inv.
    + destruct (question_panel s); [| discriminate].
      intros H. injection H as <-. now apply next_question_invariant.
  - destruct b as [p | | | | i | choice | |]; try discriminate.
    destruct Inv as (_ & _ & _ & _ & _ & _ & _ & _ & Hg).
    rewrite (Hg Hst). destruct (p =? "")%string; intros H; injection H as <-.
    + exact initial_invariant.
    + unfold game_invariant, index_in_range, start_game; cbn.
      repeat split; try lia; try constructor; try congruence.
      intros all_functions _ a [].
Qed.

Lemma play_invariant (clicks : list button) (s s' : game_state) :
  game_invariant s -> play clicks s = Some s' -> game_invariant s'.
Proof.
  revert s. induction clicks as [| b rest IH]; intros s Inv; cbn [play].
  - intros H. injection H as <-. exact Inv.
  - destruct (click b s) as [s1 |] eqn:E; [| discriminate].
    apply IH. eapply click_invariant; eassumption.
Qed.

Lemma get_level_at_most_4 (all_functions : list (Z * list RationalFunction)) (level : Z) :
  create_sample_functions = Ok all_functions ->
  (List.length (get_level all_functions level) <= 4)%nat.
Proof.
  destruct create_sample_functions_levels as (l1 & l2 & E & H1 & H2).
  rewrite E. intros H. injection H as <-. cbn [get_level].
  destruct (1 =? level); [lia |]. destruct (2 =? level); [lia |]. cbn. lia.
Qed.

(** X21: all through a session, whatever buttons are clicked from the start:
    the score is not negative, there are at most 5 lives, the level is at
    least 1, no function name is caught twice and every caught name is one of
    the current level (so at most 4 are caught), the index of the question on
    show is in range, there are questions only while a function is current,
    every question is worth 100 or 150 points, and before the game is started
    the state is the initial one. *)
Theorem session_invariant (clicks : list button) (s : game_state) :
  play clicks initial_game_state = Some s ->
  game_invariant s /\ (List.length (functions_caught s) <= 4)%nat.
Proof.
  intros H. assert (Inv := play_invariant clicks _ _ initial_invariant H).
  split; [exact Inv |].
  destruct Inv as (_ & _ & _ & Hn & Hi & _).
  destruct create_sample_functions as [all_functions | e] eqn:E.
  - specialize (Hi all_functions eq_refl).
    apply (NoDup_incl_length Hn) in Hi. rewrite length_map in Hi.
    assert (Hle := get_level_at_most_4 all_functions (current_level s) E). lia.
  - destruct create_sample_functions_levels as (l1 & l2 & E' & _). congruence.
Qed.

(** Start, catch [f(x) = 1/x], answer its first question rightly and
    skip the second. *)
Lemma session_invariant_witness :
  exists s,
    play [StartGame "Ada"; CatchFunction 0; SubmitAnswer 0; SkipQuestion]
         initial_game_state = Some s /\
    score s = 100 /\ functions_caught s = ["f(x) = 1/x"] /\
    game_invariant s.
Proof.
  destruct (play [StartGame "Ada"; CatchFunction 0; SubmitAnswer 0; SkipQuestion]
                 initial_game_state) as [s |] eqn:Hp;
    [| vm_compute in Hp; discriminate Hp].
  exists s. pose proof Hp as Hv. vm_compute in Hv. injection Hv as Es.
  assert (Hscore : score s = 100) by (rewrite <- Es; reflexivity).
  assert (Hcaught : functions_caught s = ["f(x) = 1/x"]) by (rewrite <- Es; reflexivity).
  refine (conj eq_refl (conj Hscore (conj Hcaught _))).
  exact (proj1 (session_invariant _ s Hp)).
Defined.

Lemma submit_correct_answer (question : Question) (s : game_state) :
  let s' := fst (submit_answer question (correct_answer question) s) in
  score s' = score s + points question /\ lives s' = lives s.
Proof.
  unfold submit_answer. rewrite String.eqb_refl. cbv zeta.
  destruct (lives (add_score s (points question)) <=? 0); [cbn; auto |].
  destruct (next_question_keeps (add_score s (points question))) as (H1 & H2 & _).
  destruct (next_question (add_score s (points question))) as [s2 shown2].
  cbn in *. auto.
Qed.

(** X22: the first option of every generated question, the one the radio
    of [main] shows at the top, is the correct answer: submitting it adds the
    question's points and costs no life. *)
Theorem first_option_is_correct num den lvl nm (f : RationalFunction) qs q
    (s : game_state) :
  RationalFunction_init num den lvl nm = Ok f ->
  create_questions f = Ok qs -> In q qs ->
  exists first, nth_error (options q) 0 = Some first /\
    first = correct_answer q /\
    let s' := fst (submit_answer q first s) in
    score s' = score s + points q /\ lives s' = lives s.
Proof.
  intros Hinit Hqs Hin.
  destruct (correct_answer_is_first_option _ _ _ _ _ _ _ Hinit Hqs Hin)
    as (o1 & o2 & o3 & Ho).
  exists (correct_answer q). rewrite Ho. split; [reflexivity |].
  split; [reflexivity |]. apply submit_correct_answer.
Qed.

(** The two questions of [f(x) = 1/x]. *)
Lemma first_option_is_correct_witness :
  RationalFunction_init [PInt 1] [PInt 1; PInt 0] 1 "f(x) = 1/x" = Ok one_over_x /\
  exists qs, create_questions one_over_x = Ok qs /\
    forall q, In q qs -> nth_error (options q) 0 = Some (correct_answer q).
Proof.
  refine (conj one_over_x_init _).
  destruct (create_questions one_over_x) as [qs | e] eqn:Hqs;
    [| vm_compute in Hqs; discriminate Hqs].
  exists qs. refine (conj eq_refl _). intros q Hin.
  destruct (first_option_is_correct _ _ _ _ _ _ _ initial_game_state
              one_over_x_init Hqs Hin) as (first & Hf & -> & _).
  exact Hf.
Defined.

Lemma question_panel_add_score (s : game_state) (pts : Z) :
  question_panel (add_score s pts) = question_panel s.
Proof. reflexivity. Qed.

(** X23: [main] never looks at the lives: with no life left the question
    stays on show, "Submit Answer" keeps working, and every further
    submission of the first option, when that is the correct answer, adds the
    question's points once more. *)
Theorem submit_stays_on_show (s : game_state) (q : Question) (n : nat) :
  game_started s = true -> lives s <= 0 -> question_panel s = Some q ->
  nth_error (options q) 0 = Some (correct_answer q) ->
  exists s', play (repeat (SubmitAnswer 0) n) s = Some s' /\
    question_panel s' = Some q /\
    score s' = score s + Z.of_nat n * points q /\ lives s' = lives s.
Proof.
  intros Hst Hl Hq Ho. revert s Hst Hl Hq.
  induction n as [| n IH]; intros s Hst Hl Hq.
  - exists s. cbn [repeat play]. repeat split; [assumption | lia].
  - cbn [repeat play]. unfold click. rewrite Hst, Hq, Ho. cbn [negb].
    assert (E : fst (submit_answer q (correct_answer q) s) = add_score s (points q)).
    { unfold submit_answer. rewrite String.eqb_refl. cbv zeta.
      replace (lives (add_score s (points q)) <=? 0) with true; [reflexivity |].
      symmetry. apply Z.leb_le. exact Hl. }
    rewrite E.
    destruct (IH (add_score s (points q)) Hst Hl) as (s' & Hp & Hq' & Hs & Hl').
    { rewrite question_panel_add_score. exact Hq. }
    exists s'. split; [exact Hp |]. split; [exact Hq' |].
    split; [rewrite Hs; cbn [add_score score]; lia | exact Hl'].
Qed.

(** Five wrong answers over the first three functions of level 1 use up the
    lives; the question of the third function then takes three right
    answers. *)
Lemma submit_stays_on_show_witness :
  exists s q s',
    play [StartGame "Ada"; CatchFunction 0; SubmitAnswer 3; SubmitAnswer 3;
          CatchFunction 0; SubmitAnswer 3; SubmitAnswer 3;
          CatchFunction 0; SubmitAnswer 3] initial_game_state = Some s /\
    game_started s = true /\ lives s <= 0 /\ question_panel s = Some q /\
    nth_error (options q) 0 = Some (correct_answer q) /\
    play (repeat (SubmitAnswer 0) 3) s = Some s' /\
    score s' = score s + 3 * points q.
Proof.
  destruct (play [StartGame "Ada"; CatchFunction 0; SubmitAnswer 3; SubmitAnswer 3;
                  CatchFunction 0; SubmitAnswer 3; SubmitAnswer 3;
                  CatchFunction 0; SubmitAnswer 3] initial_game_state)
    as [s |] eqn:Hp; [| vm_compute in Hp; discriminate Hp].
  pose proof Hp as Hv. vm_compute in Hv. injection Hv as Es.
  assert (Hst : game_started s = true) by (rewrite <- Es; reflexivity).
  assert (Hl : lives s <= 0) by (rewrite <- Es; cbn; lia).
  destruct (question_panel s) as [q |] eqn:Hq;
    [| rewrite <- Es in Hq; vm_compute in Hq; discriminate Hq].
  assert (Ho : nth_error (options q) 0 = Some (correct_answer q)).
  { pose proof Hq as Hq'. rewrite <- Es in Hq'. vm_compute in Hq'.
    injection Hq' as Eq. rewrite <- Eq. reflexivity. }
  destruct (submit_stays_on_show s q 3 Hst Hl Hq Ho) as (s' & Hp' & _ & Hs & _).
  exists s, q, s'.
  exact (conj eq_refl (conj Hst (conj Hl (conj Hq (conj Ho (conj Hp' Hs)))))).
Defined.
